(** * Women-safety monitoring: risk assessment, tracking and alert gating

    A shallow embedding of the three monitoring scripts of the repository

    - [ai_model/enhanced_safety_model.py]   (module [Enhanced]),
    - [ai_model/camera_monitor.py]          (module [Simple]),
    - [ai_model/multi_camera_monitor.py]    (module [Multi]),

    together with the properties their specification states about them.

    Python floats (clock readings, brightness, pixel coordinates) are
    modelled as real numbers; [dict]s are finite maps; [deque(maxlen=30)] is a
    list whose append evicts the oldest element once the capacity is reached.
    The object detector, the image operations and the HTTP endpoint are
    outside the repository: their results enter every function as explicit
    arguments (a list of boxes, a mean grey level, the outcome of a POST). *)

From Stdlib Require Import Reals Lra Lia ZArith Ascii String List RList.
From stdpp Require Import base decidable option list sorting gmap strings pretty.

Open Scope R_scope.

(** ** Numbers, comparisons and small Python idioms *)

#[global] Instance Rlt_decision (x y : R) : Decision (x < y) := Rlt_dec x y.
#[global] Instance Rgt_decision (x y : R) : Decision (x > y) := Rgt_dec x y.
#[global] Instance Rle_decision (x y : R) : Decision (x <= y) := Rle_dec x y.
#[global] Instance Rge_decision (x y : R) : Decision (x >= y) := Rge_dec x y.
#[global] Instance nat_gt_decision (x y : nat) : Decision (x > y)%nat :=
  decide (y < x)%nat.
#[global] Instance nat_ge_decision (x y : nat) : Decision (x >= y)%nat :=
  decide (y <= x)%nat.

(** Severity labels are strings in the source; these five are the only ones
    any of the three scripts ever writes or tests. *)
Inductive severity : Type := LOW | MEDIUM | MAY_RISK | HIGH | CRITICAL.

#[global] Instance severity_eq_dec : EqDecision severity.
Proof. solve_decision. Defined.

(** The order of the glossary: LOW < MEDIUM < MAY_RISK < HIGH < CRITICAL. *)
Definition severity_rank (s : severity) : nat :=
  match s with
  | LOW => 0 | MEDIUM => 1 | MAY_RISK => 2 | HIGH => 3 | CRITICAL => 4
  end.

Definition severity_le (a b : severity) : Prop :=
  (severity_rank a <= severity_rank b)%nat.

#[global] Instance severity_le_dec (a b : severity) : Decision (severity_le a b).
Proof. unfold severity_le. apply _. Defined.

(** A camera is named by the capture source: an integer device index or a
    path / URL string. *)
Definition camera_id : Type := (Z + string)%type.

#[global] Instance camera_id_eq_dec : EqDecision camera_id.
Proof. unfold camera_id. apply _. Defined.
#[global] Instance camera_id_countable : Countable camera_id.
Proof. unfold camera_id. apply _. Defined.

(** [str(camera_id)] *)
Definition camera_id_str (camera : camera_id) : string :=
  match camera with
  | inl n => pretty n
  | inr s => s
  end.

(** [enumerate(l)] *)
Fixpoint enumerate_from {A : Type} (i : nat) (l : list A) : list (nat * A) :=
  match l with
  | [] => []
  | x :: l' => (i, x) :: enumerate_from (S i) l'
  end.

Definition enumerate {A : Type} (l : list A) : list (nat * A) :=
  enumerate_from 0 l.

(** [deque(maxlen=n).append(x)]: when the deque is full, appending discards
    the element at the left end. *)
Definition deque_append {A : Type} (maxlen : nat) (d : list A) (x : A) : list A :=
  if decide (length d < maxlen)%nat then d ++ [x] else drop 1 (d ++ [x]).

(** [int(x)] on a float: truncation towards zero. *)
Definition py_int (x : R) : Z :=
  if decide (0 <= x) then Int_part x else (- Int_part (- x))%Z.

(** [sep.join(l)] *)
Fixpoint join (sep : string) (l : list string) : string :=
  match l with
  | [] => ""
  | [x] => x
  | x :: rest => x +:+ sep +:+ join sep rest
  end.

(** [s.zfill(width)]: zeros are inserted after a leading sign. *)
Definition zeros (n : nat) : string := string_of_list_ascii (replicate n "0"%char).

Definition zfill (width : nat) (s : string) : string :=
  match s with
  | String c rest =>
      if bool_decide (c = "-"%char \/ c = "+"%char)
      then String c (zeros (width - String.length s) +:+ rest)
      else zeros (width - String.length s) +:+ s
  | EmptyString => zeros width
  end.

(** [s.upper()], on the ASCII letters. *)
Definition ascii_upper (c : ascii) : ascii :=
  let n := nat_of_ascii c in
  if decide (97 <= n <= 122)%nat then ascii_of_nat (n - 32) else c.

Fixpoint upper (s : string) : string :=
  match s with
  | EmptyString => EmptyString
  | String c rest => String (ascii_upper c) (upper rest)
  end.

Definition severity_str (s : severity) : string :=
  match s with
  | LOW => "LOW" | MEDIUM => "MEDIUM" | MAY_RISK => "MAY_RISK"
  | HIGH => "HIGH" | CRITICAL => "CRITICAL"
  end.

(** [needle in s] on strings. *)
Fixpoint contains (needle s : string) : bool :=
  String.prefix needle s ||
  match s with
  | EmptyString => false
  | String _ rest => contains needle rest
  end.

(** Outcome of [requests.post(..., timeout=5)]: a response carrying a status
    code, or an exception with its message. *)
Inductive post_result : Type :=
  | Response (status_code : Z)
  | PostRaised (msg : string).

#[global] Instance post_result_eq_dec : EqDecision post_result.
Proof. solve_decision. Defined.

(** A bounding box [xyxy] = (x1, y1, x2, y2) and one detector output. *)
Record bbox : Type := BBox { bx1 : R; by1 : R; bx2 : R; by2 : R }.

Record box : Type := Box { cls : Z; conf : R; xyxy : bbox }.

(** What the scripts read from a frame: [frame.shape[0]], [frame.shape[1]]
    and [np.mean(cv2.cvtColor(frame, cv2.COLOR_BGR2GRAY))]. *)
Record frame : Type := Frame { shape0 : Z; shape1 : Z; mean_gray : R }.

(** * enhanced_safety_model.py *)
Module Enhanced.

Definition alert_cooldown : R := 30.

(** One entry of [person_tracks]. *)
Record track : Type := Track {
  positions : list (R * R);
  timestamps : list R;
  first_seen : option R;
  last_alerted : option R
}.

(** The [defaultdict] factory. *)
Definition new_track : track :=
  {| positions := []; timestamps := []; first_seen := None;
     last_alerted := None |}.

(** [person_tracks] is keyed by the string [f"person_{i}"]; the key is
    represented by the index [i]. A missing key reads as [new_track]. *)
Definition get_track (pt : gmap nat track) (i : nat) : track :=
  default new_track (pt !! i).

Record location : Type := Location {
  loc_name : string;
  lat : R;
  lng : R;
  risk_zones : list bbox
}.

Definition camera_locations : gmap camera_id location :=
  <[ inl 0%Z := {| loc_name := "Park Street - North Gate";
                   lat := 11.1085; lng := 77.3411;
                   risk_zones := [BBox 100 100 300 300] |} ]>
  (<[ inl 1%Z := {| loc_name := "Market Road Junction";
                    lat := 11.1095; lng := 77.3421; risk_zones := [] |} ]>
  (<[ inr "video"%string := {| loc_name := "Main Street Camera";
                        lat := 11.1075; lng := 77.3401; risk_zones := [] |} ]>
   ∅)).

(** [self.camera_locations.get(camera_id, self.camera_locations[0])] *)
Definition location_of (camera : camera_id) : location :=
  default {| loc_name := "Park Street - North Gate";
             lat := 11.1085; lng := 77.3411;
             risk_zones := [BBox 100 100 300 300] |}
          (camera_locations !! camera).

(** ** Tracker signals *)

Definition distance (p q : R * R) : R :=
  sqrt ((q.1 - p.1) ^ 2 + (q.2 - p.2) ^ 2).

(** The loop [for i in range(1, len(positions))] accumulating
    [total_distance]. *)
Fixpoint total_distance (positions : list (R * R)) : R :=
  match positions with
  | p :: (q :: _) as rest => distance p q + total_distance rest
  | _ => 0
  end.

(** [calculate_speed]; [None] stands for the [IndexError] raised by
    [timestamps[-1]] when [timestamps] is empty. *)
Definition calculate_speed (positions : list (R * R)) (timestamps : list R)
  : option R :=
  if decide (length positions < 2)%nat then Some 0
  else
    match last timestamps, head timestamps with
    | Some t_last, Some t_first =>
        let time_diff := t_last - t_first in
        if decide (time_diff > 0) then
          Some (total_distance positions / time_diff)
        else Some 0
    | _, _ => None
    end.

(** [max(...)] and [min(...)] are only evaluated on lists of more than ten
    elements, where [MaxRlist] and [MinRlist] are the list maximum and
    minimum. *)
Definition area_radius (positions : list (R * R)) : R :=
  let x_coords := map fst positions in
  let y_coords := map snd positions in
  Rmax (MaxRlist x_coords - MinRlist x_coords)
       (MaxRlist y_coords - MinRlist y_coords).

Definition detect_loitering (track_data : track) (current_time : R) : bool :=
  match first_seen track_data with
  | None => false
  | Some fs =>
      let time_in_area := current_time - fs in
      if decide (time_in_area > 300) then
        if decide (length (positions track_data) > 10)%nat then
          if decide (area_radius (positions track_data) < 100) then true
          else false
        else false
      else false
  end.

Definition detect_running (speed : R) : bool := bool_decide (speed > 50).

(** ** Scene analysis *)

Record person : Type := Person {
  id : nat;
  p_bbox : bbox;
  center : R * R;
  confidence : R
}.

Inductive crowd_level : Type :=
  crowd_empty | very_crowded | crowded | moderate | sparse.

#[global] Instance crowd_level_eq_dec : EqDecision crowd_level.
Proof. solve_decision. Defined.

Definition calculate_bbox_area (b : bbox) : R :=
  (bx2 b - bx1 b) * (by2 b - by1 b).

(** [sum([...])] *)
Definition Rsum (l : list R) : R := foldr Rplus 0 l.

(** The division is the one of the reals: a frame of area zero, for which
    numpy yields [inf] or [nan], is outside the model. *)
Definition analyze_crowd_density (persons : list person) (fr : frame)
  : crowd_level * R :=
  if decide (length persons = 0%nat) then (crowd_empty, 0)
  else
    let frame_area := IZR (shape0 fr * shape1 fr) in
    let person_area := Rsum (map (fun p => calculate_bbox_area (p_bbox p)) persons) in
    let density_ratio := person_area / frame_area in
    if decide (density_ratio > 0.6) then (very_crowded, density_ratio)
    else if decide (density_ratio > 0.3) then (crowded, density_ratio)
    else if decide (density_ratio > 0.1) then (moderate, density_ratio)
    else (sparse, density_ratio).

Definition in_zone (cx cy : R) (zone : bbox) : bool :=
  bool_decide (bx1 zone <= cx) && bool_decide (cx <= bx2 zone) &&
  bool_decide (by1 zone <= cy) && bool_decide (cy <= by2 zone).

Definition is_in_risk_zone (b : bbox) (camera : camera_id) : bool :=
  let zones := risk_zones (location_of camera) in
  let person_center_x := (bx1 b + bx2 b) / 2 in
  let person_center_y := (by1 b + by2 b) / 2 in
  existsb (in_zone person_center_x person_center_y) zones.

(** The tracking update done for one accepted box. *)
Definition update_track (current_time : R) (c : R * R) (t : track) : track :=
  {| positions := deque_append 30 (positions t) c;
     timestamps := deque_append 30 (timestamps t) current_time;
     first_seen := match first_seen t with
                   | None => Some current_time
                   | Some fs => Some fs
                   end;
     last_alerted := last_alerted t |}.

(** Body of [for i, box in enumerate(detection.boxes)]. *)
Definition scan_box (current_time : R) (st : list person * gmap nat track)
  (ib : nat * box) : list person * gmap nat track :=
  let '(persons, pt) := st in
  let '(i, b) := ib in
  if bool_decide (cls b = 0%Z) && bool_decide (conf b > 0.5) then
    let bb := xyxy b in
    let c := ((bx1 bb + bx2 bb) / 2, (by1 bb + by2 bb) / 2) in
    (persons ++ [{| id := i; p_bbox := bb; center := c; confidence := conf b |}],
     <[ i := update_track current_time c (get_track pt i) ]> pt)
  else st.

(** Body of [for detection in detections]. *)
Definition scan_detection (current_time : R) (st : list person * gmap nat track)
  (boxes : list box) : list person * gmap nat track :=
  fold_left (scan_box current_time) (enumerate boxes) st.

Definition extract_persons (current_time : R) (detections : list (list box))
  (pt : gmap nat track) : list person * gmap nat track :=
  fold_left (scan_detection current_time) detections ([], pt).

Record analysis : Type := Analysis {
  person_count : nat;
  severity_of : severity;
  alert_type : string;
  description : string;
  brightness : R;
  is_dark : bool;
  crowd : crowd_level;
  crowd_density : R;
  risk_factors : list string;
  persons : list person
}.

(** [analyze_scene_advanced]: [pt] is [self.person_tracks] on entry and
    [current_time] the reading of [time.time()]; the result carries the
    dictionary as the call leaves it. [None] is the exception that
    [calculate_speed] can raise. *)
Definition analyze_scene_advanced (pt : gmap nat track) (fr : frame)
  (detections : list (list box)) (camera : camera_id) (current_time : R)
  : option (analysis * gmap nat track) :=
  let '(persons, pt) := extract_persons current_time detections pt in
  let brightness := mean_gray fr in
  let is_dark := bool_decide (brightness < 80) in
  let is_very_dark := bool_decide (brightness < 50) in
  let '(crowd_level, density) := analyze_crowd_density persons fr in
  let num_persons := length persons in
  let result (severity : severity) (alert_type description : string)
             (risk_factors : list string) :=
    Some ({| person_count := num_persons; severity_of := severity;
             alert_type := alert_type; description := description;
             brightness := brightness; is_dark := is_dark;
             crowd := crowd_level; crowd_density := density;
             risk_factors := risk_factors; persons := persons |}, pt) in
  if bool_decide (num_persons = 1%nat) && is_very_dark then
    result CRITICAL "Lone Woman - Very Dark Area"
      "⚠️ URGENT: Single person in very poorly lit area"
      ["Very poor lighting"; "Isolated individual"]
  else if bool_decide (num_persons = 1%nat) && is_dark then
    let track_data := get_track pt 0 in
    if detect_loitering track_data current_time then
      result CRITICAL "Loitering Detected - Dark Area"
        "Person staying in dark area for extended period"
        ["Loitering behavior"; "Poor lighting"]
    else
      result HIGH "Lone Woman - Dark Area"
        "Single person detected in poorly lit area"
        ["Poor lighting"; "Isolated individual"]
  else if bool_decide (num_persons = 2%nat) then
    let in_risk_zone :=
      existsb (fun p => is_in_risk_zone (p_bbox p) camera) persons in
    if in_risk_zone && is_dark then
      result CRITICAL "Multiple Persons in Risk Zone"
        "Two persons detected in high-risk area with poor lighting"
        ["High-risk location"; "Poor lighting"]
    else if is_dark then
      result HIGH "Two Persons - Dark Area"
        "Two persons in poorly lit area. Monitoring situation."
        ["Poor lighting"]
    else
      result MEDIUM "Two Persons Detected"
        "Two persons in frame. Routine monitoring." []
  else if bool_decide (num_persons = 1%nat) then
    let track_data := get_track pt 0 in
    match calculate_speed (positions track_data) (timestamps track_data) with
    | None => None
    | Some speed =>
        if detect_running speed then
          result HIGH "Running Person Detected"
            "Person running - possible emergency or chase situation"
            ["Rapid movement"]
        else
          result MEDIUM "Lone Woman Detected"
            "Single person walking alone. Monitoring." []
    end
  else if bool_decide (crowd_level = very_crowded) then
    result MEDIUM "Very Crowded Area"
      ("High crowd density detected (" +:+ pretty num_persons +:+ " persons)")
      ["Crowd safety concern"]
  else if bool_decide (num_persons >= 3)%nat then
    result LOW "Multiple Persons"
      (pretty num_persons +:+ " persons detected. Area appears safe.") []
  else
    result LOW "Normal Activity"
      (pretty num_persons +:+ " person(s) detected") [].

(** ** Alerting *)

Definition crowd_level_str (c : crowd_level) : string :=
  match c with
  | crowd_empty => "empty"
  | very_crowded => "very_crowded"
  | crowded => "crowded"
  | moderate => "moderate"
  | sparse => "sparse"
  end.

Record alert_data : Type := AlertData {
  place : string;
  type_ : string;
  severity_ : severity;
  a_lat : R;
  a_lng : R;
  time_ : string;
  a_description : string;
  cameraId : string;
  personCount : nat;
  lighting : string;
  crowdLevel : string;
  riskFactors : string;
  brightnessLevel : Z
}.

Definition build_alert (camera : camera_id) (a : analysis) (iso_now : string)
  : alert_data :=
  let location := location_of camera in
  {| place := loc_name location;
     type_ := alert_type a;
     severity_ := severity_of a;
     a_lat := lat location;
     a_lng := lng location;
     time_ := iso_now;
     a_description := description a;
     cameraId := "CAM-" +:+ zfill 3 (camera_id_str camera);
     personCount := person_count a;
     lighting := if decide (brightness a < 50) then "Very Dark"
                 else if is_dark a then "Dark" else "Well-lit";
     crowdLevel := crowd_level_str (crowd a);
     riskFactors := match risk_factors a with
                    | [] => "None"
                    | _ => join ", " (risk_factors a)
                    end;
     brightnessLevel := py_int (brightness a) |}.

(** What one call of [send_alert] does: the value it returns, the record it
    POSTs (if it gets that far) and [self.last_alert_time] afterwards. *)
Record sent : Type := Sent {
  returned : bool;
  posted : option alert_data;
  last_alert_time : gmap camera_id R
}.

(** [send_alert]: [current_time] is [time.time()], [iso_now] is
    [datetime.now().isoformat()] and [reply] what the POST produces if it
    is made. *)
Definition send_alert (last : gmap camera_id R) (camera : camera_id)
  (a : analysis) (current_time : R) (iso_now : string) (reply : post_result)
  : sent :=
  let blocked :=
    match last !! camera with
    | Some t => bool_decide (current_time - t < alert_cooldown)
    | None => false
    end in
  if blocked then Sent false None last
  else if bool_decide (severity_of a ∈ [CRITICAL; HIGH; MEDIUM]) then
    let alert := build_alert camera a iso_now in
    match reply with
    | Response status =>
        if bool_decide (status = 200%Z)
        then Sent true (Some alert) (<[ camera := current_time ]> last)
        else Sent false (Some alert) last
    | PostRaised _ => Sent false (Some alert) last
    end
  else Sent false None last.

End Enhanced.

(** * camera_monitor.py *)
Module Simple.

Definition alert_cooldown : R := 30.

Record location : Type := Location { loc_name : string; lat : R; lng : R }.

Definition camera_locations : gmap camera_id location :=
  <[ inl 0%Z := Location "Park Street Entrance" 11.1085 77.3411 ]>
  (<[ inl 1%Z := Location "Market Road Junction" 11.1095 77.3421 ]>
  (<[ inr "video"%string := Location "Main Street Camera" 11.1075 77.3401 ]>
   ∅)).

Definition location_of (camera : camera_id) : location :=
  default (Location "Park Street Entrance" 11.1085 77.3411)
          (camera_locations !! camera).

(** [(x1, y1, x2, y2)] after [map(int, box.xyxy[0])]. *)
Definition rect : Type := (Z * Z * Z * Z)%type.

Record buckets : Type := Buckets {
  b_persons : list rect;
  b_men : list rect;
  b_women : list rect
}.

(** Body of [for box in detection.boxes]. *)
Definition scan_box (st : buckets) (b : box) : buckets :=
  if bool_decide (cls b = 0%Z) then
    let confidence := conf b in
    if decide (confidence > 0.5) then
      let x1 := py_int (bx1 (xyxy b)) in
      let y1 := py_int (by1 (xyxy b)) in
      let x2 := py_int (bx2 (xyxy b)) in
      let y2 := py_int (by2 (xyxy b)) in
      let h := (y2 - y1)%Z in
      let w := (x2 - x1)%Z in
      let aspect := IZR h / (IZR w + 1e-6) in
      if decide (aspect > 2.2) then
        {| b_persons := b_persons st ++ [(x1, y1, x2, y2)];
           b_men := b_men st;
           b_women := b_women st ++ [(x1, y1, x2, y2)] |}
      else
        {| b_persons := b_persons st ++ [(x1, y1, x2, y2)];
           b_men := b_men st ++ [(x1, y1, x2, y2)];
           b_women := b_women st |}
    else st
  else st.

Definition scan_detections (detections : list (list box)) : buckets :=
  fold_left (fun st boxes => fold_left scan_box boxes st) detections
            (Buckets [] [] []).

Record analysis : Type := Analysis {
  men_count : nat;
  women_count : nat;
  total : nat;
  severity_of : severity;
  alert_type : string;
  description : string;
  brightness : R;
  is_dark : bool
}.

Definition analyze_scene (fr : frame) (detections : list (list box)) : analysis :=
  let st := scan_detections detections in
  let persons := b_persons st in
  let men := b_men st in
  let women := b_women st in
  let brightness := mean_gray fr in
  let is_dark := bool_decide (brightness < 70) in
  let result (severity : severity) (alert_type description : string) :=
    {| men_count := length men; women_count := length women;
       total := length persons; severity_of := severity;
       alert_type := alert_type; description := description;
       brightness := brightness; is_dark := is_dark |} in
  if bool_decide (length women = 1%nat) &&
     (bool_decide (length men = 0%nat) && is_dark) then
    result HIGH "Lone Woman - Dark Area"
      "Single woman detected in poorly lit area. Possible danger."
  else if bool_decide (length women = 1%nat) &&
          bool_decide (length men >= 2)%nat then
    result MAY_RISK "Woman Surrounded by Men"
      "Single woman among multiple men. Situation may be unsafe."
  else if bool_decide (1 <= length women <= 2)%nat &&
          bool_decide (length men >= 3)%nat then
    result MAY_RISK "Few Women in Male Group"
      "Few women surrounded by many men."
  else if bool_decide (length women = 1%nat) && negb is_dark then
    result MEDIUM "Lone Woman"
      "Lone woman detected in well-lit area."
  else
    result LOW "Normal Activity"
      (pretty (length persons) +:+ " person(s) detected").

Record alert_data : Type := AlertData {
  place : string;
  type_ : string;
  severity_ : severity;
  a_lat : R;
  a_lng : R;
  time_ : string;
  a_description : string;
  cameraId : string;
  menCount : nat;
  womenCount : nat;
  lighting : string;
  image : string
}.

(** [stamp] is [datetime.now().strftime('%Y%m%d_%H%M%S')]. *)
Definition snippet_path (stamp : string) : string :=
  "snippets/alert_" +:+ stamp +:+ ".jpg".

Definition build_alert (camera : camera_id) (a : analysis)
  (stamp iso_now : string) : alert_data :=
  let location := location_of camera in
  {| place := loc_name location;
     type_ := alert_type a;
     severity_ := severity_of a;
     a_lat := lat location;
     a_lng := lng location;
     time_ := iso_now;
     a_description := description a;
     cameraId := "CAM-" +:+ zfill 3 (camera_id_str camera);
     menCount := men_count a;
     womenCount := women_count a;
     lighting := if is_dark a then "Dark" else "Well-lit";
     image := "/snippets/alert_" +:+ stamp +:+ ".jpg" |}.

(** One call of [send_alert]: the returned value ([Some false] for
    [return False], [None] when the function falls off its end), the
    snippet file written, the record POSTed and [self.last_alert_time]
    afterwards. *)
Record sent : Type := Sent {
  returned : option bool;
  snippet : option string;
  posted : option alert_data;
  last_alert_time : gmap camera_id R
}.

Definition send_alert (last : gmap camera_id R) (camera : camera_id)
  (a : analysis) (now : R) (stamp iso_now : string) (reply : post_result)
  : sent :=
  let blocked :=
    match last !! camera with
    | Some t => bool_decide (now - t < alert_cooldown)
    | None => false
    end in
  if blocked then Sent (Some false) None None last
  else if bool_decide (severity_of a ∈ [HIGH; MAY_RISK; MEDIUM]) then
    let alert := build_alert camera a stamp iso_now in
    match reply with
    | Response status =>
        if bool_decide (status = 200%Z)
        then Sent None (Some (snippet_path stamp)) (Some alert)
                  (<[ camera := now ]> last)
        else Sent None (Some (snippet_path stamp)) (Some alert) last
    | PostRaised _ => Sent None (Some (snippet_path stamp)) (Some alert) last
    end
  else Sent None None None last.

End Simple.

(** * multi_camera_monitor.py *)
Module Multi.

Definition alert_cooldown : R := 30.

Record camera_config : Type := CameraConfig {
  source : camera_id;
  name : string;
  lat : R;
  lng : R;
  enabled : bool
}.

Definition cameras : gmap string camera_config :=
  <[ "cam1"%string := CameraConfig (inl 0%Z) "Park Street - North Gate"
                                   11.1085 77.3411 true ]>
  (<[ "cam2"%string := CameraConfig (inr "rtsp://your-ip-camera-url"%string)
                                    "Market Road Junction"
                                    11.1095 77.3421 false ]>
  (<[ "cam3"%string := CameraConfig (inr "video.mp4"%string)
                                    "Station Road Camera"
                                    11.1075 77.3401 false ]>
   ∅)).

Inductive status : Type := stopped | running | error.

Record stats : Type := Stats {
  frames_processed : nat;
  alerts_sent : nat;
  last_alert : option string;
  status_of : status
}.

Definition initial_stats : stats :=
  {| frames_processed := 0; alerts_sent := 0; last_alert := None;
     status_of := stopped |}.

(** [{cam_id: {...} for cam_id in self.cameras}] *)
Definition initial_camera_stats (cams : gmap string camera_config)
  : gmap string stats :=
  (fun _ => initial_stats) <$> cams.

Record person : Type := Person { p_bbox : bbox; confidence : R }.

Definition scan_box (persons : list person) (b : box) : list person :=
  if bool_decide (cls b = 0%Z) && bool_decide (conf b > 0.5)
  then persons ++ [{| p_bbox := xyxy b; confidence := conf b |}]
  else persons.

(** The two nested loops of [analyze_frame] filling [persons]. *)
Definition scan_detections (detections : list (list box)) : list person :=
  fold_left (fun ps boxes => fold_left scan_box boxes ps) detections [].

Record analysis : Type := Analysis {
  person_count : nat;
  severity_of : severity;
  alert_type : string;
  brightness : R;
  is_dark : bool;
  persons : list person
}.

(** [analyze_frame]; [detections] is what [self.model(frame)] returned. *)
Definition analyze_frame (fr : frame) (detections : list (list box))
  (cam_id : string) : analysis :=
  let persons := scan_detections detections in
  let brightness := mean_gray fr in
  let is_dark := bool_decide (brightness < 80) in
  let num_persons := length persons in
  let result (severity : severity) (alert_type : string) :=
    {| person_count := num_persons; severity_of := severity;
       alert_type := alert_type; brightness := brightness;
       is_dark := is_dark; persons := persons |} in
  if bool_decide (num_persons = 1%nat) && bool_decide (brightness < 50) then
    result CRITICAL "Lone Woman - Very Dark Area"
  else if bool_decide (num_persons = 1%nat) && is_dark then
    result HIGH "Lone Woman - Dark Area"
  else if bool_decide (num_persons = 2%nat) && is_dark then
    result HIGH "Two Persons - Dark Area"
  else if bool_decide (num_persons = 1%nat) then
    result MEDIUM "Lone Woman Detected"
  else if bool_decide (num_persons >= 3)%nat then
    result LOW "Multiple Persons"
  else
    result LOW "Normal Activity".

Record alert_data : Type := AlertData {
  place : string;
  type_ : string;
  severity_ : severity;
  a_lat : R;
  a_lng : R;
  time_ : string;
  a_description : string;
  cameraId : string;
  personCount : nat;
  lighting : string;
  brightnessLevel : Z
}.

Definition build_alert (cam_id : string) (cfg : camera_config) (a : analysis)
  (iso_now : string) : alert_data :=
  {| place := name cfg;
     type_ := alert_type a;
     severity_ := severity_of a;
     a_lat := lat cfg;
     a_lng := lng cfg;
     time_ := iso_now;
     a_description := pretty (person_count a) +:+ " person(s) detected";
     cameraId := upper cam_id;
     personCount := person_count a;
     lighting := if is_dark a then "Dark" else "Well-lit";
     brightnessLevel := py_int (brightness a) |}.

(** State shared by the threads: the queue (oldest element first), the
    statistics table, and the lines printed by the alert sender. The
    messages of the other threads are not recorded. *)
Record shared : Type := Shared {
  alert_queue : list alert_data;
  camera_stats : gmap string stats;
  sender_log : list string
}.

(** The local variables of one [camera_worker]. *)
Record worker : Type := Worker {
  frame_count : nat;
  last_alert_time : R
}.

Definition initial_worker : worker :=
  {| frame_count := 0; last_alert_time := 0 |}.

(** What one loop iteration obtains from outside: the frame read, the
    detector output for it, and the readings of [time.time()],
    [datetime.now().isoformat()] and [datetime.now().strftime('%H:%M:%S')]. *)
Record capture : Type := Capture {
  cap_frame : frame;
  cap_detections : list (list box);
  cap_time : R;
  cap_iso : string;
  cap_hms : string
}.

(** Body of [if frame_count % 30 == 0:] in [camera_worker]. [st] is the
    entry [self.camera_stats[cam_id]]. The third component is the record
    put on the queue, if any. *)
Definition process_frame (cam_id : string) (cfg : camera_config)
  (c : capture) (last : R) (st : stats) : R * stats * option alert_data :=
  let a := analyze_frame (cap_frame c) (cap_detections c) cam_id in
  let current_time := cap_time c in
  if bool_decide (severity_of a ∈ [CRITICAL; HIGH; MEDIUM]) &&
     bool_decide (current_time - last > alert_cooldown) then
    let alert := build_alert cam_id cfg a (cap_iso c) in
    (current_time,
     {| frames_processed := frames_processed st;
        alerts_sent := alerts_sent st + 1;
        last_alert := Some (cap_hms c);
        status_of := status_of st |},
     Some alert)
  else (last, st, None).

(** One iteration of [while self.running:] in [camera_worker] after a
    successful [cap.read()]. [None] is the [KeyError] of
    [self.camera_stats[cam_id]] for a camera without statistics entry. *)
Definition worker_iter (cam_id : string) (cfg : camera_config) (c : capture)
  (ws : worker * shared) : option (worker * shared) :=
  let '(w, sh) := ws in
  let frame_count := S (frame_count w) in
  match camera_stats sh !! cam_id with
  | None => None
  | Some st =>
      let st := {| frames_processed := frame_count;
                   alerts_sent := alerts_sent st;
                   last_alert := last_alert st;
                   status_of := status_of st |} in
      if bool_decide (frame_count `mod` 30 = 0)%nat then
        let '(last, st, out) :=
          process_frame cam_id cfg c (last_alert_time w) st in
        Some ({| frame_count := frame_count; last_alert_time := last |},
              {| alert_queue := alert_queue sh ++ option_list out;
                 camera_stats := <[ cam_id := st ]> (camera_stats sh);
                 sender_log := sender_log sh |})
      else
        Some ({| frame_count := frame_count;
                 last_alert_time := last_alert_time w |},
              {| alert_queue := alert_queue sh;
                 camera_stats := <[ cam_id := st ]> (camera_stats sh);
                 sender_log := sender_log sh |})
  end.

(** The exception handler of [alert_sender_worker]. *)
Definition sender_except (msg : string) (sh : shared) : shared :=
  if negb (contains "Empty" msg)
  then {| alert_queue := alert_queue sh;
          camera_stats := camera_stats sh;
          sender_log := sender_log sh ++ ["❌ Error in alert sender: " +:+ msg] |}
  else sh.

(** One iteration of [while self.running:] in [alert_sender_worker];
    [reply] is what the POST produces if one is made. On an empty queue
    [get(timeout=1)] raises [queue.Empty], whose text is the empty string.
    [task_done()] only counts unfinished tasks, which nothing reads. *)
Definition sender_iter (reply : post_result) (sh : shared) : shared :=
  match alert_queue sh with
  | [] => sender_except "" sh
  | alert :: rest =>
      let sh := {| alert_queue := rest;
                   camera_stats := camera_stats sh;
                   sender_log := sender_log sh |} in
      match reply with
      | Response status =>
          {| alert_queue := alert_queue sh;
             camera_stats := camera_stats sh;
             sender_log := sender_log sh ++
               [if bool_decide (status = 200%Z)
                then "🚨 ALERT SENT: [" +:+ severity_str (severity_ alert) +:+
                     "] " +:+ cameraId alert +:+ " - " +:+ place alert
                else "❌ Failed to send alert: " +:+ pretty status] |}
      | PostRaised msg => sender_except msg sh
      end
  end.

(** ** The threads together *)

(** The state of a monitoring session: what the threads share and the
    locals of each camera thread. *)
Record system : Type := System {
  sys_shared : shared;
  sys_workers : gmap string worker
}.

Definition initial_system (cams : gmap string camera_config) : system :=
  {| sys_shared := {| alert_queue := [];
                      camera_stats := initial_camera_stats cams;
                      sender_log := [] |};
     sys_workers := ∅ |}.

(** The threads interleave at the granularity of loop iterations: an event
    is one iteration of one camera thread or of the sender thread. *)
Inductive event : Type :=
  | CameraIter (cam_id : string) (c : capture)
  | SenderIter (reply : post_result).

Definition system_step (cams : gmap string camera_config) (s : system)
  (e : event) : option system :=
  match e with
  | CameraIter cam_id c =>
      match cams !! cam_id with
      | None => None
      | Some cfg =>
          let w := default initial_worker (sys_workers s !! cam_id) in
          match worker_iter cam_id cfg c (w, sys_shared s) with
          | None => None
          | Some (w, sh) =>
              Some {| sys_shared := sh;
                      sys_workers := <[ cam_id := w ]> (sys_workers s) |}
          end
      end
  | SenderIter reply =>
      Some {| sys_shared := sender_iter reply (sys_shared s);
              sys_workers := sys_workers s |}
  end.

Fixpoint system_run (cams : gmap string camera_config) (s : system)
  (es : list event) : option system :=
  match es with
  | [] => Some s
  | e :: es' =>
      match system_step cams s e with
      | None => None
      | Some s' => system_run cams s' es'
      end
  end.

End Multi.

(** * Notions used in the statements *)

(** Summed detection-box area over frame area. *)
Definition density_ratio (persons : list Enhanced.person) (fr : frame) : R :=
  Enhanced.Rsum (map (fun p => Enhanced.calculate_bbox_area (Enhanced.p_bbox p)) persons)
  / IZR (shape0 fr * shape1 fr).

Definition unit_person : Enhanced.person :=
  {| Enhanced.id := 0; Enhanced.p_bbox := BBox 0 0 10 10;
     Enhanced.center := (5, 5); Enhanced.confidence := 0.9 |}.

(** Height, width and the quotient the aspect test of [camera_monitor.py]
    computes for a stored rectangle. *)
Definition rect_height (r : Simple.rect) : Z :=
  let '(x1, y1, x2, y2) := r in (y2 - y1)%Z.

Definition rect_width (r : Simple.rect) : Z :=
  let '(x1, y1, x2, y2) := r in (x2 - x1)%Z.

Definition rect_aspect (r : Simple.rect) : R :=
  IZR (rect_height r) / (IZR (rect_width r) + 1e-6).

(** What every prefix of the scan of [camera_monitor.py] maintains. *)
Definition buckets_inv (st : Simple.buckets) : Prop :=
  Simple.b_persons st ≡ₚ Simple.b_women st ++ Simple.b_men st /\
  Forall (fun r => rect_aspect r > 2.2) (Simple.b_women st) /\
  Forall (fun r => ~ rect_aspect r > 2.2) (Simple.b_men st).

(** Maximum minus minimum of a list of coordinates. *)
Definition extent (l : list R) : R := MaxRlist l - MinRlist l.



(** Timestamps in the order of the clock. *)
Definition time_ordered (timestamps : list R) : Prop :=
  StronglySorted Rle timestamps.

(** The samples of a track are paired, time ordered and not in the future. *)
Definition track_ok (now : R) (t : Enhanced.track) : Prop :=
  length (Enhanced.positions t) = length (Enhanced.timestamps t) /\
  time_ordered (Enhanced.timestamps t) /\
  Forall (fun ts => ts <= now) (Enhanced.timestamps t).

(** Sample detector outputs: one, two and four persons. *)
Definition one_person : list (list box) :=
  [[Box 0 0.9 (BBox 0 0 10 10)]].

Definition two_persons : list (list box) :=
  [[Box 0 0.9 (BBox 0 0 10 10); Box 0 0.8 (BBox 20 0 30 10)]].

Definition four_persons : list (list box) :=
  [[Box 0 0.9 (BBox 0 0 12.5 10); Box 0 0.9 (BBox 20 0 32.5 10);
    Box 0 0.9 (BBox 40 0 52.5 10); Box 0 0.9 (BBox 60 0 72.5 10)]].

(** A person far from where [one_person] stands. *)
Definition far_person : list (list box) :=
  [[Box 0 0.9 (BBox 1000 0 1010 10)]].

(** ** Sequences of calls and of thread iterations *)








(** A POST that went through: the record was sent and answered with 200. *)
Definition delivered {A : Type} (posted : option A) (reply : post_result) : Prop :=
  is_Some posted /\ reply = Response 200.

#[global] Instance delivered_dec {A : Type} (posted : option A)
  (reply : post_result) : Decision (delivered posted reply).
Proof. unfold delivered. apply _. Defined.

(** The cooldown test of the two [send_alert] functions lets a call pass. *)
Definition not_blocked (last : gmap camera_id R) (camera : camera_id)
  (now cooldown : R) : Prop :=
  last !! camera = None \/
  exists t, last !! camera = Some t /\ now - t >= cooldown.

(** [last_alert_time] of the thread of a camera (its initial value when the
    thread has not run yet). *)
Definition last_of (s : Multi.system) (cam_id : string) : R :=
  Multi.last_alert_time
    (default Multi.initial_worker (Multi.sys_workers s !! cam_id)).

(** The statistics entry of a camera. *)
Definition alerts_sent_of (s : Multi.system) (cam_id : string) : nat :=
  default 0%nat
    (Multi.alerts_sent <$> Multi.camera_stats (Multi.sys_shared s) !! cam_id).

(** What an iteration puts on the queue, tagged with the camera and the
    clock reading of the iteration. *)
Definition emitted (cams : gmap string Multi.camera_config) (s : Multi.system)
  (e : Multi.event) : list (string * R * Multi.alert_data) :=
  match e with
  | Multi.CameraIter cam_id c =>
      match Multi.system_step cams s e with
      | Some s' =>
          map (fun a => (cam_id, Multi.cap_time c, a))
              (drop (length (Multi.alert_queue (Multi.sys_shared s)))
                    (Multi.alert_queue (Multi.sys_shared s')))
      | None => []
      end
  | Multi.SenderIter _ => []
  end.

Fixpoint system_trace (cams : gmap string Multi.camera_config)
  (s : Multi.system) (es : list Multi.event)
  : list (string * R * Multi.alert_data) :=
  match es with
  | [] => []
  | e :: es' =>
      emitted cams s e ++
      match Multi.system_step cams s e with
      | Some s' => system_trace cams s' es'
      | None => []
      end
  end.

(** Every POST of the run fails: no sender iteration is answered with 200. *)
Definition dispatch_fails (e : Multi.event) : Prop :=
  match e with
  | Multi.SenderIter reply => reply <> Response 200
  | Multi.CameraIter _ _ => True
  end.

(** A frame with one person in very dark light, read at clock [t]. *)
Definition dark_capture (t : R) : Multi.capture :=
  {| Multi.cap_frame := Frame 100 100 30;
     Multi.cap_detections := one_person;
     Multi.cap_time := t;
     Multi.cap_iso := "2025-01-01T00:00:00";
     Multi.cap_hms := "00:00:00" |}.

(** The analysis record that [test_alert] of [camera_monitor.py] sends. *)
Definition test_dummy : Simple.analysis :=
  {| Simple.men_count := 3; Simple.women_count := 1; Simple.total := 4;
     Simple.severity_of := MAY_RISK;
     Simple.alert_type := "Test - Lone Woman Among Men";
     Simple.description :=
       "This is a test alert to verify dashboard connection.";
     Simple.brightness := 40; Simple.is_dark := true |}.



(** How many alerts of a trace were enqueued by a camera. *)
Definition enqueued_by (cam_id : string)
  (tr : list (string * R * Multi.alert_data)) : nat :=
  length (filter (fun x => x.1.1 = cam_id) tr).

(** Thirty frames of camera "cam1", then one sender iteration whose POST is
    answered with status 500. *)
Definition thirty_frames_then_failure : list Multi.event :=
  replicate 30 (Multi.CameraIter "cam1" (dark_capture 100)) ++
  [Multi.SenderIter (Response 500)].


(** A track of [n] samples, all at the origin and all taken at time 0. *)
Definition still_track (n : nat) : Enhanced.track :=
  {| Enhanced.positions := replicate n (0, 0);
     Enhanced.timestamps := replicate n 0;
     Enhanced.first_seen := Some 0;
     Enhanced.last_alerted := None |}.


(** The shared state with one alert waiting on the queue. *)
Definition one_waiting : Multi.shared :=
  {| Multi.alert_queue :=
       [Multi.build_alert "cam1"
          (Multi.CameraConfig (inl 0%Z) "Park Street - North Gate"
                              11.1085 77.3411 true)
          (Multi.analyze_frame (Frame 100 100 30) one_person "cam1")
          "2025-01-01T00:00:00"];
     Multi.camera_stats := Multi.initial_camera_stats Multi.cameras;
     Multi.sender_log := [] |}.

(** * The loops around the analyses *)

(** ** multi_camera_monitor.py: a camera thread and the sender from start
    to end *)
Module MultiWorker.

(** [self.camera_stats[cam_id]['status'] = st]; [None] is the [KeyError]. *)
Definition set_status (cam_id : string) (st : Multi.status) (sh : Multi.shared)
  : option Multi.shared :=
  match Multi.camera_stats sh !! cam_id with
  | None => None
  | Some s =>
      Some {| Multi.alert_queue := Multi.alert_queue sh;
              Multi.camera_stats :=
                <[ cam_id := {| Multi.frames_processed := Multi.frames_processed s;
                                Multi.alerts_sent := Multi.alerts_sent s;
                                Multi.last_alert := Multi.last_alert s;
                                Multi.status_of := st |} ]>
                (Multi.camera_stats sh);
              Multi.sender_log := Multi.sender_log sh |}
  end.

(** The [while self.running:] loop of [camera_worker]. [reads] lists what
    [cap.read()] returns in the iterations entered while [self.running] is
    true: [Some] for a frame, [None] for [ret == False]; the list ends where
    [self.running] is found false. *)
Fixpoint worker_loop (cam_id : string) (cfg : Multi.camera_config)
  (reads : list (option Multi.capture)) (ws : Multi.worker * Multi.shared)
  : option (Multi.worker * Multi.shared) :=
  match reads with
  | [] => Some ws
  | None :: _ => Some ws
  | Some c :: rest =>
      match Multi.worker_iter cam_id cfg c ws with
      | None => None
      | Some ws' => worker_loop cam_id cfg rest ws'
      end
  end.

(** [camera_worker] run on its own; [opened] is [cap.isOpened()]. The
    [finally] clause sets the status to stopped; when the loop has raised,
    the same [KeyError] is raised there again. *)
Definition camera_worker (cam_id : string) (cfg : Multi.camera_config)
  (opened : bool) (reads : list (option Multi.capture)) (sh : Multi.shared)
  : option Multi.shared :=
  if negb opened then set_status cam_id Multi.error sh
  else
    match set_status cam_id Multi.running sh with
    | None => None
    | Some sh1 =>
        match worker_loop cam_id cfg reads (Multi.initial_worker, sh1) with
        | None => None
        | Some (_, sh2) => set_status cam_id Multi.stopped sh2
        end
    end.

(** Consecutive iterations of [alert_sender_worker], one reply each. *)
Definition sender_run (replies : list post_result) (sh : Multi.shared)
  : Multi.shared :=
  fold_left (fun sh reply => Multi.sender_iter reply sh) replies sh.

End MultiWorker.

(** ** enhanced_safety_model.py: the two places where [monitor_camera]
    analyses a frame and sends *)
Module EnhancedMonitor.

(** The part of the monitor object the two branches use. *)
Record monitor : Type := Monitor {
  person_tracks : gmap nat Enhanced.track;
  last_alert_time : gmap camera_id R
}.

(** Body of [if frame_count % 15 == 0:] without the drawing:
    [analyze_scene_advanced] then [send_alert]. Each call reads the clock
    itself. *)
Definition periodic (m : monitor) (source : camera_id) (fr : frame)
  (detections : list (list box)) (now_analysis now_send : R) (iso : string)
  (reply : post_result) : option (Enhanced.sent * monitor) :=
  match Enhanced.analyze_scene_advanced (person_tracks m) fr detections
                                        source now_analysis with
  | None => None
  | Some (a, pt) =>
      let s := Enhanced.send_alert (last_alert_time m) source a now_send iso reply in
      Some (s, {| person_tracks := pt;
                  last_alert_time := Enhanced.last_alert_time s |})
  end.

(** Body of [elif key == ord('a'):] - analyse again, set the entry of the
    source to 0, send. *)
Definition force_alert (m : monitor) (source : camera_id) (fr : frame)
  (detections : list (list box)) (now_analysis now_send : R) (iso : string)
  (reply : post_result) : option (Enhanced.sent * monitor) :=
  match Enhanced.analyze_scene_advanced (person_tracks m) fr detections
                                        source now_analysis with
  | None => None
  | Some (a, pt) =>
      let last := <[ source := 0 ]> (last_alert_time m) in
      let s := Enhanced.send_alert last source a now_send iso reply in
      Some (s, {| person_tracks := pt;
                  last_alert_time := Enhanced.last_alert_time s |})
  end.

End EnhancedMonitor.

(** ** Further notions used in the statements *)

(** The filter all three analyses apply to a detector box. *)
Definition accepted (b : box) : bool :=
  bool_decide (cls b = 0%Z) && bool_decide (conf b > 0.5).

Definition box_center (b : box) : R * R :=
  ((bx1 (xyxy b) + bx2 (xyxy b)) / 2, (by1 (xyxy b) + by2 (xyxy b)) / 2).

(** The person record [analyze_scene_advanced] builds for box [i]. *)
Definition person_of (ib : nat * box) : Enhanced.person :=
  {| Enhanced.id := ib.1; Enhanced.p_bbox := xyxy ib.2;
     Enhanced.center := box_center ib.2; Enhanced.confidence := conf ib.2 |}.

(** The rectangle [analyze_scene] stores for a box. *)
Definition rect_of (b : box) : Simple.rect :=
  (py_int (bx1 (xyxy b)), py_int (by1 (xyxy b)),
   py_int (bx2 (xyxy b)), py_int (by2 (xyxy b))).

(** A track holds as many positions as timestamps, thirty at most. *)
Definition track_bounded (t : Enhanced.track) : Prop :=
  length (Enhanced.positions t) = length (Enhanced.timestamps t) /\
  (length (Enhanced.positions t) <= 30)%nat.

(** How many frames a camera thread reads before its loop ends. *)
Fixpoint frames_read (reads : list (option Multi.capture)) : nat :=
  match reads with
  | Some _ :: rest => S (frames_read rest)
  | _ => 0
  end.

(** The line the sender prints for a delivered alert. *)
Definition delivery_line (alert : Multi.alert_data) : string :=
  "🚨 ALERT SENT: [" +:+ severity_str (Multi.severity_ alert) +:+
  "] " +:+ Multi.cameraId alert +:+ " - " +:+ Multi.place alert.

(** How many sender iterations a run contains. *)
Fixpoint sender_iterations (es : list Multi.event) : nat :=
  match es with
  | [] => 0
  | Multi.SenderIter _ :: rest => S (sender_iterations rest)
  | Multi.CameraIter _ _ :: rest => sender_iterations rest
  end.

(** * Properties *)

(** Decide the comparisons met in a goal and settle the arithmetic. *)
Ltac split_decisions :=
  repeat first [ case_bool_decide | case_decide ]; simpl in *.

Ltac by_arith :=
  split_decisions; try done; try lra; try lia.

(** Evaluate the comparisons of a closed instance. *)
Ltac settle_arith := first [done | lra | lia].

Ltac settle_one :=
  match goal with
  | |- context [bool_decide ?P] =>
      first [ rewrite (bool_decide_eq_true_2 P) by settle_arith
            | rewrite (bool_decide_eq_false_2 P) by settle_arith ]
  | |- context [@decide ?P ?d] =>
      first [ rewrite (@decide_True _ P d) by settle_arith
            | rewrite (@decide_False _ P d) by settle_arith ]
  end.

Ltac settle := repeat first [ settle_one | progress simpl ].

(** ** Crowd density *)
Section crowd_density.
Import Enhanced.

(** C9 (as amended): with at least one detection the bucket is fixed by
    the ratio of summed box area to frame area - above 0.6 very crowded,
    above 0.3 crowded, above 0.1 moderate, otherwise sparse - and without
    any detection the bucket is "empty" with ratio 0. *)
Theorem crowd_density_buckets (persons : list person) (fr : frame) :
  (0 < shape0 fr * shape1 fr)%Z ->
  let r := density_ratio persons fr in
  (persons = [] -> analyze_crowd_density persons fr = (crowd_empty, 0)) /\
  (persons <> [] ->
     (analyze_crowd_density persons fr).2 = r /\
     (r > 0.6 -> (analyze_crowd_density persons fr).1 = very_crowded) /\
     (r > 0.3 -> r <= 0.6 -> (analyze_crowd_density persons fr).1 = crowded) /\
     (r > 0.1 -> r <= 0.3 -> (analyze_crowd_density persons fr).1 = moderate) /\
     (r <= 0.1 -> (analyze_crowd_density persons fr).1 = sparse)).
Proof.
  intros _ r. split.
  - intros ->. reflexivity.
  - intros Hne. unfold analyze_crowd_density.
    destruct (decide (length persons = 0%nat)) as [Hlen|Hlen].
    { destruct persons; [done | discriminate Hlen]. }
    fold (density_ratio persons fr). fold r.
    repeat split; intros; by_arith.
Qed.

Lemma crowd_density_buckets_witness :
  (analyze_crowd_density [] (Frame 480 640 100) = (crowd_empty, 0)) /\
  (analyze_crowd_density [unit_person] (Frame 480 640 100)).1 = sparse.
Proof.
  split.
  - apply (crowd_density_buckets [] (Frame 480 640 100)); [simpl; lia | reflexivity].
  - apply (crowd_density_buckets [unit_person] (Frame 480 640 100));
      [simpl; lia | discriminate |].
    unfold density_ratio, calculate_bbox_area, Rsum. simpl.
    rewrite mult_IZR. lra.
Defined.

(** C9 as stated fails for a frame without detections: the bucket is
    "empty", not "sparse". *)
Lemma crowd_density_no_detection_not_sparse :
  ~ ((analyze_crowd_density [] (Frame 480 640 100)).1 = sparse).
Proof. simpl. discriminate. Qed.

End crowd_density.

(** ** Aspect-ratio buckets of the simple profile *)
Section aspect_buckets.
Import Simple.

Lemma scan_box_inv (st : buckets) (b : box) :
  buckets_inv st -> buckets_inv (scan_box st b).
Proof.
  intros (Hp & Hw & Hm). unfold scan_box.
  destruct (bool_decide (cls b = 0%Z)); [|done].
  destruct (decide (conf b > 0.5)) as [Hconf|Hconf]; [|done].
  set (r := (py_int (bx1 (xyxy b)), py_int (by1 (xyxy b)),
             py_int (bx2 (xyxy b)), py_int (by2 (xyxy b)))).
  change (IZR (py_int (by2 (xyxy b)) - py_int (by1 (xyxy b))) /
          (IZR (py_int (bx2 (xyxy b)) - py_int (bx1 (xyxy b))) + 1e-6))
    with (rect_aspect r).
  destruct (decide (rect_aspect r > 2.2)) as [Ha|Ha]; repeat split; simpl.
  - rewrite Hp. rewrite <- !(assoc_L (++)).
    apply Permutation_app_head. apply Permutation_app_comm.
  - apply Forall_app. split; [done|]. by apply Forall_singleton.
  - done.
  - rewrite Hp. by rewrite (assoc_L (++)).
  - done.
  - apply Forall_app. split; [done|]. by apply Forall_singleton.
Qed.

Lemma scan_detections_inv (detections : list (list box)) :
  buckets_inv (scan_detections detections).
Proof.
  unfold scan_detections.
  assert (Hinit : buckets_inv (Buckets [] [] [])).
  { repeat split; simpl; constructor. }
  revert Hinit. generalize (Buckets [] [] []).
  induction detections as [|boxes rest IH]; intros st Hst; simpl; [done|].
  apply IH. clear IH. revert st Hst.
  induction boxes as [|b boxes IHb]; intros st Hst; simpl; [done|].
  apply IHb. by apply scan_box_inv.
Qed.

(** The counts reported by [analyze_scene] are the lengths of the three
    lists, whichever rule fires. *)
Lemma analyze_scene_counts (fr : frame) (detections : list (list box)) :
  let st := scan_detections detections in
  let a := analyze_scene fr detections in
  men_count a = length (b_men st) /\
  women_count a = length (b_women st) /\
  total a = length (b_persons st).
Proof.
  simpl. unfold analyze_scene.
  repeat match goal with
         | |- context [if ?c then _ else _] => destruct c
         end; simpl; done.
Qed.





End aspect_buckets.

(** ** Tracker: loitering *)
Section loitering.
Import Enhanced.

(** Ten samples or fewer never count as loitering. *)
Lemma detect_loitering_few_samples (t : track) (now : R) :
  (length (positions t) <= 10)%nat -> detect_loitering t now = false.
Proof.
  intros Hlen. unfold detect_loitering.
  destruct (first_seen t); [|done].
  destruct (decide (now - r > 300)); [|done].
  destruct (decide (length (positions t) > 10)%nat); [lia|done].
Qed.

(** C3 (as amended): the loitering signal is true exactly when the track
    has a first-seen time, now minus first-seen exceeds 300, the extent
    (max minus min) of the retained x and of the retained y coordinates is
    below 100, and MORE THAN ten samples are retained; with exactly ten
    retained samples the signal is false whatever the dwell and extent. *)
Theorem loitering_criterion (t : track) (now : R) :
  (detect_loitering t now = true <->
     exists fs, first_seen t = Some fs /\
       now - fs > 300 /\
       (length (positions t) > 10)%nat /\
       extent (map fst (positions t)) < 100 /\
       extent (map snd (positions t)) < 100) /\
  (length (positions t) = 10%nat -> detect_loitering t now = false).
Proof.
  unfold detect_loitering, area_radius. fold (extent (map fst (positions t))).
  fold (extent (map snd (positions t))).
  destruct (first_seen t) as [fs|].
  - split.
    + split.
      * intros H. exists fs. split; [done|].
        destruct (decide (now - fs > 300)); [|done].
        destruct (decide (length (positions t) > 10)%nat); [|done].
        destruct (decide (Rmax (extent (map fst (positions t)))
                               (extent (map snd (positions t))) < 100))
          as [Hr|Hr]; [|done].
        apply Rmax_Rlt in Hr. tauto.
      * intros (fs' & [= <-] & Hd & Hn & Hx & Hy).
        destruct (decide (now - fs > 300)); [|done].
        destruct (decide (length (positions t) > 10)%nat); [|done].
        destruct (decide (Rmax (extent (map fst (positions t)))
                               (extent (map snd (positions t))) < 100))
          as [Hr|Hr]; [done|].
        destruct Hr. by apply Rmax_lub_lt.
    + intros Hlen. destruct (decide (now - fs > 300)); [|done].
      destruct (decide (length (positions t) > 10)%nat); [lia|done].
  - split; [|done]. split; [done|]. by intros (fs & [=] & _).
Qed.

(** On a non-empty list the extent is below a bound exactly when any two
    coordinates differ by less than the bound. *)
Lemma MinRlist_In (l : list R) : l <> [] -> In (MinRlist l) l.
Proof.
  induction l as [|x l IH]; [done|]. intros _.
  destruct l as [|y l]; [by left|].
  change (MinRlist (x :: y :: l)) with (Rmin x (MinRlist (y :: l))).
  unfold Rmin. destruct (Rle_dec x (MinRlist (y :: l))); [by left|].
  right. by apply IH.
Qed.

Lemma extent_bound (l : list R) (c : R) :
  l <> [] ->
  extent l < c <-> forall x y, In x l -> In y l -> x - y < c.
Proof.
  intros Hne. unfold extent. split.
  - intros H x y Hx Hy.
    pose proof (MaxRlist_P1 l x Hx). pose proof (MinRlist_P1 l y Hy). lra.
  - intros H. apply H.
    + apply MaxRlist_P2. destruct l as [|x l]; [done|]. exists x. by left.
    + by apply MinRlist_In.
Qed.

(** C3 as stated fails: ten samples at one spot, first seen 301 time units
    ago, do not count as loitering. *)
Lemma loitering_ten_samples :
  let t := {| positions := replicate 10 (0, 0);
              timestamps := replicate 10 0;
              first_seen := Some 0;
              last_alerted := None |} in
  ~ (301 - 0 > 300 ->
     extent (map fst (positions t)) < 100 ->
     extent (map snd (positions t)) < 100 ->
     (length (positions t) >= 10)%nat ->
     detect_loitering t 301 = true).
Proof.
  intros t H.
  assert (Hext : extent (replicate 10 0) < 100).
  { apply extent_bound; [done|]. intros x y Hx Hy.
    apply list_elem_of_In, elem_of_replicate in Hx, Hy.
    destruct Hx as [-> _], Hy as [-> _]. lra. }
  assert (Hf : detect_loitering t 301 = true).
  { apply H; [lra | exact Hext | exact Hext | simpl; lia]. }
  rewrite detect_loitering_few_samples in Hf; [done | simpl; lia].
Qed.

Lemma loitering_criterion_witness :
  detect_loitering (still_track 11) 301 = true /\
  detect_loitering (still_track 10) 301 = false.
Proof.
  assert (Hext : extent (replicate 11 0) < 100).
  { apply extent_bound; [done|]. intros x y Hx Hy.
    apply list_elem_of_In, elem_of_replicate in Hx, Hy.
    destruct Hx as [-> _], Hy as [-> _]. lra. }
  split.
  - apply (loitering_criterion (still_track 11) 301).
    exists 0. split; [reflexivity|]. split; [lra|]. split; [simpl; lia|].
    split; exact Hext.
  - apply (loitering_criterion (still_track 10) 301). reflexivity.
Defined.

End loitering.

(** ** Tracker: speed *)
Section speed.
Import Enhanced.







End speed.

(** ** The tracking update *)
Section tracking.
Import Enhanced.

Lemma get_track_insert (pt : gmap nat track) (i : nat) (t : track) :
  get_track (<[ i := t ]> pt) i = t.
Proof. unfold get_track. by rewrite lookup_insert_eq. Qed.

Lemma get_track_insert_ne (pt : gmap nat track) (i j : nat) (t : track) :
  i <> j -> get_track (<[ i := t ]> pt) j = get_track pt j.
Proof. intros H. unfold get_track. by rewrite lookup_insert_ne. Qed.

Lemma deque_append_length {A : Type} (n : nat) (d1 : list A) (d2 : list R)
  (x : A) (y : R) :
  length d1 = length d2 ->
  length (deque_append n d1 x) = length (deque_append n d2 y).
Proof.
  intros H. unfold deque_append. rewrite H.
  destruct (decide (length d2 < n)%nat);
    rewrite ?length_drop, !length_app; simpl; lia.
Qed.

Lemma deque_append_ordered (n : nat) (ts : list R) (now : R) :
  time_ordered ts -> Forall (fun t => t <= now) ts ->
  time_ordered (deque_append n ts now) /\
  Forall (fun t => t <= now) (deque_append n ts now).
Proof.
  intros Hs Hall. unfold deque_append, time_ordered in *.
  assert (Hsnoc : StronglySorted Rle (ts ++ [now]) /\
                  Forall (fun t => t <= now) (ts ++ [now])).
  { split.
    - apply StronglySorted_app_2; [|done|repeat constructor].
      intros x1 x2 Hx1 Hx2. apply list_elem_of_singleton in Hx2 as ->.
      rewrite Forall_forall in Hall. by apply Hall.
    - apply Forall_app. split; [done|]. apply Forall_singleton. lra. }
  destruct (decide (length ts < n)%nat); [done|].
  destruct Hsnoc as [Hs' Hall'].
  destruct (ts ++ [now]) as [|t l]; simpl; [done|]. rewrite drop_0.
  apply StronglySorted_inv in Hs' as [Hs' _].
  apply Forall_cons in Hall' as [_ Hall']. done.
Qed.

(** A sample taken at or after the earlier ones keeps a track well formed. *)
Lemma update_track_ok (now now' : R) (c : R * R) (t : track) :
  now <= now' -> track_ok now t -> track_ok now' (update_track now' c t).
Proof.
  intros Hle (Hlen & Hord & Hall). unfold track_ok, update_track. simpl.
  assert (Hall' : Forall (fun ts => ts <= now') (timestamps t)).
  { eapply Forall_impl; [exact Hall|]. simpl. intros. lra. }
  split; [by apply deque_append_length|].
  by apply deque_append_ordered.
Qed.

Lemma new_track_ok (now : R) : track_ok now new_track.
Proof. repeat split; simpl; constructor. Qed.

Lemma track_ok_mono (now now' : R) (t : track) :
  now <= now' -> track_ok now t -> track_ok now' t.
Proof.
  intros Hle (Hlen & Hord & Hall). repeat split; try done.
  eapply Forall_impl; [exact Hall|]. simpl. intros. lra.
Qed.

(** Induction over the two nested scanning loops. *)
Lemma extract_persons_ind (P : list person * gmap nat track -> Prop)
  (now : R) (detections : list (list box)) (st : list person * gmap nat track) :
  P st ->
  (forall st ib, P st -> P (scan_box now st ib)) ->
  P (fold_left (scan_detection now) detections st).
Proof.
  intros Hst Hstep. revert st Hst.
  induction detections as [|boxes rest IH]; intros st Hst; simpl; [done|].
  apply IH. unfold scan_detection. generalize (enumerate boxes).
  intros l. revert st Hst.
  induction l as [|ib l IHl]; intros st Hst; simpl; [done|].
  apply IHl. by apply Hstep.
Qed.

(** The scan keeps every track of the dictionary well formed. *)
Lemma extract_persons_tracks_ok (now now' : R) (detections : list (list box))
  (pt : gmap nat track) :
  now <= now' ->
  (forall i, track_ok now (get_track pt i)) ->
  forall i, track_ok now' (get_track (extract_persons now' detections pt).2 i).
Proof.
  intros Hle Hpt. unfold extract_persons.
  apply (extract_persons_ind
           (fun st => forall i, track_ok now' (get_track st.2 i))).
  - simpl. intros i. by apply (track_ok_mono now).
  - intros [ps pt0] [j b] Hst i. unfold scan_box.
    destruct (bool_decide (cls b = 0%Z) && bool_decide (conf b > 0.5));
      [|apply Hst].
    simpl. destruct (decide (j = i)) as [->|Hne].
    + rewrite get_track_insert. apply (update_track_ok now'); [lra|apply Hst].
    + rewrite get_track_insert_ne by done. apply Hst.
Qed.

(** The list of detected persons does not depend on the tracker state or
    on the clock. *)
Lemma extract_persons_persons (now1 now2 : R) (detections : list (list box))
  (pt1 pt2 : gmap nat track) :
  (extract_persons now1 detections pt1).1 =
  (extract_persons now2 detections pt2).1.
Proof.
  unfold extract_persons.
  generalize (@nil person). revert pt1 pt2.
  induction detections as [|boxes rest IH]; intros pt1 pt2 ps; simpl; [done|].
  unfold scan_detection at 2 4. generalize (enumerate boxes). intros l.
  revert pt1 pt2 ps.
  induction l as [|[i b] l IHl]; intros pt1 pt2 ps; simpl; [apply IH|].
  destruct (bool_decide (cls b = 0%Z) && bool_decide (conf b > 0.5));
    apply IHl.
Qed.

(** The track stored under an index after the scan depends on the earlier
    dictionary only through the track stored under that index. *)
Lemma extract_persons_track_local (now : R) (detections : list (list box))
  (pt1 pt2 : gmap nat track) (k : nat) :
  get_track pt1 k = get_track pt2 k ->
  get_track (extract_persons now detections pt1).2 k =
  get_track (extract_persons now detections pt2).2 k.
Proof.
  unfold extract_persons.
  generalize (@nil person) at 1. generalize (@nil person).
  revert pt1 pt2.
  induction detections as [|boxes rest IH]; intros pt1 pt2 ps ps' Hk; simpl;
    [done|].
  unfold scan_detection at 2 4. generalize (enumerate boxes). intros l.
  revert pt1 pt2 ps ps' Hk.
  induction l as [|[i b] l IHl]; intros pt1 pt2 ps ps' Hk; simpl;
    [by apply IH|].
  destruct (bool_decide (cls b = 0%Z) && bool_decide (conf b > 0.5));
    apply IHl; [|done].
  destruct (decide (i = k)) as [->|Hne].
  - rewrite !get_track_insert. by rewrite Hk.
  - by rewrite !get_track_insert_ne.
Qed.

End tracking.

(** ** The decision tables *)
Section decision_table.

Lemma analyze_frame_person_count (fr : frame) (detections : list (list box))
  (cam_id : string) :
  Multi.person_count (Multi.analyze_frame fr detections cam_id) =
  length (Multi.scan_detections detections).
Proof.
  unfold Multi.analyze_frame.
  repeat match goal with
         | |- context [if ?c then _ else _] => destruct c
         end; done.
Qed.

(** With at least one person the crowd level is read off the ratio. *)
Lemma crowd_level_of_ratio (persons : list Enhanced.person) (fr : frame) :
  persons <> [] ->
  (Enhanced.analyze_crowd_density persons fr).2 <= 0.1 ->
  (Enhanced.analyze_crowd_density persons fr).1 = Enhanced.sparse.
Proof.
  intros Hne. unfold Enhanced.analyze_crowd_density.
  destruct (decide (length persons = 0%nat)) as [Hlen|_].
  { destruct persons; [done | discriminate Hlen]. }
  by_arith.
Qed.

(** C1 (as amended): in [analyze_scene_advanced] the table is evaluated in
    the stated order, first match winning - one person below the very-dark
    threshold (in particular at brightness 30) is CRITICAL with the
    lone-person-very-dark category whatever else holds, two persons at
    brightness 90 are MEDIUM, four persons at crowd ratio 0.05 are LOW.
    In [analyze_frame] of the multi-camera monitor rule 1 comes first as
    well and four persons are LOW, but the table has no rule for two
    persons in good light: two persons at brightness 90 are LOW. *)
Theorem risk_table_priority (pt : gmap nat Enhanced.track) (fr : frame)
  (detections : list (list box)) (camera : camera_id) (cam_id : string)
  (now : R) :
  let persons := (Enhanced.extract_persons now detections pt).1 in
  let run := Enhanced.analyze_scene_advanced pt fr detections camera now in
  let rule1 :=
    exists a pt', run = Some (a, pt') /\
      Enhanced.severity_of a = CRITICAL /\
      Enhanced.alert_type a = "Lone Woman - Very Dark Area"%string /\
      Enhanced.risk_factors a =
        ["Very poor lighting"; "Isolated individual"]%string in
  let a := Multi.analyze_frame fr detections cam_id in
  (length persons = 1%nat -> mean_gray fr < 50 -> rule1) /\
  (length persons = 1%nat -> mean_gray fr = 30 -> rule1) /\
  (length persons = 2%nat -> mean_gray fr = 90 ->
     exists a pt', run = Some (a, pt') /\ Enhanced.severity_of a = MEDIUM) /\
  (length persons = 4%nat ->
     (Enhanced.analyze_crowd_density persons fr).2 = 0.05 ->
     exists a pt', run = Some (a, pt') /\ Enhanced.severity_of a = LOW) /\
  (Multi.person_count a = 1%nat -> mean_gray fr < 50 ->
     Multi.severity_of a = CRITICAL /\
     Multi.alert_type a = "Lone Woman - Very Dark Area"%string) /\
  (Multi.person_count a = 2%nat -> mean_gray fr = 90 ->
     Multi.severity_of a = LOW /\
     Multi.alert_type a = "Normal Activity"%string) /\
  (Multi.person_count a = 4%nat -> Multi.severity_of a = LOW).
Proof.
  intros persons run rule1 a.
  assert (Hrule1 : length persons = 1%nat -> mean_gray fr < 50 -> rule1).
  { intros Hn Hb. subst rule1 run persons.
    unfold Enhanced.analyze_scene_advanced.
    destruct (Enhanced.extract_persons now detections pt) as [ps pt'].
    simpl in Hn.
    destruct (Enhanced.analyze_crowd_density ps fr) as [lvl d].
    rewrite Hn. settle. by eexists _, _. }
  split; [done|]. split; [intros Hn Hb; apply Hrule1; [done|lra]|].
  split; [|split].
  - intros Hn Hb. subst run persons.
    unfold Enhanced.analyze_scene_advanced.
    destruct (Enhanced.extract_persons now detections pt) as [ps pt'].
    simpl in Hn.
    destruct (Enhanced.analyze_crowd_density ps fr) as [lvl d].
    rewrite Hn, Hb. settle. rewrite andb_false_r. by eexists _, _.
  - intros Hn Hd. subst run persons.
    unfold Enhanced.analyze_scene_advanced.
    destruct (Enhanced.extract_persons now detections pt) as [ps pt'].
    simpl in Hn, Hd.
    assert (Hne : ps <> []) by (by destruct ps).
    pose proof (crowd_level_of_ratio ps fr Hne) as Hlvl.
    destruct (Enhanced.analyze_crowd_density ps fr) as [lvl d].
    simpl in Hd, Hlvl. rewrite Hn, Hlvl by lra. settle. by eexists _, _.
  - subst a. rewrite analyze_frame_person_count.
    unfold Multi.analyze_frame.
    split; [|split].
    + intros Hn Hb. rewrite Hn. settle. done.
    + intros Hn Hb. rewrite Hn, Hb. settle. done.
    + intros Hn. rewrite Hn. settle.
      by destruct (bool_decide (mean_gray fr < 80)).
Qed.

Lemma risk_table_priority_witness :
  (exists a pt',
     Enhanced.analyze_scene_advanced ∅ (Frame 100 100 30) one_person
       (inl 0%Z) 1000 = Some (a, pt') /\
     Enhanced.severity_of a = CRITICAL /\
     Enhanced.alert_type a = "Lone Woman - Very Dark Area"%string /\
     Enhanced.risk_factors a =
       ["Very poor lighting"; "Isolated individual"]%string) /\
  (exists a pt',
     Enhanced.analyze_scene_advanced ∅ (Frame 100 100 90) two_persons
       (inl 0%Z) 1000 = Some (a, pt') /\
     Enhanced.severity_of a = MEDIUM) /\
  (exists a pt',
     Enhanced.analyze_scene_advanced ∅ (Frame 100 100 120) four_persons
       (inl 0%Z) 1000 = Some (a, pt') /\
     Enhanced.severity_of a = LOW) /\
  (Multi.severity_of
     (Multi.analyze_frame (Frame 100 100 90) two_persons "cam1") = LOW /\
   Multi.alert_type
     (Multi.analyze_frame (Frame 100 100 90) two_persons "cam1") =
     "Normal Activity"%string).
Proof.
  split; [|split; [|split]].
  - apply (risk_table_priority ∅ (Frame 100 100 30) one_person
             (inl 0%Z) "cam1" 1000).
    + unfold Enhanced.extract_persons, Enhanced.scan_detection,
        Enhanced.scan_box. settle. reflexivity.
    + reflexivity.
  - apply (risk_table_priority ∅ (Frame 100 100 90) two_persons
             (inl 0%Z) "cam1" 1000).
    + unfold Enhanced.extract_persons, Enhanced.scan_detection,
        Enhanced.scan_box. settle. reflexivity.
    + reflexivity.
  - apply (risk_table_priority ∅ (Frame 100 100 120) four_persons
             (inl 0%Z) "cam1" 1000).
    + unfold Enhanced.extract_persons, Enhanced.scan_detection,
        Enhanced.scan_box. settle. reflexivity.
    + unfold Enhanced.extract_persons, Enhanced.scan_detection,
        Enhanced.scan_box. settle.
      unfold Enhanced.analyze_crowd_density, Enhanced.calculate_bbox_area.
      settle. rewrite mult_IZR. settle. lra.
  - apply (risk_table_priority ∅ (Frame 100 100 90) two_persons
             (inl 0%Z) "cam1" 1000).
    + rewrite analyze_frame_person_count.
      unfold Multi.scan_detections, Multi.scan_box. settle. reflexivity.
    + reflexivity.
Defined.

(** C1 as stated fails for [analyze_frame]: two persons at brightness 90
    are rated LOW, not MEDIUM. *)
Lemma analyze_frame_two_persons_well_lit :
  ~ (forall (fr : frame) (detections : list (list box)) (cam_id : string),
       Multi.person_count (Multi.analyze_frame fr detections cam_id) = 2%nat ->
       mean_gray fr = 90 ->
       Multi.severity_of (Multi.analyze_frame fr detections cam_id) = MEDIUM).
Proof.
  intros H. specialize (H (Frame 100 100 90) two_persons "cam1"%string).
  rewrite analyze_frame_person_count in H.
  unfold Multi.analyze_frame, Multi.scan_detections, Multi.scan_box in H.
  revert H. settle. intros H. by specialize (H eq_refl eq_refl).
Qed.

End decision_table.

(** ** What an assessment depends on, and what it changes *)
Section assessment_state.
Import Enhanced.

(** The analysis record computed from two tracker states that agree on the
    track of index 0 is the same. *)
Lemma analysis_track0 (pt1 pt2 : gmap nat track) (fr : frame)
  (detections : list (list box)) (camera : camera_id) (now : R) :
  get_track pt1 0 = get_track pt2 0 ->
  fst <$> analyze_scene_advanced pt1 fr detections camera now =
  fst <$> analyze_scene_advanced pt2 fr detections camera now.
Proof.
  intros H0. unfold analyze_scene_advanced.
  pose proof (extract_persons_persons now now detections pt1 pt2) as Hps.
  pose proof (extract_persons_track_local now detections pt1 pt2 0 H0) as Htr.
  destruct (extract_persons now detections pt1) as [ps pt1'].
  destruct (extract_persons now detections pt2) as [ps' pt2'].
  simpl in Hps, Htr. subst ps'. rewrite Htr.
  destruct (analyze_crowd_density ps fr) as [lvl d].
  repeat match goal with
         | |- context [if ?c then _ else _] => destruct c
         | |- context [match ?c with Some _ => _ | None => _ end] => destruct c
         end; done.
Qed.

(** Outside the branches for a single person in light that is not very
    dark, neither the tracker state nor the clock matters. *)
Lemma analysis_stateless (pt1 pt2 : gmap nat track) (fr : frame)
  (detections : list (list box)) (camera : camera_id) (now1 now2 : R) :
  length (extract_persons now1 detections pt1).1 <> 1%nat \/ mean_gray fr < 50 ->
  fst <$> analyze_scene_advanced pt1 fr detections camera now1 =
  fst <$> analyze_scene_advanced pt2 fr detections camera now2.
Proof.
  intros Hcase. unfold analyze_scene_advanced.
  pose proof (extract_persons_persons now1 now2 detections pt1 pt2) as Hps.
  destruct (extract_persons now1 detections pt1) as [ps pt1'].
  destruct (extract_persons now2 detections pt2) as [ps' pt2'].
  simpl in Hps, Hcase. subst ps'.
  destruct (analyze_crowd_density ps fr) as [lvl d].
  destruct Hcase as [Hn|Hb].
  - rewrite !(bool_decide_eq_false_2 (length ps = 1%nat)) by done. simpl.
    repeat match goal with
           | |- context [if ?c then _ else _] => destruct c
           end; done.
  - rewrite !(bool_decide_eq_true_2 (mean_gray fr < 50)) by done.
    rewrite !andb_true_r.
    rewrite !(bool_decide_eq_true_2 (mean_gray fr < 80)) by lra.
    rewrite !andb_true_r.
    destruct (bool_decide (length ps = 1%nat)) eqn:Hn; simpl; [done|].
    repeat match goal with
           | |- context [if ?c then _ else _] => destruct c
           end; done.
Qed.

(** On paired samples [calculate_speed] does not raise. *)
Lemma calculate_speed_defined (positions : list (R * R)) (timestamps : list R) :
  length positions = length timestamps ->
  is_Some (calculate_speed positions timestamps).
Proof.
  intros Hlen. unfold calculate_speed.
  destruct (decide (length positions < 2)%nat) as [|Hlong]; [by eexists|].
  destruct timestamps as [|t ts]; [simpl in Hlen; lia|].
  destruct (last (t :: ts)) as [tn|] eqn:Hl.
  - simpl. destruct (decide (tn - t > 0)); by eexists.
  - by apply last_None in Hl.
Qed.

(** As long as the clock does not run backwards the assessment returns a
    result and leaves every track well formed. *)
Lemma analyze_scene_advanced_total (pt : gmap nat track) (fr : frame)
  (detections : list (list box)) (camera : camera_id) (now0 now : R) :
  now0 <= now ->
  (forall i, track_ok now0 (get_track pt i)) ->
  exists a pt',
    analyze_scene_advanced pt fr detections camera now = Some (a, pt') /\
    forall i, track_ok now (get_track pt' i).
Proof.
  intros Hle Hpt.
  pose proof (extract_persons_tracks_ok now0 now detections pt Hle Hpt) as Hok.
  unfold analyze_scene_advanced.
  destruct (extract_persons now detections pt) as [ps pt1]. simpl in Hok.
  destruct (analyze_crowd_density ps fr) as [lvl d].
  destruct (calculate_speed_defined (positions (get_track pt1 0))
              (timestamps (get_track pt1 0))) as [v Hv].
  { apply (Hok 0%nat). }
  rewrite Hv.
  repeat match goal with
         | |- context [if ?c then _ else _] => destruct c
         end; by eexists _, _.
Qed.

(** An accepted box appends its centre and the clock reading to the track
    of its index. *)
Lemma scan_box_appends (now : R) (ps : list person) (pt : gmap nat track)
  (i : nat) (b : box) :
  cls b = 0%Z -> conf b > 0.5 ->
  get_track (scan_box now (ps, pt) (i, b)).2 i =
  update_track now ((bx1 (xyxy b) + bx2 (xyxy b)) / 2,
                    (by1 (xyxy b) + by2 (xyxy b)) / 2) (get_track pt i).
Proof.
  intros Hc Hf. unfold scan_box.
  rewrite (bool_decide_eq_true_2 _ Hc), (bool_decide_eq_true_2 _ Hf). simpl.
  apply get_track_insert.
Qed.

(** C7 (as amended): the assessment is a function of the frame inputs
    together with the clock reading and the stored track of index 0 - from
    tracker states that agree on that track, at the same clock reading,
    identical inputs give the same assessment; for any person count other
    than one, and for one person in very dark light, it does not depend on
    tracker state or clock at all. It is not free of side effects: every
    accepted detection appends a sample to the track of its index. *)
Theorem assessment_depends_on_track0 (pt1 pt2 : gmap nat track) (fr : frame)
  (detections : list (list box)) (camera : camera_id) (now now' : R) :
  (get_track pt1 0 = get_track pt2 0 ->
   fst <$> analyze_scene_advanced pt1 fr detections camera now =
   fst <$> analyze_scene_advanced pt2 fr detections camera now) /\
  (length (extract_persons now detections pt1).1 <> 1%nat \/ mean_gray fr < 50 ->
   fst <$> analyze_scene_advanced pt1 fr detections camera now =
   fst <$> analyze_scene_advanced pt2 fr detections camera now') /\
  (forall ps i b, cls b = 0%Z -> conf b > 0.5 ->
     let t := get_track pt1 i in
     let t' := get_track (scan_box now (ps, pt1) (i, b)).2 i in
     positions t' =
       deque_append 30 (positions t)
         ((bx1 (xyxy b) + bx2 (xyxy b)) / 2, (by1 (xyxy b) + by2 (xyxy b)) / 2) /\
     timestamps t' = deque_append 30 (timestamps t) now /\
     first_seen t' = Some (default now (first_seen t))).
Proof.
  split; [apply analysis_track0|]. split; [apply analysis_stateless|].
  intros ps i b Hc Hf t t'. subst t t'. rewrite scan_box_appends by done.
  unfold update_track. simpl. by destruct (first_seen (get_track pt1 i)).
Qed.

(** C7 as stated fails: an assessment leaves a sample in the tracker that
    changes what the next assessment returns. A lone person in good light
    is MEDIUM on a fresh tracker, and HIGH (running) when an assessment one
    second earlier saw a person 1000 pixels away. *)
Lemma assessment_changes_later_result :
  ~ (forall pt fr1 dets1 camera now1 a1 pt1 fr2 dets2 now2,
       analyze_scene_advanced pt fr1 dets1 camera now1 = Some (a1, pt1) ->
       (severity_of ∘ fst) <$> analyze_scene_advanced pt1 fr2 dets2 camera now2 =
       (severity_of ∘ fst) <$> analyze_scene_advanced pt fr2 dets2 camera now2).
Proof.
  intros H.
  destruct (analyze_scene_advanced ∅ (Frame 100 100 120) one_person (inl 0%Z) 0)
    as [[a1 pt1]|] eqn:E1.
  - specialize (H ∅ (Frame 100 100 120) one_person (inl 0%Z) 0 a1 pt1
                  (Frame 100 100 120) far_person 1 E1).
    revert E1 H.
    unfold analyze_scene_advanced, extract_persons, scan_detection, scan_box.
    settle. rewrite !get_track_insert.
    replace (get_track ∅ 0) with new_track by done.
    destruct (analyze_crowd_density _ _) as [lvl1 d1].
    destruct (analyze_crowd_density _ _) as [lvl2 d2].
    unfold update_track, deque_append, calculate_speed, detect_running.
    settle. intros [= <- <-]. rewrite !get_track_insert.
    replace (get_track ∅ 0) with new_track by done.
    settle. unfold distance. simpl fst. simpl snd.
    replace (((1000 + 1010) / 2 - (0 + 10) / 2) ^ 2 +
             ((0 + 10) / 2 - (0 + 10) / 2) ^ 2)
      with (1000 * 1000) by lra.
    rewrite sqrt_square by lra. settle. done.
  - revert E1.
    unfold analyze_scene_advanced, extract_persons, scan_detection, scan_box.
    settle. rewrite !get_track_insert.
    replace (get_track ∅ 0) with new_track by done.
    destruct (analyze_crowd_density _ _) as [lvl1 d1].
    unfold update_track, deque_append, calculate_speed, detect_running.
    settle. done.
Qed.

Lemma assessment_depends_on_track0_witness :
  fst <$> analyze_scene_advanced ∅ (Frame 100 100 120) one_person (inl 0%Z) 7 =
  fst <$> analyze_scene_advanced (<[ 5%nat := still_track 3 ]> ∅)
            (Frame 100 100 120) one_person (inl 0%Z) 7.
Proof.
  destruct (assessment_depends_on_track0 ∅ (<[ 5%nat := still_track 3 ]> ∅)
              (Frame 100 100 120) one_person (inl 0%Z) 7 7) as [Hsame _].
  apply Hsame.
  unfold get_track. rewrite lookup_insert_ne by done. reflexivity.
Defined.

End assessment_state.

(** ** The cooldown test of the two [send_alert] functions *)
Section send_alert_gate.

Lemma enhanced_posted (last : gmap camera_id R) (camera : camera_id)
  (a : Enhanced.analysis) (now : R) (iso : string) (reply : post_result) :
  is_Some (Enhanced.posted (Enhanced.send_alert last camera a now iso reply)) <->
  not_blocked last camera now Enhanced.alert_cooldown /\
  Enhanced.severity_of a ∈ [CRITICAL; HIGH; MEDIUM].
Proof.
  unfold Enhanced.send_alert, not_blocked.
  destruct (last !! camera) as [t|] eqn:Hl.
  - destruct (bool_decide (now - t < Enhanced.alert_cooldown)) eqn:Hb.
    + apply bool_decide_eq_true in Hb. simpl. split.
      * by intros [? [=]].
      * intros [[[=]|(t' & [= <-] & Hge)] _]. lra.
    + apply bool_decide_eq_false in Hb.
      case_bool_decide as Hs.
      * split; [|destruct reply; [case_bool_decide|]; simpl; by eexists].
        intros _. split; [|done]. right. exists t. split; [done|lra].
      * simpl. split; [by intros [? [=]] | by intros [_ ?]].
  - case_bool_decide as Hs.
    + split; [|destruct reply; [case_bool_decide|]; simpl; by eexists].
      intros _. split; [by left|done].
    + simpl. split; [by intros [? [=]] | by intros [_ ?]].
Qed.

Lemma enhanced_recorded (last : gmap camera_id R) (camera : camera_id)
  (a : Enhanced.analysis) (now : R) (iso : string) (reply : post_result) :
  let s := Enhanced.send_alert last camera a now iso reply in
  (delivered (Enhanced.posted s) reply ->
     Enhanced.returned s = true /\
     Enhanced.last_alert_time s = <[ camera := now ]> last) /\
  (~ delivered (Enhanced.posted s) reply ->
     Enhanced.returned s = false /\ Enhanced.last_alert_time s = last).
Proof.
  unfold delivered, Enhanced.send_alert.
  destruct (match last !! camera with
            | Some t => bool_decide (now - t < Enhanced.alert_cooldown)
            | None => false
            end); simpl.
  { split; [by intros [[? [=]] _]|done]. }
  case_bool_decide; simpl; [|split; [by intros [[? [=]] _]|done]].
  destruct reply as [status|msg]; [case_bool_decide as Hst|]; simpl.
  - split; [done|]. intros []. split; [by eexists | by rewrite Hst].
  - split; [|done]. intros [_ [= ?]]. done.
  - split; [|done]. by intros [_ [=]].
Qed.

Lemma simple_posted (last : gmap camera_id R) (camera : camera_id)
  (a : Simple.analysis) (now : R) (stamp iso : string) (reply : post_result) :
  is_Some (Simple.posted (Simple.send_alert last camera a now stamp iso reply)) <->
  not_blocked last camera now Simple.alert_cooldown /\
  Simple.severity_of a ∈ [HIGH; MAY_RISK; MEDIUM].
Proof.
  unfold Simple.send_alert, not_blocked.
  destruct (last !! camera) as [t|] eqn:Hl.
  - destruct (bool_decide (now - t < Simple.alert_cooldown)) eqn:Hb.
    + apply bool_decide_eq_true in Hb. simpl. split.
      * by intros [? [=]].
      * intros [[[=]|(t' & [= <-] & Hge)] _]. lra.
    + apply bool_decide_eq_false in Hb.
      case_bool_decide as Hs.
      * split; [|destruct reply; [case_bool_decide|]; simpl; by eexists].
        intros _. split; [|done]. right. exists t. split; [done|lra].
      * simpl. split; [by intros [? [=]] | by intros [_ ?]].
  - case_bool_decide as Hs.
    + split; [|destruct reply; [case_bool_decide|]; simpl; by eexists].
      intros _. split; [by left|done].
    + simpl. split; [by intros [? [=]] | by intros [_ ?]].
Qed.

Lemma simple_recorded (last : gmap camera_id R) (camera : camera_id)
  (a : Simple.analysis) (now : R) (stamp iso : string) (reply : post_result) :
  let s := Simple.send_alert last camera a now stamp iso reply in
  (delivered (Simple.posted s) reply ->
     Simple.last_alert_time s = <[ camera := now ]> last) /\
  (~ delivered (Simple.posted s) reply -> Simple.last_alert_time s = last).
Proof.
  unfold delivered, Simple.send_alert.
  destruct (match last !! camera with
            | Some t => bool_decide (now - t < Simple.alert_cooldown)
            | None => false
            end); simpl.
  { split; [by intros [[? [=]] _]|done]. }
  case_bool_decide; simpl; [|split; [by intros [[? [=]] _]|done]].
  destruct reply as [status|msg]; [case_bool_decide as Hst|]; simpl.
  - split; [done|]. intros []. split; [by eexists | by rewrite Hst].
  - split; [|done]. intros [_ [= ?]]. done.
  - split; [|done]. by intros [_ [=]].
Qed.

End send_alert_gate.

(** ** Which severities the three analyses produce *)
Section severity_range.

Lemma analyze_frame_severity (fr : frame) (detections : list (list box))
  (cam_id : string) :
  Multi.severity_of (Multi.analyze_frame fr detections cam_id) <> MAY_RISK.
Proof.
  unfold Multi.analyze_frame.
  repeat match goal with
         | |- context [if ?c then _ else _] => destruct c
         end; done.
Qed.

Lemma analyze_scene_severity (fr : frame) (detections : list (list box)) :
  Simple.severity_of (Simple.analyze_scene fr detections) <> CRITICAL.
Proof.
  unfold Simple.analyze_scene.
  repeat match goal with
         | |- context [if ?c then _ else _] => destruct c
         end; done.
Qed.

Lemma analyze_scene_advanced_severity (pt pt' : gmap nat Enhanced.track)
  (fr : frame) (detections : list (list box)) (camera : camera_id) (now : R)
  (a : Enhanced.analysis) :
  Enhanced.analyze_scene_advanced pt fr detections camera now = Some (a, pt') ->
  Enhanced.severity_of a <> MAY_RISK.
Proof.
  unfold Enhanced.analyze_scene_advanced.
  destruct (Enhanced.extract_persons now detections pt) as [ps pt0].
  destruct (Enhanced.analyze_crowd_density ps fr) as [lvl d].
  repeat match goal with
         | |- context [if ?c then _ else _] => destruct c
         | |- context [match ?c with Some _ => _ | None => _ end] => destruct c
         end; intros [= <- <-]; done.
Qed.

(** The membership tests of the three alert paths, against the order
    LOW < MEDIUM < MAY_RISK < HIGH < CRITICAL. *)
Lemma crit_high_medium (s : severity) :
  s <> MAY_RISK -> s ∈ [CRITICAL; HIGH; MEDIUM] <-> severity_le MEDIUM s.
Proof.
  intros Hs. unfold severity_le.
  destruct s; split; intros H;
    first [ done
          | by (simpl; lia)
          | by (simpl in H; lia)
          | by apply (bool_decide_unpack _)
          | by apply (bool_decide_pack _) in H ].
Qed.

Lemma high_mayrisk_medium (s : severity) :
  s <> CRITICAL -> s ∈ [HIGH; MAY_RISK; MEDIUM] <-> severity_le MEDIUM s.
Proof.
  intros Hs. unfold severity_le.
  destruct s; split; intros H;
    first [ done
          | by (simpl; lia)
          | by (simpl in H; lia)
          | by apply (bool_decide_unpack _)
          | by apply (bool_decide_pack _) in H ].
Qed.

Lemma dark_capture_critical (t : R) (cam_id : string) :
  Multi.severity_of
    (Multi.analyze_frame (Multi.cap_frame (dark_capture t))
                         (Multi.cap_detections (dark_capture t)) cam_id)
  = CRITICAL.
Proof.
  unfold Multi.analyze_frame, Multi.scan_detections, Multi.scan_box.
  settle. done.
Qed.

End severity_range.

(** ** The feed worker's alert decision *)
Section feed_worker.

(** What [process_frame] does when its test succeeds, and when it fails. *)
Lemma process_frame_cases (cam_id : string) (cfg : Multi.camera_config)
  (c : Multi.capture) (last : R) (st : Multi.stats) :
  let a := Multi.analyze_frame (Multi.cap_frame c) (Multi.cap_detections c) cam_id in
  (severity_le MEDIUM (Multi.severity_of a) /\
   Multi.cap_time c - last > Multi.alert_cooldown ->
   Multi.process_frame cam_id cfg c last st =
     (Multi.cap_time c,
      {| Multi.frames_processed := Multi.frames_processed st;
         Multi.alerts_sent := Multi.alerts_sent st + 1;
         Multi.last_alert := Some (Multi.cap_hms c);
         Multi.status_of := Multi.status_of st |},
      Some (Multi.build_alert cam_id cfg a (Multi.cap_iso c)))) /\
  (~ (severity_le MEDIUM (Multi.severity_of a) /\
      Multi.cap_time c - last > Multi.alert_cooldown) ->
   Multi.process_frame cam_id cfg c last st = (last, st, None)).
Proof.
  intros a. unfold Multi.process_frame. fold a.
  pose proof (crit_high_medium (Multi.severity_of a)
                (analyze_frame_severity _ _ _)) as Hmem.
  split.
  - intros [Hs Ht]. apply Hmem in Hs.
    by rewrite (bool_decide_eq_true_2 _ Hs), (bool_decide_eq_true_2 _ Ht).
  - intros Hn.
    destruct (bool_decide (Multi.severity_of a ∈ [CRITICAL; HIGH; MEDIUM]))
      eqn:Hs; [|done].
    destruct (bool_decide (Multi.cap_time c - last > Multi.alert_cooldown))
      eqn:Ht; [|done].
    apply bool_decide_eq_true in Hs, Ht. destruct Hn. split; [|done].
    by apply Hmem.
Qed.

(** One loop iteration: the queue grows by what [process_frame] emits on
    every 30th frame and not at all otherwise. *)
Lemma worker_iter_cases (cam_id : string) (cfg : Multi.camera_config)
  (c : Multi.capture) (w w' : Multi.worker) (sh sh' : Multi.shared) :
  Multi.worker_iter cam_id cfg c (w, sh) = Some (w', sh') ->
  exists st,
    Multi.camera_stats sh !! cam_id = Some st /\
    Multi.frame_count w' = S (Multi.frame_count w) /\
    Multi.sender_log sh' = Multi.sender_log sh /\
    let st1 := {| Multi.frames_processed := S (Multi.frame_count w);
                  Multi.alerts_sent := Multi.alerts_sent st;
                  Multi.last_alert := Multi.last_alert st;
                  Multi.status_of := Multi.status_of st |} in
    let r := Multi.process_frame cam_id cfg c (Multi.last_alert_time w) st1 in
    if decide (S (Multi.frame_count w) `mod` 30 = 0)%nat then
      Multi.last_alert_time w' = r.1.1 /\
      Multi.alert_queue sh' = Multi.alert_queue sh ++ option_list r.2 /\
      Multi.camera_stats sh' = <[ cam_id := r.1.2 ]> (Multi.camera_stats sh)
    else
      Multi.last_alert_time w' = Multi.last_alert_time w /\
      Multi.alert_queue sh' = Multi.alert_queue sh /\
      Multi.camera_stats sh' = <[ cam_id := st1 ]> (Multi.camera_stats sh).
Proof.
  unfold Multi.worker_iter.
  destruct (Multi.camera_stats sh !! cam_id) as [st|]; [|done].
  intros H. exists st. split; [done|]. revert H.
  case_bool_decide as Hm.
  - destruct (Multi.process_frame _ _ _ _ _) as [[last st'] out].
    intros [= <- <-]. simpl. rewrite decide_True by done. done.
  - intros [= <- <-]. simpl. rewrite decide_False by done. done.
Qed.

End feed_worker.

(** ** When an alert is built *)
Section alert_threshold.

(** C8 (as amended): on every analysed frame the feed worker puts an alert
    on the queue and records the clock reading as the feed's last alert
    time exactly when the assessed severity is MEDIUM or above and the
    cooldown test passes; otherwise queue and last alert time stay as they
    are, so a LOW frame never yields an alert. The two single-camera
    [send_alert] functions build and POST the alert under the same
    condition, but record the time of the call only when, in addition, the
    POST is answered with status 200; in every other case the recorded
    times stay as they were. *)
Theorem alert_iff_medium_and_permitted :
  (forall cam_id cfg c w sh w' sh',
     Multi.worker_iter cam_id cfg c (w, sh) = Some (w', sh') ->
     (S (Multi.frame_count w) `mod` 30 = 0)%nat ->
     let a := Multi.analyze_frame (Multi.cap_frame c)
                                  (Multi.cap_detections c) cam_id in
     let permitted :=
       severity_le MEDIUM (Multi.severity_of a) /\
       Multi.cap_time c - Multi.last_alert_time w > Multi.alert_cooldown in
     (permitted ->
        Multi.alert_queue sh' =
          Multi.alert_queue sh ++ [Multi.build_alert cam_id cfg a (Multi.cap_iso c)] /\
        Multi.last_alert_time w' = Multi.cap_time c) /\
     (~ permitted ->
        Multi.alert_queue sh' = Multi.alert_queue sh /\
        Multi.last_alert_time w' = Multi.last_alert_time w) /\
     (Multi.severity_of a = LOW ->
        Multi.alert_queue sh' = Multi.alert_queue sh)) /\
  (forall last camera fr detections now stamp iso reply,
     let a := Simple.analyze_scene fr detections in
     let s := Simple.send_alert last camera a now stamp iso reply in
     let permitted :=
       severity_le MEDIUM (Simple.severity_of a) /\
       not_blocked last camera now Simple.alert_cooldown in
     (is_Some (Simple.posted s) <-> permitted) /\
     (permitted ->
        Simple.posted s = Some (Simple.build_alert camera a stamp iso)) /\
     (permitted /\ reply = Response 200 ->
        Simple.last_alert_time s = <[ camera := now ]> last) /\
     (~ (permitted /\ reply = Response 200) ->
        Simple.last_alert_time s = last) /\
     (Simple.severity_of a = LOW -> Simple.posted s = None)) /\
  (forall pt fr detections camera now a pt' last now' iso reply,
     Enhanced.analyze_scene_advanced pt fr detections camera now = Some (a, pt') ->
     let s := Enhanced.send_alert last camera a now' iso reply in
     let permitted :=
       severity_le MEDIUM (Enhanced.severity_of a) /\
       not_blocked last camera now' Enhanced.alert_cooldown in
     (is_Some (Enhanced.posted s) <-> permitted) /\
     (permitted ->
        Enhanced.posted s = Some (Enhanced.build_alert camera a iso)) /\
     (permitted /\ reply = Response 200 ->
        Enhanced.last_alert_time s = <[ camera := now' ]> last) /\
     (~ (permitted /\ reply = Response 200) ->
        Enhanced.last_alert_time s = last) /\
     (Enhanced.severity_of a = LOW -> Enhanced.posted s = None)).
Proof.
  split; [|split].
  - intros cam_id cfg c w sh w' sh' Hiter Hmod a permitted.
    apply worker_iter_cases in Hiter as (st & Hst & _ & _ & Hcases).
    cbv zeta in Hcases. rewrite decide_True in Hcases by done.
    destruct Hcases as (Hlast & Hq & _).
    match type of Hlast with
    | _ = (Multi.process_frame _ _ _ _ ?st1).1.1 =>
        destruct (process_frame_cases cam_id cfg c (Multi.last_alert_time w) st1)
          as [Hyes Hno]
    end.
    fold a in Hyes, Hno. fold permitted in Hyes, Hno.
    assert (Hnot : ~ permitted -> Multi.alert_queue sh' = Multi.alert_queue sh /\
               Multi.last_alert_time w' = Multi.last_alert_time w).
    { intros Hn. rewrite Hq, Hlast, (Hno Hn). simpl. by rewrite app_nil_r. }
    split; [|split; [done|]].
    + intros Hp. by rewrite Hq, Hlast, (Hyes Hp).
    + intros Hlow. apply Hnot. intros [Hs _]. rewrite Hlow in Hs.
      unfold severity_le in Hs. simpl in Hs. lia.
  - intros last camera fr detections now stamp iso reply a s permitted.
    assert (Hiff : is_Some (Simple.posted s) <-> permitted).
    { subst s a permitted. rewrite simple_posted.
      rewrite (high_mayrisk_medium _ (analyze_scene_severity fr detections)).
      tauto. }
    destruct (simple_recorded last camera a now stamp iso reply) as [Hyes Hno].
    cbv zeta in Hyes, Hno. fold s in Hyes, Hno. unfold delivered in Hyes, Hno.
    split; [done|]. split; [|split; [|split]].
    + intros Hp. apply Hiff in Hp as [alert Hp]. rewrite Hp. f_equal.
      revert Hp. subst s. unfold Simple.send_alert.
      repeat match goal with
             | |- context [if ?c then _ else _] => destruct c
             | |- context [match ?c with Response _ => _ | PostRaised _ => _ end] =>
                 destruct c
             end; by intros [= <-].
    + intros [Hp Hr]. apply Hyes. by split; [apply Hiff|].
    + intros Hn. apply Hno. intros [Hp Hr]. apply Hn. by split; [apply Hiff|].
    + intros Hlow. destruct (Simple.posted s) eqn:Hp; [|done].
      assert (Hs : is_Some (Some a0)) by (by eexists).
      apply Hiff in Hs as [Hs _]. rewrite Hlow in Hs.
      unfold severity_le in Hs. simpl in Hs. lia.
  - intros pt fr detections camera now a pt' last now' iso reply Ha s permitted.
    assert (Hiff : is_Some (Enhanced.posted s) <-> permitted).
    { subst s permitted. rewrite enhanced_posted.
      rewrite (crit_high_medium _
                 (analyze_scene_advanced_severity _ _ _ _ _ _ _ Ha)).
      tauto. }
    destruct (enhanced_recorded last camera a now' iso reply) as [Hyes Hno].
    cbv zeta in Hyes, Hno. fold s in Hyes, Hno. unfold delivered in Hyes, Hno.
    split; [done|]. split; [|split; [|split]].
    + intros Hp. apply Hiff in Hp as [alert Hp]. rewrite Hp. f_equal.
      revert Hp. subst s. unfold Enhanced.send_alert.
      repeat match goal with
             | |- context [if ?c then _ else _] => destruct c
             | |- context [match ?c with Response _ => _ | PostRaised _ => _ end] =>
                 destruct c
             end; by intros [= <-].
    + intros [Hp Hr]. apply Hyes. by split; [apply Hiff|].
    + intros Hn. apply Hno. intros [Hp Hr]. apply Hn. by split; [apply Hiff|].
    + intros Hlow. destruct (Enhanced.posted s) eqn:Hp; [|done].
      assert (Hs : is_Some (Some a0)) by (by eexists).
      apply Hiff in Hs as [Hs _]. rewrite Hlow in Hs.
      unfold severity_le in Hs. simpl in Hs. lia.
Qed.

Lemma alert_iff_medium_and_permitted_witness :
  exists w' sh',
    Multi.worker_iter "cam1"
      (Multi.CameraConfig (inl 0%Z) "Park Street - North Gate"
                          11.1085 77.3411 true)
      (dark_capture 100)
      (Multi.Worker 29 0,
       Multi.Shared [] (Multi.initial_camera_stats Multi.cameras) [])
      = Some (w', sh') /\
    length (Multi.alert_queue sh') = 1%nat /\
    Multi.last_alert_time w' = 100.
Proof.
  set (cfg := Multi.CameraConfig (inl 0%Z) "Park Street - North Gate"
                                 11.1085 77.3411 true).
  set (sh := Multi.Shared [] (Multi.initial_camera_stats Multi.cameras) []).
  destruct (Multi.worker_iter "cam1" cfg (dark_capture 100)
              (Multi.Worker 29 0, sh)) as [[w' sh']|] eqn:E.
  - exists w', sh'. split; [reflexivity|].
    destruct alert_iff_medium_and_permitted as (Hworker & _).
    destruct (Hworker "cam1"%string cfg (dark_capture 100)
                (Multi.Worker 29 0) sh w' sh' E eq_refl) as (Hyes & _).
    destruct Hyes as [Hq Hl].
    + split.
      * rewrite dark_capture_critical. unfold severity_le. simpl. lia.
      * unfold Multi.alert_cooldown. simpl. lra.
    + rewrite Hq, Hl. split; reflexivity.
  - unfold Multi.worker_iter in E.
    change (Multi.camera_stats sh !! "cam1"%string)
      with (Some Multi.initial_stats) in E.
    revert E. rewrite bool_decide_eq_true_2 by reflexivity.
    by destruct (Multi.process_frame _ _ _ _ _) as [[? ?] ?].
Defined.

(** C8 as stated fails for [send_alert]: one person at brightness 30 is
    rated CRITICAL and nothing blocks the call, so the alert is built and
    POSTed; the reply has status 500 and no time is recorded for the
    camera. *)
Lemma posted_alert_not_recorded :
  ~ (forall pt fr detections camera now a pt' last now' iso reply,
       Enhanced.analyze_scene_advanced pt fr detections camera now = Some (a, pt') ->
       let s := Enhanced.send_alert last camera a now' iso reply in
       (is_Some (Enhanced.posted s) /\
        Enhanced.last_alert_time s !! camera = Some now') <->
       (severity_le MEDIUM (Enhanced.severity_of a) /\
        not_blocked last camera now' Enhanced.alert_cooldown)).
Proof.
  intros H.
  assert (Ha : exists a pt',
            Enhanced.analyze_scene_advanced ∅ (Frame 100 100 30) one_person
              (inl 0%Z) 1000 = Some (a, pt') /\
            Enhanced.severity_of a = CRITICAL).
  { unfold Enhanced.analyze_scene_advanced, Enhanced.extract_persons,
      Enhanced.scan_detection, Enhanced.scan_box. settle.
    destruct (Enhanced.analyze_crowd_density _ _) as [lvl d].
    eexists _, _. split; reflexivity. }
  destruct Ha as (a & pt' & Ha & Hcrit).
  specialize (H ∅ (Frame 100 100 30) one_person (inl 0%Z) 1000 a pt' ∅ 1000
                "2025-01-01T00:16:40"%string (Response 500) Ha).
  cbv zeta in H. destruct H as [_ H].
  destruct H as [_ Hrec].
  { split.
    - rewrite Hcrit. unfold severity_le. simpl. lia.
    - by left. }
  destruct (enhanced_recorded ∅ (inl 0%Z) a 1000 "2025-01-01T00:16:40"
              (Response 500)) as [_ Hno].
  cbv zeta in Hno. destruct Hno as [_ Hlast].
  { intros [_ Hr]. discriminate Hr. }
  rewrite Hlast, lookup_empty in Hrec. discriminate Hrec.
Qed.

End alert_threshold.

(** ** The cooldown test *)
Section cooldown.

(** The decision of [send_alert] reads only the entry of its own camera. *)
Lemma enhanced_posted_local (last1 last2 : gmap camera_id R)
  (camera : camera_id) (a : Enhanced.analysis) (now : R) (iso : string)
  (reply : post_result) :
  last1 !! camera = last2 !! camera ->
  Enhanced.posted (Enhanced.send_alert last1 camera a now iso reply) =
  Enhanced.posted (Enhanced.send_alert last2 camera a now iso reply).
Proof.
  intros H. unfold Enhanced.send_alert. rewrite H.
  repeat match goal with
         | |- context [if ?c then _ else _] => destruct c
         | |- context [match ?c with Response _ => _ | PostRaised _ => _ end] =>
             destruct c
         end; done.
Qed.

Lemma simple_posted_local (last1 last2 : gmap camera_id R)
  (camera : camera_id) (a : Simple.analysis) (now : R) (stamp iso : string)
  (reply : post_result) :
  last1 !! camera = last2 !! camera ->
  Simple.posted (Simple.send_alert last1 camera a now stamp iso reply) =
  Simple.posted (Simple.send_alert last2 camera a now stamp iso reply).
Proof.
  intros H. unfold Simple.send_alert. rewrite H.
  repeat match goal with
         | |- context [if ?c then _ else _] => destruct c
         | |- context [match ?c with Response _ => _ | PostRaised _ => _ end] =>
             destruct c
         end; done.
Qed.

(** A call for one camera leaves the entries of the others alone. *)
Lemma enhanced_other_entries (last : gmap camera_id R) (camera other : camera_id)
  (a : Enhanced.analysis) (now : R) (iso : string) (reply : post_result) :
  other <> camera ->
  Enhanced.last_alert_time (Enhanced.send_alert last camera a now iso reply)
    !! other = last !! other.
Proof.
  intros Hne. unfold Enhanced.send_alert.
  repeat match goal with
         | |- context [if ?c then _ else _] => destruct c
         | |- context [match ?c with Response _ => _ | PostRaised _ => _ end] =>
             destruct c
         end; simpl; try done; by rewrite lookup_insert_ne.
Qed.

Lemma simple_other_entries (last : gmap camera_id R) (camera other : camera_id)
  (a : Simple.analysis) (now : R) (stamp iso : string) (reply : post_result) :
  other <> camera ->
  Simple.last_alert_time (Simple.send_alert last camera a now stamp iso reply)
    !! other = last !! other.
Proof.
  intros Hne. unfold Simple.send_alert.
  repeat match goal with
         | |- context [if ?c then _ else _] => destruct c
         | |- context [match ?c with Response _ => _ | PostRaised _ => _ end] =>
             destruct c
         end; simpl; try done; by rewrite lookup_insert_ne.
Qed.

(** An iteration of one camera thread leaves the locals of the other
    threads alone. *)
Lemma camera_step_other (cams : gmap string Multi.camera_config)
  (s s' : Multi.system) (cam_id other : string) (c : Multi.capture) :
  Multi.system_step cams s (Multi.CameraIter cam_id c) = Some s' ->
  other <> cam_id ->
  Multi.sys_workers s' !! other = Multi.sys_workers s !! other.
Proof.
  unfold Multi.system_step. destruct (cams !! cam_id) as [cfg|]; [|done].
  match goal with
  | |- context [Multi.worker_iter ?a ?b ?c ?d] =>
      destruct (Multi.worker_iter a b c d) as [[w sh]|]; [|done]
  end.
  intros [= <-] Hne. simpl. by rewrite lookup_insert_ne.
Qed.

(** C4 (as amended): for a qualifying assessment the two [send_alert]
    functions let a call pass exactly when the camera has no recorded time
    or now minus the recorded time is at least 30, so a call exactly 30
    after the recorded one passes; the camera thread of the multi-camera
    monitor keeps its own last alert time, starting at 0, and lets a frame
    pass exactly when now minus that time is greater than 30, so a frame
    exactly 30 later does not pass. In all three a decision reads and
    writes the time of its own camera only. *)
Theorem cooldown_permit :
  (forall last camera a now iso reply,
     let s := Enhanced.send_alert last camera a now iso reply in
     Enhanced.severity_of a ∈ [CRITICAL; HIGH; MEDIUM] ->
     (is_Some (Enhanced.posted s) <->
        last !! camera = None \/
        exists t, last !! camera = Some t /\ now - t >= 30) /\
     (forall t, last !! camera = Some t -> now = t + 30 ->
        is_Some (Enhanced.posted s)) /\
     (forall other, other <> camera ->
        Enhanced.last_alert_time s !! other = last !! other) /\
     (forall last', last' !! camera = last !! camera ->
        Enhanced.posted (Enhanced.send_alert last' camera a now iso reply) =
        Enhanced.posted s)) /\
  (forall last camera a now stamp iso reply,
     let s := Simple.send_alert last camera a now stamp iso reply in
     Simple.severity_of a ∈ [HIGH; MAY_RISK; MEDIUM] ->
     (is_Some (Simple.posted s) <->
        last !! camera = None \/
        exists t, last !! camera = Some t /\ now - t >= 30) /\
     (forall t, last !! camera = Some t -> now = t + 30 ->
        is_Some (Simple.posted s)) /\
     (forall other, other <> camera ->
        Simple.last_alert_time s !! other = last !! other) /\
     (forall last', last' !! camera = last !! camera ->
        Simple.posted (Simple.send_alert last' camera a now stamp iso reply) =
        Simple.posted s)) /\
  (forall cam_id cfg c last st,
     let a := Multi.analyze_frame (Multi.cap_frame c)
                                  (Multi.cap_detections c) cam_id in
     let r := Multi.process_frame cam_id cfg c last st in
     severity_le MEDIUM (Multi.severity_of a) ->
     (is_Some r.2 <-> Multi.cap_time c - last > 30) /\
     (Multi.cap_time c = last + 30 -> r.2 = None)) /\
  (forall cams s s' cam_id other c,
     Multi.system_step cams s (Multi.CameraIter cam_id c) = Some s' ->
     other <> cam_id ->
     Multi.sys_workers s' !! other = Multi.sys_workers s !! other) /\
  Multi.last_alert_time Multi.initial_worker = 0.
Proof.
  split; [|split; [|split; [|split; [|done]]]].
  - intros last camera a now iso reply s Hsev.
    assert (Hiff : is_Some (Enhanced.posted s) <->
              last !! camera = None \/
              exists t, last !! camera = Some t /\ now - t >= 30).
    { subst s. rewrite enhanced_posted. unfold not_blocked.
      unfold Enhanced.alert_cooldown. tauto. }
    split; [done|]. split; [|split].
    + intros t Ht Hnow. apply Hiff. right. exists t. split; [done|lra].
    + intros other Hne. by apply enhanced_other_entries.
    + intros last' Hl. by apply enhanced_posted_local.
  - intros last camera a now stamp iso reply s Hsev.
    assert (Hiff : is_Some (Simple.posted s) <->
              last !! camera = None \/
              exists t, last !! camera = Some t /\ now - t >= 30).
    { subst s. rewrite simple_posted. unfold not_blocked.
      unfold Simple.alert_cooldown. tauto. }
    split; [done|]. split; [|split].
    + intros t Ht Hnow. apply Hiff. right. exists t. split; [done|lra].
    + intros other Hne. by apply simple_other_entries.
    + intros last' Hl. by apply simple_posted_local.
  - intros cam_id cfg c last st a r Hsev.
    destruct (process_frame_cases cam_id cfg c last st) as [Hyes Hno].
    fold a in Hyes, Hno. unfold Multi.alert_cooldown in Hyes, Hno.
    destruct (decide (Multi.cap_time c - last > 30)) as [Hgt|Hle].
    + subst r. rewrite Hyes by done. simpl. split; [|intros; lra].
      split; [done | by eexists].
    + subst r. rewrite Hno by tauto. simpl. split; [|done].
      split; [by intros [? [=]] | done].
  - intros cams s s' cam_id other c. apply camera_step_other.
Qed.

Lemma cooldown_permit_witness :
  is_Some (Simple.posted
    (Simple.send_alert (<[ inl 0%Z := 100 ]> ∅) (inl 0%Z) test_dummy
       130 "20250101_000000" "2025-01-01T00:00:00" (Response 200))) /\
  (Multi.process_frame "cam1" (Multi.CameraConfig (inl 0%Z) "Gate" 0 0 true)
     (dark_capture 130) 100 Multi.initial_stats).2 = None.
Proof.
  destruct cooldown_permit as (_ & Hsimple & Hmulti & _).
  split.
  - eapply Hsimple.
    + by apply (bool_decide_unpack _).
    + apply lookup_insert_eq.
    + lra.
  - apply Hmulti.
    + rewrite dark_capture_critical. unfold severity_le. simpl. lia.
    + simpl. lra.
Defined.

(** C4 as stated fails in the camera thread: a qualifying frame exactly 30
    after the last alert is not let through. *)
Lemma cooldown_exactly_thirty_refused :
  ~ (forall cam_id cfg c last st,
       severity_le MEDIUM
         (Multi.severity_of
            (Multi.analyze_frame (Multi.cap_frame c)
                                 (Multi.cap_detections c) cam_id)) ->
       Multi.cap_time c - last >= 30 ->
       is_Some (Multi.process_frame cam_id cfg c last st).2).
Proof.
  intros H.
  specialize (H "cam1"%string (Multi.CameraConfig (inl 0%Z) "Gate" 0 0 true)
                (dark_capture 130) 100 Multi.initial_stats).
  destruct H as [x Hx].
  - rewrite dark_capture_critical. unfold severity_le. simpl. lia.
  - simpl. lra.
  - destruct (process_frame_cases "cam1"
                (Multi.CameraConfig (inl 0%Z) "Gate" 0 0 true)
                (dark_capture 130) 100 Multi.initial_stats) as [_ Hno].
    rewrite Hno in Hx; [done|].
    unfold Multi.alert_cooldown. simpl. intros [_ Hgt]. lra.
Qed.

End cooldown.

(** ** Iterations of the camera threads and of the sender *)
Section iterations.

(** What one iteration of a camera thread changes. *)
Lemma worker_iter_emits (cam_id : string) (cfg : Multi.camera_config)
  (c : Multi.capture) (w w' : Multi.worker) (sh sh' : Multi.shared) :
  Multi.worker_iter cam_id cfg c (w, sh) = Some (w', sh') ->
  exists st st',
    Multi.camera_stats sh !! cam_id = Some st /\
    Multi.camera_stats sh' = <[ cam_id := st' ]> (Multi.camera_stats sh) /\
    ((Multi.alert_queue sh' = Multi.alert_queue sh /\
      Multi.last_alert_time w' = Multi.last_alert_time w /\
      Multi.alerts_sent st' = Multi.alerts_sent st) \/
     (exists a,
        Multi.alert_queue sh' = Multi.alert_queue sh ++ [a] /\
        Multi.cap_time c - Multi.last_alert_time w > Multi.alert_cooldown /\
        Multi.last_alert_time w' = Multi.cap_time c /\
        Multi.alerts_sent st' = (Multi.alerts_sent st + 1)%nat)).
Proof.
  intros H. apply worker_iter_cases in H as (st & Hst & _ & _ & Hcases).
  cbv zeta in Hcases. exists st.
  destruct (decide (S (Multi.frame_count w) `mod` 30 = 0)%nat) as [Hm|Hm].
  - destruct Hcases as (Hlast & Hq & Hstats).
    match type of Hlast with
    | _ = (Multi.process_frame _ _ _ _ ?st1).1.1 =>
        destruct (process_frame_cases cam_id cfg c (Multi.last_alert_time w) st1)
          as [Hyes Hno];
        set (r := Multi.process_frame cam_id cfg c (Multi.last_alert_time w) st1)
          in *
    end.
    exists r.1.2. split; [done|]. split; [done|].
    match type of Hyes with
    | ?P -> _ => destruct (decide P) as [Hp|Hp]
    end.
    + right. rewrite (Hyes Hp) in Hq, Hlast |- *. simpl in *.
      eexists. repeat split; try done. tauto.
    + left. rewrite (Hno Hp) in Hq, Hlast |- *. simpl in *.
      rewrite app_nil_r in Hq. done.
  - destruct Hcases as (Hlast & Hq & Hstats).
    eexists. split; [done|]. split; [exact Hstats|]. left. done.
Qed.

(** The same at the level of the whole system. *)
Lemma camera_step_emitted (cams : gmap string Multi.camera_config)
  (s s' : Multi.system) (cam_id : string) (c : Multi.capture) :
  Multi.system_step cams s (Multi.CameraIter cam_id c) = Some s' ->
  (forall other, other <> cam_id ->
     last_of s' other = last_of s other /\
     alerts_sent_of s' other = alerts_sent_of s other) /\
  ((emitted cams s (Multi.CameraIter cam_id c) = [] /\
    last_of s' cam_id = last_of s cam_id /\
    alerts_sent_of s' cam_id = alerts_sent_of s cam_id) \/
   (exists a,
      emitted cams s (Multi.CameraIter cam_id c) = [(cam_id, Multi.cap_time c, a)] /\
      Multi.cap_time c - last_of s cam_id > Multi.alert_cooldown /\
      last_of s' cam_id = Multi.cap_time c /\
      alerts_sent_of s' cam_id = (alerts_sent_of s cam_id + 1)%nat)).
Proof.
  intros Hstep. unfold emitted. rewrite Hstep.
  unfold Multi.system_step in Hstep.
  destruct (cams !! cam_id) as [cfg|]; [|done].
  match type of Hstep with
  | context [Multi.worker_iter ?a ?b ?c ?d] =>
      destruct (Multi.worker_iter a b c d) as [[w' sh']|] eqn:Hiter; [|done]
  end.
  injection Hstep as <-.
  apply worker_iter_emits in Hiter as (st & st' & Hst & Hstats & Hcases).
  unfold last_of, alerts_sent_of. simpl. rewrite Hstats. split.
  - intros other Hne. by rewrite !lookup_insert_ne.
  - rewrite !lookup_insert_eq, Hst. simpl.
    destruct Hcases as [(Hq & Hl & Ha)|(a & Hq & Hgt & Hl & Ha)].
    + left. rewrite Hq, drop_all. done.
    + right. exists a. rewrite Hq, drop_app_length. done.
Qed.

(** A sender iteration takes the oldest alert off the queue, if there is
    one, and touches neither the statistics nor the camera threads. *)
Lemma sender_iter_queue (reply : post_result) (sh : Multi.shared) :
  Multi.alert_queue (Multi.sender_iter reply sh) = tail (Multi.alert_queue sh) /\
  Multi.camera_stats (Multi.sender_iter reply sh) = Multi.camera_stats sh.
Proof.
  unfold Multi.sender_iter, Multi.sender_except.
  destruct (Multi.alert_queue sh) as [|alert rest] eqn:Hq.
  - destruct (negb (contains "Empty" "")); simpl; by rewrite ?Hq.
  - destruct reply as [status|msg]; simpl; [done|].
    destruct (negb (contains "Empty" msg)); done.
Qed.

Lemma sender_step (cams : gmap string Multi.camera_config) (s s' : Multi.system)
  (reply : post_result) :
  Multi.system_step cams s (Multi.SenderIter reply) = Some s' ->
  (forall cam_id, last_of s' cam_id = last_of s cam_id /\
                  alerts_sent_of s' cam_id = alerts_sent_of s cam_id).
Proof.
  intros [= <-] cam_id. unfold last_of, alerts_sent_of. simpl.
  by rewrite (proj2 (sender_iter_queue reply (Multi.sys_shared s))).
Qed.



End iterations.

(** ** Sequences of [send_alert] calls *)
Section gated_sends.
Context {C S : Type}.
Variable camera : C -> camera_id.
Variable time : C -> R.
Variable send : gmap camera_id R -> C -> S.
Variable next : S -> gmap camera_id R.
Variable ok : C -> S -> Prop.

(** A call either goes through, in which case the cooldown test let it
    pass and its time is recorded for its camera, or leaves the dictionary
    as it was. *)
Hypothesis send_cases : forall last c,
  (ok c (send last c) /\
   not_blocked last (camera c) (time c) 30 /\
   next (send last c) = <[ camera c := time c ]> last) \/
  (~ ok c (send last c) /\ next (send last c) = last).



End gated_sends.

Section send_alert_runs.



End send_alert_runs.

(** ** Spacing of alerts *)
Section spacing.




End spacing.

(** ** Dispatch failures *)
Section dispatch.

(** The alerts-sent counter of a camera counts what its thread has put on
    the queue. *)
Lemma run_counters (cams : gmap string Multi.camera_config)
  (es : list Multi.event) (s s' : Multi.system) (cam_id : string) :
  Multi.system_run cams s es = Some s' ->
  alerts_sent_of s' cam_id =
    (alerts_sent_of s cam_id + enqueued_by cam_id (system_trace cams s es))%nat.
Proof.
  unfold enqueued_by.
  revert s. induction es as [|e es IH]; intros s Hrun; simpl in Hrun |- *.
  { injection Hrun as <-. simpl. lia. }
  destruct (Multi.system_step cams s e) as [s1|] eqn:Hstep; [|done].
  rewrite filter_app, length_app, (IH s1 Hrun).
  destruct e as [cam c|reply].
  - destruct (camera_step_emitted cams s s1 cam c Hstep) as [Hother Hcases].
    destruct (decide (cam_id = cam)) as [->|Hne].
    + destruct Hcases as [(He & _ & Ha)|(a & He & _ & _ & Ha)];
        rewrite He, Ha.
      * simpl. lia.
      * rewrite filter_cons_True by done. simpl. lia.
    + destruct (Hother cam_id Hne) as [_ Ha]. rewrite Ha.
      destruct Hcases as [(He & _)|(a & He & _)]; rewrite He.
      * simpl. lia.
      * rewrite filter_cons_False by (simpl; congruence). simpl. lia.
  - destruct (sender_step cams s s1 reply Hstep cam_id) as [_ Ha].
    rewrite Ha. simpl. lia.
Qed.

(** C6 (as amended): a sender iteration whose POST fails takes the alert
    off the queue and does not put it back, writes one line to the log
    (for an exception, unless its text contains "Empty"), always completes
    and changes neither the statistics nor the camera threads; the
    alerts-sent counter of a feed is raised by the camera thread when it
    enqueues an alert, so after any run it has grown by the number of
    alerts the feed enqueued, whether or not any of them was delivered. *)
Theorem failed_dispatch_dropped :
  (forall reply sh alert rest,
     reply <> Response 200 ->
     Multi.alert_queue sh = alert :: rest ->
     let sh' := Multi.sender_iter reply sh in
     Multi.alert_queue sh' = rest /\
     Multi.camera_stats sh' = Multi.camera_stats sh /\
     (forall status, reply = Response status ->
        Multi.sender_log sh' =
          Multi.sender_log sh ++ ["❌ Failed to send alert: " +:+ pretty status]) /\
     (forall msg, reply = PostRaised msg -> contains "Empty" msg = false ->
        Multi.sender_log sh' =
          Multi.sender_log sh ++ ["❌ Error in alert sender: " +:+ msg])) /\
  (forall cams s reply,
     exists s', Multi.system_step cams s (Multi.SenderIter reply) = Some s' /\
       Multi.sys_workers s' = Multi.sys_workers s /\
       Multi.camera_stats (Multi.sys_shared s') =
         Multi.camera_stats (Multi.sys_shared s) /\
       length (Multi.alert_queue (Multi.sys_shared s')) =
         Nat.pred (length (Multi.alert_queue (Multi.sys_shared s)))) /\
  (forall cams es s s' cam_id,
     Multi.system_run cams s es = Some s' ->
     alerts_sent_of s' cam_id =
       (alerts_sent_of s cam_id + enqueued_by cam_id (system_trace cams s es))%nat).
Proof.
  split; [|split].
  - intros reply sh alert rest Hfail Hq sh'. subst sh'.
    unfold Multi.sender_iter. rewrite Hq.
    destruct reply as [status|msg]; simpl.
    + repeat split; [|done].
      intros status' [= <-].
      rewrite bool_decide_eq_false_2; [done|]. by intros ->.
    + unfold Multi.sender_except.
      destruct (contains "Empty" msg) eqn:Hc; simpl; repeat split; try done.
      * intros msg' [= <-]. congruence.
      * intros msg' [= <-] _. done.
  - intros cams s reply. eexists. split; [reflexivity|]. simpl.
    destruct (sender_iter_queue reply (Multi.sys_shared s)) as [Hq Hs].
    rewrite Hq, Hs. repeat split.
    by destruct (Multi.alert_queue (Multi.sys_shared s)).
  - intros cams es s s' cam_id. apply run_counters.
Qed.

Lemma system_run_app (cams : gmap string Multi.camera_config)
  (es1 es2 : list Multi.event) (s : Multi.system) :
  Multi.system_run cams s (es1 ++ es2) =
  Multi.system_run cams s es1 ≫= fun s1 => Multi.system_run cams s1 es2.
Proof.
  revert s. induction es1 as [|e es1 IH]; intros s; simpl; [done|].
  destruct (Multi.system_step cams s e); [apply IH|done].
Qed.

Lemma system_run_cons (cams : gmap string Multi.camera_config)
  (e : Multi.event) (es : list Multi.event) (s : Multi.system) :
  Multi.system_run cams s (e :: es) =
  Multi.system_step cams s e ≫= fun s1 => Multi.system_run cams s1 es.
Proof. simpl. by destruct (Multi.system_step cams s e). Qed.

(** An analysed frame that passes both tests raises the counter. *)
Lemma analysed_frame_counts (cams : gmap string Multi.camera_config)
  (s : Multi.system) (cam_id : string) (cfg : Multi.camera_config)
  (c : Multi.capture) (st : Multi.stats) :
  cams !! cam_id = Some cfg ->
  Multi.camera_stats (Multi.sys_shared s) !! cam_id = Some st ->
  let w := default Multi.initial_worker (Multi.sys_workers s !! cam_id) in
  (S (Multi.frame_count w) `mod` 30 = 0)%nat ->
  severity_le MEDIUM
    (Multi.severity_of
       (Multi.analyze_frame (Multi.cap_frame c) (Multi.cap_detections c) cam_id)) ->
  Multi.cap_time c - Multi.last_alert_time w > Multi.alert_cooldown ->
  exists s', Multi.system_step cams s (Multi.CameraIter cam_id c) = Some s' /\
    alerts_sent_of s' cam_id = (Multi.alerts_sent st + 1)%nat.
Proof.
  intros Hcfg Hst w Hmod Hsev Hgt.
  unfold Multi.system_step, Multi.worker_iter. rewrite Hcfg, Hst. fold w.
  rewrite (bool_decide_eq_true_2 _ Hmod).
  match goal with
  | |- context [Multi.process_frame cam_id cfg c (Multi.last_alert_time w) ?st1] =>
      destruct (process_frame_cases cam_id cfg c (Multi.last_alert_time w) st1)
        as [Hyes _]
  end.
  rewrite Hyes by done. eexists. split; [reflexivity|].
  unfold alerts_sent_of. simpl. by rewrite lookup_insert_eq.
Qed.

(** C6 as stated fails: the counter of a feed grows although the only POST
    of the run is answered with status 500. *)
Lemma alerts_sent_grows_without_delivery :
  ~ (forall cams es s s' cam_id,
       Forall dispatch_fails es ->
       Multi.system_run cams s es = Some s' ->
       alerts_sent_of s' cam_id = alerts_sent_of s cam_id).
Proof.
  intros H.
  set (s0 := Multi.initial_system Multi.cameras).
  set (ev := Multi.CameraIter "cam1" (dark_capture 100)).
  destruct (Multi.system_run Multi.cameras s0 (replicate 29 ev))
    as [s29|] eqn:H29; [|by vm_compute in H29].
  assert (Hcfg : Multi.cameras !! "cam1"%string =
            Some (Multi.CameraConfig (inl 0%Z) "Park Street - North Gate"
                                     11.1085 77.3411 true)) by done.
  assert (Hw : Multi.sys_workers s29 !! "cam1"%string =
               Some (Multi.Worker 29 0)).
  { revert H29. vm_compute. by intros [= <-]. }
  assert (Hst : exists st, Multi.camera_stats (Multi.sys_shared s29)
                             !! "cam1"%string = Some st /\
                           Multi.alerts_sent st = 0%nat).
  { revert H29. vm_compute. intros [= <-]. by eexists. }
  destruct Hst as (st & Hst & Hsent).
  destruct (analysed_frame_counts Multi.cameras s29 "cam1" _
              (dark_capture 100) st Hcfg Hst) as (s30 & H30 & Hcount).
  { by rewrite Hw. }
  { rewrite dark_capture_critical. unfold severity_le. simpl. lia. }
  { rewrite Hw. unfold Multi.alert_cooldown. simpl. lra. }
  specialize (H Multi.cameras thirty_frames_then_failure s0
                {| Multi.sys_shared :=
                     Multi.sender_iter (Response 500) (Multi.sys_shared s30);
                   Multi.sys_workers := Multi.sys_workers s30 |}
                "cam1"%string).
  assert (Hgrown : alerts_sent_of
            {| Multi.sys_shared :=
                 Multi.sender_iter (Response 500) (Multi.sys_shared s30);
               Multi.sys_workers := Multi.sys_workers s30 |} "cam1" = 1%nat).
  { unfold alerts_sent_of in *. simpl.
    rewrite (proj2 (sender_iter_queue _ _)). rewrite Hcount, Hsent. done. }
  rewrite Hgrown in H.
  assert (Hzero : alerts_sent_of s0 "cam1" = 0%nat) by done.
  rewrite Hzero in H. discriminate H.
  - unfold thirty_frames_then_failure. apply Forall_app. split.
    + apply Forall_replicate. done.
    + apply Forall_singleton. simpl. discriminate.
  - unfold thirty_frames_then_failure.
    replace (replicate 30 (Multi.CameraIter "cam1" (dark_capture 100)))
      with (replicate 29 ev ++ [ev]) by reflexivity.
    rewrite <- (assoc_L (++)), system_run_app, H29.
    change (Multi.system_run Multi.cameras s29
              (ev :: [Multi.SenderIter (Response 500)]) = Some
              {| Multi.sys_shared :=
                   Multi.sender_iter (Response 500) (Multi.sys_shared s30);
                 Multi.sys_workers := Multi.sys_workers s30 |}).
    rewrite system_run_cons. subst ev. by rewrite H30.
Qed.

Lemma failed_dispatch_dropped_witness :
  Multi.alert_queue (Multi.sender_iter (Response 500) one_waiting) = [] /\
  Multi.camera_stats (Multi.sender_iter (Response 500) one_waiting) =
    Multi.camera_stats one_waiting.
Proof.
  destruct failed_dispatch_dropped as (Hdrop & _).
  destruct (Hdrop (Response 500) one_waiting _ [] ltac:(discriminate) eq_refl)
    as (Hq & Hs & _).
  split; [exact Hq | exact Hs].
Defined.

End dispatch.

(** * Further properties of the scripts *)

(** ** Which boxes count as persons *)
Section accepted_boxes.

Lemma enumerate_from_snd {A : Type} (k : nat) (l : list A) :
  map snd (enumerate_from k l) = l.
Proof.
  revert k. induction l as [|x l IH]; intros k; simpl; [done|].
  by rewrite IH.
Qed.

Lemma filter_snd_map {A B : Type} (f : B -> bool) (l : list (A * B)) :
  map snd (List.filter (fun x => f x.2) l) = List.filter f (map snd l).
Proof.
  induction l as [|[a b] l IH]; simpl; [done|].
  destruct (f b); simpl; by rewrite IH.
Qed.

Lemma enhanced_scan_fold (now : R) (l : list (nat * box))
  (ps : list Enhanced.person) (pt : gmap nat Enhanced.track) :
  (fold_left (Enhanced.scan_box now) l (ps, pt)).1 =
  ps ++ map person_of (List.filter (fun ib => accepted ib.2) l).
Proof.
  revert ps pt. induction l as [|[i b] l IH]; intros ps pt; simpl.
  { by rewrite app_nil_r. }
  unfold accepted at 1. simpl.
  destruct (bool_decide (cls b = 0%Z) && bool_decide (conf b > 0.5)); simpl.
  - rewrite IH. by rewrite <- (assoc_L (++)).
  - apply IH.
Qed.

Lemma enhanced_persons_filter (now : R) (detections : list (list box))
  (pt : gmap nat Enhanced.track) :
  (Enhanced.extract_persons now detections pt).1 =
  map person_of
      (List.filter (fun ib => accepted ib.2) (concat (map enumerate detections))).
Proof.
  unfold Enhanced.extract_persons.
  rewrite <- (app_nil_l (map person_of _)).
  generalize (@nil Enhanced.person). revert pt.
  induction detections as [|boxes rest IH]; intros pt ps; simpl.
  { by rewrite app_nil_r. }
  unfold Enhanced.scan_detection at 2.
  destruct (fold_left (Enhanced.scan_box now) (enumerate boxes) (ps, pt))
    as [ps1 pt1] eqn:E.
  rewrite IH.
  assert (Hps1 : ps1 = ps ++ map person_of
                    (List.filter (fun ib => accepted ib.2) (enumerate boxes))).
  { rewrite <- (enhanced_scan_fold now (enumerate boxes) ps pt). by rewrite E. }
  rewrite Hps1, List.filter_app, map_app. by rewrite (assoc_L (++)).
Qed.

Lemma multi_persons_filter (detections : list (list box)) :
  Multi.scan_detections detections =
  map (fun b => Multi.Person (xyxy b) (conf b))
      (List.filter accepted (concat detections)).
Proof.
  unfold Multi.scan_detections.
  rewrite <- (app_nil_l (map _ _)). generalize (@nil Multi.person).
  induction detections as [|boxes rest IH]; intros ps; simpl.
  { by rewrite app_nil_r. }
  rewrite IH, List.filter_app, map_app, (assoc_L (++)). f_equal.
  clear IH. revert ps. induction boxes as [|b boxes IHb]; intros ps; simpl.
  { by rewrite app_nil_r. }
  rewrite IHb. unfold Multi.scan_box, accepted.
  destruct (bool_decide (cls b = 0%Z) && bool_decide (conf b > 0.5)); simpl.
  - by rewrite <- (assoc_L (++)).
  - done.
Qed.

Lemma simple_persons_filter (detections : list (list box)) :
  Simple.b_persons (Simple.scan_detections detections) =
  map rect_of (List.filter accepted (concat detections)).
Proof.
  unfold Simple.scan_detections.
  change (map rect_of (List.filter accepted (concat detections)))
    with (Simple.b_persons (Simple.Buckets [] [] []) ++
          map rect_of (List.filter accepted (concat detections))).
  generalize (Simple.Buckets [] [] []).
  induction detections as [|boxes rest IH]; intros st; simpl.
  { by rewrite app_nil_r. }
  rewrite IH, List.filter_app, map_app, (assoc_L (++)). f_equal.
  clear IH. revert st. induction boxes as [|b boxes IHb]; intros st; simpl.
  { by rewrite app_nil_r. }
  rewrite IHb. unfold Simple.scan_box, accepted.
  destruct (bool_decide (cls b = 0%Z)); simpl; [|done].
  destruct (decide (conf b > 0.5)) as [Hc|Hc].
  - rewrite (bool_decide_eq_true_2 _ Hc). simpl.
    destruct (decide (_ > 2.2)); simpl; by rewrite <- (assoc_L (++)).
  - by rewrite (bool_decide_eq_false_2 _ Hc).
Qed.

(** X1: in all three scripts the persons of a frame are exactly the
    detector boxes of class 0 with confidence above 0.5, in detector order
    (with the index of the box inside its result as identity in
    [analyze_scene_advanced]), and the reported count is their number. *)
Theorem persons_are_accepted_boxes (now : R) (fr : frame)
  (detections : list (list box)) (pt : gmap nat Enhanced.track)
  (cam_id : string) :
  let kept := List.filter accepted (concat detections) in
  (Enhanced.extract_persons now detections pt).1 =
    map person_of
        (List.filter (fun ib => accepted ib.2)
                     (concat (map enumerate detections))) /\
  map Enhanced.p_bbox (Enhanced.extract_persons now detections pt).1 =
    map xyxy kept /\
  Multi.persons (Multi.analyze_frame fr detections cam_id) =
    map (fun b => Multi.Person (xyxy b) (conf b)) kept /\
  Multi.person_count (Multi.analyze_frame fr detections cam_id) = length kept /\
  Simple.b_persons (Simple.scan_detections detections) = map rect_of kept /\
  Simple.total (Simple.analyze_scene fr detections) = length kept.
Proof.
  intros kept. subst kept. split; [apply enhanced_persons_filter|].
  split; [|split; [|split; [|split]]].
  - rewrite enhanced_persons_filter, map_map. simpl.
    clear.
    induction detections as [|boxes rest IH]; simpl; [done|].
    rewrite !List.filter_app, !map_app, IH. f_equal.
    rewrite <- (map_map snd xyxy), filter_snd_map.
    unfold enumerate. by rewrite enumerate_from_snd.
  - rewrite <- multi_persons_filter. unfold Multi.analyze_frame.
    repeat match goal with
           | |- context [if ?c then _ else _] => destruct c
           end; done.
  - rewrite analyze_frame_person_count, multi_persons_filter.
    by rewrite length_map.
  - apply simple_persons_filter.
  - destruct (analyze_scene_counts fr detections) as (_ & _ & Ht).
    rewrite Ht, simple_persons_filter. by rewrite length_map.
Qed.

End accepted_boxes.

(** ** What the tracker keeps *)
Section tracker_invariants.
Import Enhanced.

Lemma deque_append_bound {A : Type} (n : nat) (d : list A) (x : A) :
  (length d <= n)%nat ->
  length (deque_append n d x) = Nat.min n (S (length d)).
Proof.
  intros Hle. unfold deque_append.
  destruct (decide (length d < n)%nat).
  - rewrite length_app. simpl. lia.
  - rewrite length_drop, length_app. simpl. lia.
Qed.

Lemma deque_append_last {A : Type} (n : nat) (d : list A) (x : A) :
  (0 < n)%nat -> (length d <= n)%nat -> last (deque_append n d x) = Some x.
Proof.
  intros Hn Hle. unfold deque_append.
  destruct (decide (length d < n)%nat); [apply last_snoc|].
  destruct d as [|y d]; [simpl in *; lia|].
  simpl. rewrite drop_0. apply last_snoc.
Qed.

Lemma deque_append_full {A : Type} (n : nat) (d : list A) (x : A) :
  (0 < n)%nat -> length d = n -> deque_append n d x = drop 1 d ++ [x].
Proof.
  intros Hn Hlen. unfold deque_append.
  destruct (decide (length d < n)%nat); [lia|].
  destruct d as [|y d]; [simpl in *; lia|]. done.
Qed.

Lemma update_track_bounded (now : R) (c : R * R) (t : track) :
  track_bounded t -> track_bounded (update_track now c t).
Proof.
  intros [Hpair Hcap]. unfold track_bounded, update_track. simpl.
  rewrite !deque_append_bound by lia. lia.
Qed.

(** X2: a track never holds more than thirty samples and always as many
    positions as timestamps; an update of a track with fewer than thirty
    samples adds one, an update of a full track drops the oldest sample,
    and in both cases the newest position and timestamp are the ones just
    seen. *)
Theorem tracks_stay_bounded (now : R) (detections : list (list box))
  (pt : gmap nat track) :
  (forall i, track_bounded (get_track pt i)) ->
  (forall i, track_bounded (get_track (extract_persons now detections pt).2 i)) /\
  (forall i c,
     let t := get_track pt i in
     let t' := update_track now c t in
     length (positions t') = Nat.min 30 (S (length (positions t))) /\
     last (positions t') = Some c /\
     last (timestamps t') = Some now /\
     (length (positions t) = 30%nat ->
        positions t' = drop 1 (positions t) ++ [c] /\
        timestamps t' = drop 1 (timestamps t) ++ [now])).
Proof.
  intros Hpt. split.
  - unfold extract_persons.
    apply (extract_persons_ind
             (fun st => forall i, track_bounded (get_track st.2 i))); [done|].
    intros [ps pt0] [j b] Hst i. unfold scan_box.
    destruct (bool_decide (cls b = 0%Z) && bool_decide (conf b > 0.5));
      [|apply Hst].
    simpl. destruct (decide (j = i)) as [->|Hne].
    + rewrite get_track_insert. apply update_track_bounded, Hst.
    + rewrite get_track_insert_ne by done. apply Hst.
  - intros i c t t'. destruct (Hpt i) as [Hpair Hcap]. fold t in Hpair, Hcap.
    subst t'. unfold update_track. cbn [positions timestamps].
    split; [by apply deque_append_bound|].
    split; [apply deque_append_last; lia|].
    split; [apply deque_append_last; lia|].
    intros Hfull. split; apply deque_append_full; lia.
Qed.

Lemma tracks_stay_bounded_witness :
  track_bounded (get_track (extract_persons 5 one_person ∅).2 0).
Proof.
  apply (tracks_stay_bounded 5 one_person ∅).
  intros i. unfold get_track. rewrite lookup_empty. simpl.
  unfold track_bounded. simpl. lia.
Defined.

(** X3: the first-seen time of an identity is written once - an update
    keeps a time that is set and sets a missing one to the current clock
    reading - and no identity is ever removed from the tracker. *)
Theorem first_seen_written_once (now : R) (detections : list (list box))
  (pt : gmap nat track) (i : nat) :
  let pt' := (extract_persons now detections pt).2 in
  (forall fs, first_seen (get_track pt i) = Some fs ->
     first_seen (get_track pt' i) = Some fs) /\
  (first_seen (get_track pt i) = None ->
     first_seen (get_track pt' i) = None \/
     first_seen (get_track pt' i) = Some now) /\
  (is_Some (pt !! i) -> is_Some (pt' !! i)).
Proof.
  simpl. unfold extract_persons.
  apply (extract_persons_ind
           (fun st =>
              (forall fs, first_seen (get_track pt i) = Some fs ->
                 first_seen (get_track st.2 i) = Some fs) /\
              (first_seen (get_track pt i) = None ->
                 first_seen (get_track st.2 i) = None \/
                 first_seen (get_track st.2 i) = Some now) /\
              (is_Some (pt !! i) -> is_Some (st.2 !! i)))).
  - simpl. repeat split; [done | by left | done].
  - intros [ps pt0] [j b] (Hkeep & Hset & Hdom). unfold scan_box.
    destruct (bool_decide (cls b = 0%Z) && bool_decide (conf b > 0.5));
      [|done].
    simpl in *. destruct (decide (j = i)) as [->|Hne].
    + rewrite get_track_insert, lookup_insert_eq. unfold update_track. simpl.
      split; [|split; [|by eexists]].
      * intros fs Hfs. by rewrite (Hkeep fs Hfs).
      * intros Hnone. right. destruct (Hset Hnone) as [-> | ->]; done.
    + rewrite get_track_insert_ne, lookup_insert_ne by done. done.
Qed.

Lemma scan_from_index (now : R) (boxes : list box) (k : nat)
  (ps : list person) (pt : gmap nat track) (i : nat) :
  get_track (fold_left (scan_box now) (enumerate_from k boxes) (ps, pt)).2 i =
  if decide (k <= i)%nat then
    match boxes !! (i - k)%nat with
    | Some b => if accepted b then update_track now (box_center b) (get_track pt i)
                else get_track pt i
    | None => get_track pt i
    end
  else get_track pt i.
Proof.
  revert k ps pt. induction boxes as [|b boxes IH]; intros k ps pt; simpl.
  { by destruct (decide (k <= i)%nat). }
  change (bool_decide (cls b = 0%Z) && bool_decide (conf b > 0.5))
    with (accepted b).
  change ((bx1 (xyxy b) + bx2 (xyxy b)) / 2, (by1 (xyxy b) + by2 (xyxy b)) / 2)
    with (box_center b).
  destruct (accepted b) eqn:Hacc.
  - rewrite IH. destruct (decide (S k <= i)%nat) as [Hlt|Hge].
    + rewrite decide_True by lia.
      replace (i - k)%nat with (S (i - S k)) by lia. simpl.
      by rewrite get_track_insert_ne by lia.
    + destruct (decide (k <= i)%nat) as [Hle|Hgt].
      * assert (i = k) as -> by lia. rewrite Nat.sub_diag. simpl.
        rewrite Hacc. apply get_track_insert.
      * by rewrite get_track_insert_ne by lia.
  - rewrite IH. destruct (decide (S k <= i)%nat) as [Hlt|Hge].
    + rewrite decide_True by lia.
      by replace (i - k)%nat with (S (i - S k)) by lia.
    + destruct (decide (k <= i)%nat) as [Hle|Hgt]; [|done].
      assert (i = k) as -> by lia. rewrite Nat.sub_diag. simpl.
      by rewrite Hacc.
Qed.

(** X4: for one detector result the identity of a person is the index of
    its box: the track of index [i] receives the centre of box [i] when
    that box is an accepted person and is left alone otherwise, wherever
    the box lies in the picture. In particular the track of index 0, which
    the single-person rules read, is untouched when box 0 is not an
    accepted person. *)
Theorem track_follows_box_index (now : R) (boxes : list box)
  (pt : gmap nat track) (i : nat) :
  let pt' := (extract_persons now [boxes] pt).2 in
  get_track pt' i =
    match boxes !! i with
    | Some b => if accepted b then update_track now (box_center b) (get_track pt i)
                else get_track pt i
    | None => get_track pt i
    end /\
  ((forall b, boxes !! 0%nat = Some b -> accepted b = false) ->
   get_track (extract_persons now [boxes] pt).2 0 = get_track pt 0).
Proof.
  assert (H : forall j, get_track (extract_persons now [boxes] pt).2 j =
            match boxes !! j with
            | Some b => if accepted b
                        then update_track now (box_center b) (get_track pt j)
                        else get_track pt j
            | None => get_track pt j
            end).
  { intros j. unfold extract_persons, scan_detection, enumerate. simpl.
    rewrite scan_from_index. rewrite decide_True by lia.
    by rewrite Nat.sub_0_r. }
  split; [apply H|].
  intros H0. rewrite H. destruct (boxes !! 0%nat) as [b|]; [|done].
  by rewrite (H0 b eq_refl).
Qed.

Lemma track_follows_box_index_witness :
  get_track (extract_persons 5 [[Box 7 0.9 (BBox 0 0 10 10);
                                 Box 0 0.9 (BBox 20 0 30 10)]] ∅).2 0
  = get_track ∅ 0.
Proof.
  apply (track_follows_box_index 5 [Box 7 0.9 (BBox 0 0 10 10);
                                    Box 0 0.9 (BBox 20 0 30 10)] ∅ 0).
  intros b [= <-]. reflexivity.
Defined.

End tracker_invariants.

(** ** When the assessment raises *)
Section assessment_raises.
Import Enhanced.

Lemma calculate_speed_none (ps : list (R * R)) (ts : list R) :
  calculate_speed ps ts = None <-> (2 <= length ps)%nat /\ ts = [].
Proof.
  unfold calculate_speed.
  destruct (decide (length ps < 2)%nat) as [Hshort|Hlong].
  { split; [done|]. intros [? _]. lia. }
  destruct ts as [|t ts].
  - simpl. split; [intros _; split; [lia|done] | done].
  - destruct (last (t :: ts)) as [tn|] eqn:Hl.
    + simpl. destruct (decide (tn - t > 0)); split; try done; by intros [_ ?].
    + by apply last_None in Hl.
Qed.

(** X5: [calculate_speed] raises exactly when it is given two or more
    positions and no timestamp, and [analyze_scene_advanced] raises exactly
    when one person is seen in light that is not dark and the track of
    index 0 is in that condition. As long as the clock does not run
    backwards and the stored tracks are paired and time ordered (as they
    are in a tracker that starts empty), the assessment returns a result
    and leaves the tracks paired and time ordered. *)
Theorem assessment_raises_only_unpaired (pt : gmap nat track) (fr : frame)
  (detections : list (list box)) (camera : camera_id) (now0 now : R) :
  let ps := (extract_persons now detections pt).1 in
  let pt1 := (extract_persons now detections pt).2 in
  (forall positions timestamps,
     calculate_speed positions timestamps = None <->
     (2 <= length positions)%nat /\ timestamps = []) /\
  (analyze_scene_advanced pt fr detections camera now = None <->
     length ps = 1%nat /\ ~ mean_gray fr < 80 /\
     (2 <= length (positions (get_track pt1 0)))%nat /\
     timestamps (get_track pt1 0) = []) /\
  (now0 <= now -> (forall i, track_ok now0 (get_track pt i)) ->
     exists a,
       analyze_scene_advanced pt fr detections camera now = Some (a, pt1) /\
       forall i, track_ok now (get_track pt1 i)).
Proof.
  intros ps pt1. split; [apply calculate_speed_none|]. split.
  - subst ps pt1. unfold analyze_scene_advanced.
    destruct (extract_persons now detections pt) as [ps pt1]. simpl.
    destruct (analyze_crowd_density ps fr) as [lvl d].
    rewrite <- calculate_speed_none.
    destruct (bool_decide (length ps = 1%nat)) eqn:Hn.
    + apply bool_decide_eq_true in Hn. rewrite Hn.
      destruct (bool_decide (mean_gray fr < 50)) eqn:H50; simpl.
      { apply bool_decide_eq_true in H50. split; [done|].
        intros (_ & Hb & _). lra. }
      destruct (bool_decide (mean_gray fr < 80)) eqn:H80; simpl.
      { apply bool_decide_eq_true in H80.
        destruct (detect_loitering _ _); (split; [done|]); by intros (_ & Hb & _). }
      apply bool_decide_eq_false in H80.
      destruct (calculate_speed _ _) as [v|].
      * destruct (detect_running v); (split; [done|]); by intros (_ & _ & ?).
      * done.
    + apply bool_decide_eq_false in Hn. simpl.
      repeat match goal with
             | |- context [if ?c then _ else _] => destruct c
             end; (split; [done|]); by intros [? _].
  - intros Hle Hok.
    destruct (analyze_scene_advanced_total pt fr detections camera now0 now
                Hle Hok) as (a & pt' & Ha & Hok').
    assert (pt' = pt1) as ->.
    { subst pt1. revert Ha. unfold analyze_scene_advanced.
      destruct (extract_persons now detections pt) as [ps0 pt0]. simpl.
      destruct (analyze_crowd_density ps0 fr) as [lvl d].
      repeat match goal with
             | |- context [if ?c then _ else _] => destruct c
             | |- context [match ?c with Some _ => _ | None => _ end] =>
                 destruct c
             end; by intros [= _ <-]. }
    by exists a.
Qed.

Lemma assessment_raises_only_unpaired_witness :
  exists a,
    analyze_scene_advanced ∅ (Frame 100 100 120) one_person (inl 0%Z) 5 =
      Some (a, (extract_persons 5 one_person ∅).2) /\
    forall i, track_ok 5 (get_track (extract_persons 5 one_person ∅).2 i).
Proof.
  apply (assessment_raises_only_unpaired ∅ (Frame 100 100 120) one_person
           (inl 0%Z) 0 5).
  - lra.
  - intros i. unfold get_track. rewrite lookup_empty. apply new_track_ok.
Defined.

End assessment_raises.

(** ** The decision tables as a whole *)
Section decision_tables.

(** X6: the table of [analyze_scene] in terms of the two bucket counts and
    the darkness test (brightness below 70): HIGH for one in the first
    bucket, none in the second, in the dark; MAY_RISK for one against two
    or more, or two against three or more; MEDIUM for one with at most one
    other in good light; LOW in every other case - among them one with
    exactly one other in the dark. *)
Theorem simple_severity_table (fr : frame) (detections : list (list box)) :
  let a := Simple.analyze_scene fr detections in
  let w := Simple.women_count a in
  let m := Simple.men_count a in
  let dark := mean_gray fr < 70 in
  (Simple.severity_of a = HIGH <-> w = 1%nat /\ m = 0%nat /\ dark) /\
  (Simple.severity_of a = MAY_RISK <->
     (w = 1%nat /\ (2 <= m)%nat) \/ (w = 2%nat /\ (3 <= m)%nat)) /\
  (Simple.severity_of a = MEDIUM <-> w = 1%nat /\ (m <= 1)%nat /\ ~ dark) /\
  (Simple.severity_of a = LOW <->
     w = 0%nat \/ (3 <= w)%nat \/ (w = 2%nat /\ (m <= 2)%nat) \/
     (w = 1%nat /\ m = 1%nat /\ dark)) /\
  Simple.is_dark a = bool_decide dark /\ Simple.brightness a = mean_gray fr.
Proof.
  intros a w m dark.
  destruct (analyze_scene_counts fr detections) as (Hm & Hw & _).
  fold a in Hm, Hw. subst w m. rewrite Hm, Hw. subst a dark.
  unfold Simple.analyze_scene.
  generalize (length (Simple.b_women (Simple.scan_detections detections))).
  generalize (length (Simple.b_men (Simple.scan_detections detections))).
  intros m w.
  destruct (decide (mean_gray fr < 70)) as [Hd|Hd].
  - rewrite (bool_decide_eq_true_2 _ Hd).
    repeat case_bool_decide; simpl;
      repeat split; intros; try discriminate; try done; try lia;
      intuition (first [lia | lra | discriminate]).
  - rewrite (bool_decide_eq_false_2 _ Hd).
    repeat case_bool_decide; simpl;
      repeat split; intros; try discriminate; try done; try lia;
      intuition (first [lia | lra | discriminate]).
Qed.

End decision_tables.

Section decision_tables_more.

(** X7: the table of [analyze_frame] in terms of the person count and the
    brightness: CRITICAL for one person below 50; HIGH for one person from
    50 to below 80 and for two persons below 80; MEDIUM for one person at
    80 or above; LOW for no person, for three or more, and for two persons
    at 80 or above. *)
Theorem multi_severity_table (fr : frame) (detections : list (list box))
  (cam_id : string) :
  let a := Multi.analyze_frame fr detections cam_id in
  let n := Multi.person_count a in
  let b := mean_gray fr in
  (Multi.severity_of a = CRITICAL <-> n = 1%nat /\ b < 50) /\
  (Multi.severity_of a = HIGH <->
     (n = 1%nat /\ 50 <= b /\ b < 80) \/ (n = 2%nat /\ b < 80)) /\
  (Multi.severity_of a = MEDIUM <-> n = 1%nat /\ 80 <= b) /\
  (Multi.severity_of a = LOW <->
     n = 0%nat \/ (3 <= n)%nat \/ (n = 2%nat /\ 80 <= b)) /\
  Multi.is_dark a = bool_decide (b < 80) /\ Multi.brightness a = b.
Proof.
  intros a n b. subst n a b. rewrite analyze_frame_person_count.
  unfold Multi.analyze_frame.
  generalize (length (Multi.scan_detections detections)). intros n.
  repeat case_bool_decide; simpl;
    repeat split; intros; try discriminate; try done; try lia;
    intuition (first [lia | lra | discriminate]).
Qed.

Lemma crowd_level_empty (ps : list Enhanced.person) (fr : frame) :
  (Enhanced.analyze_crowd_density ps fr).1 = Enhanced.crowd_empty <-> ps = [].
Proof.
  unfold Enhanced.analyze_crowd_density.
  destruct (decide (length ps = 0%nat)) as [Hlen|Hlen].
  - split; [|done]. intros _. by destruct ps.
  - split.
    + repeat case_decide; simpl; discriminate.
    + intros ->. done.
Qed.

(** X8: the table of [analyze_scene_advanced] as a whole. With [n] persons,
    brightness [b], the crowd level of the frame, the loitering and running
    signals of the track of index 0, and the risk-zone test: CRITICAL for
    one person below 50, one loitering person below 80, or two persons
    below 80 with one in a risk zone; HIGH for one person below 80 that is
    neither, two persons below 80 outside the zones, or one running person
    at 80 or above; MEDIUM for two persons or one person not running at 80
    or above, and for three or more persons in a very crowded frame; LOW
    for no person and for three or more persons otherwise. *)
Theorem enhanced_severity_table (pt pt' : gmap nat Enhanced.track)
  (fr : frame) (detections : list (list box)) (camera : camera_id) (now : R)
  (a : Enhanced.analysis) :
  Enhanced.analyze_scene_advanced pt fr detections camera now = Some (a, pt') ->
  let ps := (Enhanced.extract_persons now detections pt).1 in
  let t0 := Enhanced.get_track (Enhanced.extract_persons now detections pt).2 0 in
  let n := length ps in
  let b := mean_gray fr in
  let lvl := (Enhanced.analyze_crowd_density ps fr).1 in
  let loiters := Enhanced.detect_loitering t0 now = true in
  let runs := Enhanced.detect_running <$>
                Enhanced.calculate_speed (Enhanced.positions t0)
                                         (Enhanced.timestamps t0) = Some true in
  let zone := existsb (fun p => Enhanced.is_in_risk_zone (Enhanced.p_bbox p) camera)
                      ps = true in
  Enhanced.person_count a = n /\ Enhanced.brightness a = b /\
  Enhanced.crowd a = lvl /\ Enhanced.persons a = ps /\
  (Enhanced.severity_of a = CRITICAL <->
     (n = 1%nat /\ b < 50) \/ (n = 1%nat /\ b < 80 /\ loiters) \/
     (n = 2%nat /\ b < 80 /\ zone)) /\
  (Enhanced.severity_of a = HIGH <->
     (n = 1%nat /\ 50 <= b /\ b < 80 /\ ~ loiters) \/
     (n = 2%nat /\ b < 80 /\ ~ zone) \/
     (n = 1%nat /\ 80 <= b /\ runs)) /\
  (Enhanced.severity_of a = MEDIUM <->
     (n = 2%nat /\ 80 <= b) \/ (n = 1%nat /\ 80 <= b /\ ~ runs) \/
     ((3 <= n)%nat /\ lvl = Enhanced.very_crowded)) /\
  (Enhanced.severity_of a = LOW <->
     n = 0%nat \/ ((3 <= n)%nat /\ lvl <> Enhanced.very_crowded)).
Proof.
  intros Ha ps t0 n b lvl loiters runs zone.
  subst ps t0 n b lvl loiters runs zone. revert Ha.
  unfold Enhanced.analyze_scene_advanced.
  destruct (Enhanced.extract_persons now detections pt) as [ps pt1]. simpl.
  pose proof (crowd_level_empty ps fr) as Hempty.
  destruct (Enhanced.analyze_crowd_density ps fr) as [lvl d]. simpl in *.
  assert (Hn0 : length ps = 0%nat -> lvl <> Enhanced.very_crowded).
  { intros Hlen. destruct ps; [|done]. by rewrite (proj2 Hempty eq_refl). }
  clear Hempty. revert Hn0.
  generalize (existsb (fun p => Enhanced.is_in_risk_zone (Enhanced.p_bbox p) camera) ps).
  generalize (Enhanced.detect_loitering (Enhanced.get_track pt1 0) now).
  destruct (Enhanced.calculate_speed _ _) as [v|]; simpl.
  - generalize (Enhanced.detect_running v). generalize (length ps).
    clear. intros n run loit zn Hn0.
    destruct (decide (n = 1%nat)) as [->|Hn1];
      [|destruct (decide (n = 2%nat)) as [->|Hn2]].
    + destruct (decide (mean_gray fr < 50));
      destruct (decide (mean_gray fr < 80));
      destruct loit, run; settle; intros [= <- <-]; simpl;
        repeat split; intros; try discriminate; try done;
        intuition (first [lia | lra | discriminate]).
    + destruct (decide (mean_gray fr < 50));
      destruct (decide (mean_gray fr < 80));
      destruct zn; settle; intros [= <- <-]; simpl;
        repeat split; intros; try discriminate; try done;
        intuition (first [lia | lra | discriminate]).
    + rewrite !(bool_decide_eq_false_2 (n = 1%nat)) by done.
      rewrite !(bool_decide_eq_false_2 (n = 2%nat)) by done. simpl.
      assert (Hn : (3 <= n)%nat \/ (n = 0%nat /\ lvl <> Enhanced.very_crowded)).
      { destruct (decide (n = 0%nat)) as [Hz|Hz]; [right|left; lia].
        split; [done|]. by apply Hn0. }
      clear Hn0.
      repeat case_bool_decide; intros [= <- <-]; simpl;
        repeat split; intros; try discriminate; try done;
        intuition (first [lia | lra | discriminate | congruence]).
  - generalize (length ps). clear. intros n loit zn Hn0.
    destruct (decide (n = 1%nat)) as [->|Hn1];
      [|destruct (decide (n = 2%nat)) as [->|Hn2]].
    + destruct (decide (mean_gray fr < 50));
      destruct (decide (mean_gray fr < 80));
      destruct loit; settle; intros [= <- <-]; simpl;
        repeat split; intros; try discriminate; try done;
        intuition (first [lia | lra | discriminate]).
    + destruct (decide (mean_gray fr < 50));
      destruct (decide (mean_gray fr < 80));
      destruct zn; settle; intros [= <- <-]; simpl;
        repeat split; intros; try discriminate; try done;
        intuition (first [lia | lra | discriminate]).
    + rewrite !(bool_decide_eq_false_2 (n = 1%nat)) by done.
      rewrite !(bool_decide_eq_false_2 (n = 2%nat)) by done. simpl.
      assert (Hn : (3 <= n)%nat \/ (n = 0%nat /\ lvl <> Enhanced.very_crowded)).
      { destruct (decide (n = 0%nat)) as [Hz|Hz]; [right|left; lia].
        split; [done|]. by apply Hn0. }
      clear Hn0.
      repeat case_bool_decide; intros [= <- <-]; simpl;
        repeat split; intros; try discriminate; try done;
        intuition (first [lia | lra | discriminate | congruence]).
Qed.

Lemma enhanced_severity_table_witness :
  exists a pt',
    Enhanced.analyze_scene_advanced ∅ (Frame 100 100 120) one_person
      (inl 0%Z) 5 = Some (a, pt') /\
    Enhanced.person_count a =
      length (Enhanced.extract_persons 5 one_person ∅).1.
Proof.
  destruct (analyze_scene_advanced_total ∅ (Frame 100 100 120) one_person
              (inl 0%Z) 0 5) as (a & pt' & Ha & _).
  - lra.
  - intros i. unfold Enhanced.get_track. rewrite lookup_empty.
    apply new_track_ok.
  - exists a, pt'. split; [exact Ha|].
    destruct (enhanced_severity_table _ _ _ _ _ _ _ Ha) as (Hn & _).
    exact Hn.
Defined.

End decision_tables_more.

(** ** Frames without persons *)
Section empty_frames.

Lemma filter_nil_forall {A : Type} (f : A -> bool) (l : list A) :
  List.filter f l = [] -> Forall (fun x => f x = false) l.
Proof.
  induction l as [|x l IH]; simpl; [constructor|].
  destruct (f x) eqn:Hf; [done|]. intros H. constructor; [done|by apply IH].
Qed.

Lemma enhanced_scan_none (now : R) (l : list (nat * box))
  (st : list Enhanced.person * gmap nat Enhanced.track) :
  Forall (fun ib => accepted ib.2 = false) l ->
  fold_left (Enhanced.scan_box now) l st = st.
Proof.
  revert st. induction l as [|[i b] l IH]; intros st Hall; simpl; [done|].
  apply Forall_cons in Hall as [Hb Hall]. simpl in Hb.
  destruct st as [ps pt]. unfold Enhanced.scan_box at 2.
  unfold accepted in Hb. rewrite Hb. by apply IH.
Qed.

Lemma enumerate_from_forall {A : Type} (P : A -> Prop) (k : nat) (l : list A) :
  Forall P l -> Forall (fun ib => P ib.2) (enumerate_from k l).
Proof.
  revert k. induction l as [|x l IH]; intros k Hall; simpl; [constructor|].
  apply Forall_cons in Hall as [Hx Hall]. constructor; [done|by apply IH].
Qed.

Lemma enhanced_extract_none (now : R) (detections : list (list box))
  (pt : gmap nat Enhanced.track) :
  List.filter accepted (concat detections) = [] ->
  Enhanced.extract_persons now detections pt = ([], pt).
Proof.
  intros Hnone. apply filter_nil_forall in Hnone.
  unfold Enhanced.extract_persons. generalize (@nil Enhanced.person, pt).
  induction detections as [|boxes rest IH]; intros st; simpl; [done|].
  simpl in Hnone. apply Forall_app in Hnone as [Hb Hrest].
  unfold Enhanced.scan_detection at 2. unfold enumerate.
  rewrite enhanced_scan_none
    by (by apply (enumerate_from_forall (fun b => accepted b = false))).
  by apply IH.
Qed.

(** X9: a frame in which the detector reports no box of class 0 with
    confidence above 0.5 never leads to an alert, whatever the brightness,
    the cooldown state and the answer of the endpoint:
    [analyze_scene_advanced] returns LOW "Normal Activity" and leaves the
    tracker as it was, and [send_alert] of both single-camera scripts and
    the camera thread send nothing and record nothing. *)
Theorem empty_frame_is_silent (detections : list (list box)) :
  List.filter accepted (concat detections) = [] ->
  (forall pt fr camera now last now' iso reply,
     exists a,
       Enhanced.analyze_scene_advanced pt fr detections camera now = Some (a, pt) /\
       Enhanced.severity_of a = LOW /\
       Enhanced.alert_type a = "Normal Activity"%string /\
       Enhanced.person_count a = 0%nat /\
       Enhanced.send_alert last camera a now' iso reply =
         Enhanced.Sent false None last) /\
  (forall fr last camera now stamp iso reply,
     let s := Simple.send_alert last camera (Simple.analyze_scene fr detections)
                                now stamp iso reply in
     Simple.severity_of (Simple.analyze_scene fr detections) = LOW /\
     Simple.posted s = None /\ Simple.snippet s = None /\
     Simple.last_alert_time s = last) /\
  (forall cam_id cfg c last st,
     Multi.cap_detections c = detections ->
     Multi.process_frame cam_id cfg c last st = (last, st, None)).
Proof.
  intros Hnone. split; [|split].
  - intros pt fr camera now last now' iso reply.
    unfold Enhanced.analyze_scene_advanced.
    rewrite (enhanced_extract_none now detections pt Hnone). simpl.
    eexists. split; [reflexivity|]. simpl. repeat split.
    unfold Enhanced.send_alert. simpl.
    destruct (last !! camera) as [t|]; [|done].
    by destruct (bool_decide (now' - t < Enhanced.alert_cooldown)).
  - intros fr last camera now stamp iso reply s.
    assert (Hlow : Simple.severity_of (Simple.analyze_scene fr detections) = LOW).
    { destruct (scan_detections_inv detections) as (Hperm & _).
      pose proof (simple_persons_filter detections) as Hps.
      rewrite Hnone in Hps. simpl in Hps. rewrite Hps in Hperm.
      apply Permutation_nil_l in Hperm. symmetry in Hperm.
      apply app_eq_nil in Hperm as [Hw _].
      unfold Simple.analyze_scene. rewrite Hw. simpl.
      by destruct (bool_decide (0 >= 3)%nat). }
    split; [done|]. subst s. unfold Simple.send_alert. rewrite Hlow.
    rewrite (bool_decide_eq_false_2 (LOW ∈ [HIGH; MAY_RISK; MEDIUM])); cycle 1.
    { intros H. by apply (bool_decide_pack _) in H. }
    destruct (last !! camera) as [t|]; [|done].
    by destruct (bool_decide (now - t < Simple.alert_cooldown)).
  - intros cam_id cfg c last st Hc.
    apply process_frame_cases. intros [Hsev _].
    assert (Hlow : Multi.severity_of
              (Multi.analyze_frame (Multi.cap_frame c) (Multi.cap_detections c)
                                   cam_id) = LOW).
    { unfold Multi.analyze_frame. rewrite multi_persons_filter, Hc, Hnone.
      simpl. done. }
    rewrite Hlow in Hsev. unfold severity_le in Hsev. simpl in Hsev. lia.
Qed.

Lemma empty_frame_is_silent_witness :
  Multi.process_frame "cam1"
    (Multi.CameraConfig (inl 0%Z) "Park Street - North Gate" 11.1085 77.3411 true)
    (Multi.Capture (Frame 100 100 30) [[Box 2 0.95 (BBox 0 0 50 50)]] 100
                   "2025-01-01T00:00:00" "00:00:00")
    0 Multi.initial_stats
  = (0, Multi.initial_stats, None).
Proof.
  apply (empty_frame_is_silent [[Box 2 0.95 (BBox 0 0 50 50)]]); reflexivity.
Defined.

End empty_frames.

(** ** Risk zones *)
Section risk_zones.

Lemma location_of_zone_free (camera : camera_id) :
  camera = inl 1%Z \/ camera = inr "video"%string ->
  Enhanced.risk_zones (Enhanced.location_of camera) = [].
Proof. intros [-> | ->]; reflexivity. Qed.

Lemma location_of_default (camera : camera_id) :
  camera <> inl 1%Z -> camera <> inr "video"%string ->
  Enhanced.risk_zones (Enhanced.location_of camera) = [BBox 100 100 300 300].
Proof.
  intros H1 Hv. unfold Enhanced.location_of, Enhanced.camera_locations.
  destruct (decide (camera = inl 0%Z)) as [->|H0]; [reflexivity|].
  rewrite !lookup_insert_ne by done. by rewrite lookup_empty.
Qed.

(** X10: cameras 1 and "video" have no risk zone, so there the zone test
    is always false and two persons are never rated CRITICAL; for camera 0
    and for every camera that has no entry of its own (which falls back to
    the entry of camera 0) the test is true exactly when the centre of the
    box lies in the square from (100, 100) to (300, 300), borders
    included. *)
Theorem risk_zone_by_camera (b : bbox) (camera : camera_id) :
  let cx := (bx1 b + bx2 b) / 2 in
  let cy := (by1 b + by2 b) / 2 in
  (camera = inl 1%Z \/ camera = inr "video"%string ->
     Enhanced.is_in_risk_zone b camera = false /\
     forall pt pt' fr detections now a,
       Enhanced.analyze_scene_advanced pt fr detections camera now = Some (a, pt') ->
       Enhanced.person_count a = 2%nat ->
       Enhanced.severity_of a <> CRITICAL) /\
  (camera <> inl 1%Z -> camera <> inr "video"%string ->
     (Enhanced.is_in_risk_zone b camera = true <->
      100 <= cx /\ cx <= 300 /\ 100 <= cy /\ cy <= 300)).
Proof.
  intros cx cy. split.
  - intros Hcam. split.
    + unfold Enhanced.is_in_risk_zone.
      by rewrite (location_of_zone_free camera Hcam).
    + intros pt pt' fr detections now a. unfold Enhanced.analyze_scene_advanced.
      destruct (Enhanced.extract_persons now detections pt) as [ps pt1].
      destruct (Enhanced.analyze_crowd_density ps fr) as [lvl d].
      assert (Hz : existsb (fun p => Enhanced.is_in_risk_zone (Enhanced.p_bbox p) camera)
                           ps = false).
      { induction ps as [|p ps IH]; simpl; [done|]. rewrite IH.
        unfold Enhanced.is_in_risk_zone.
        by rewrite (location_of_zone_free camera Hcam). }
      rewrite Hz. simpl.
      repeat match goal with
             | |- context [if ?c then _ else _] => destruct c eqn:?
             | |- context [match ?c with Some _ => _ | None => _ end] =>
                 destruct c
             end; intros [= <- <-]; simpl; try done;
        intros Hn; rewrite Hn in *; done.
  - intros H1 Hv. unfold Enhanced.is_in_risk_zone.
    rewrite (location_of_default camera H1 Hv). simpl.
    fold cx cy. unfold Enhanced.in_zone. simpl.
    rewrite orb_false_r, !andb_true_iff, !bool_decide_eq_true. tauto.
Qed.

Lemma risk_zone_by_camera_witness :
  Enhanced.is_in_risk_zone (BBox 150 150 250 250) (inr "lobby"%string) = true /\
  Enhanced.is_in_risk_zone (BBox 150 150 250 250) (inl 1%Z) = false.
Proof.
  split.
  - apply (risk_zone_by_camera (BBox 150 150 250 250) (inr "lobby"%string));
      [done | done | simpl; lra].
  - apply (risk_zone_by_camera (BBox 150 150 250 250) (inl 1%Z)). by left.
Defined.

End risk_zones.

(** ** Snapshots of the simple monitor *)
Section snippets.

(** X11: [send_alert] of [camera_monitor.py] writes the snapshot before it
    POSTs: a snapshot file is written exactly when an alert record is
    built, also when the POST then fails, and the image field of the
    record is the path of that file behind a slash. *)
Theorem snippet_written_with_alert (last : gmap camera_id R)
  (camera : camera_id) (a : Simple.analysis) (now : R) (stamp iso : string)
  (reply : post_result) :
  let s := Simple.send_alert last camera a now stamp iso reply in
  (is_Some (Simple.snippet s) <-> is_Some (Simple.posted s)) /\
  (forall alert, Simple.posted s = Some alert ->
     Simple.snippet s = Some (Simple.snippet_path stamp) /\
     Simple.image alert = "/" +:+ Simple.snippet_path stamp) /\
  (Simple.returned s = Some false <-> ~ not_blocked last camera now 30).
Proof.
  unfold Simple.send_alert, not_blocked, Simple.alert_cooldown.
  destruct (last !! camera) as [t|];
    [destruct (bool_decide (now - t < 30)) eqn:Hb|];
    [apply bool_decide_eq_true in Hb | apply bool_decide_eq_false in Hb |].
  - simpl. split; [split; by intros [? [=]]|]. split; [done|].
    split; [|done]. intros _ [[=]|(t' & [= <-] & Hge)]. lra.
  - destruct (bool_decide (_ ∈ _));
      [destruct reply as [st|msg]; [destruct (bool_decide (st = 200%Z))|]|];
      simpl; (split; [split; intros [? H]; first [done | by eexists]|]);
      (split; [intros alert [= <-]; done || (split; reflexivity)|]);
      (split; [done|]); intros Hn; destruct Hn; right; exists t; (split; [done|lra]).
  - destruct (bool_decide (_ ∈ _));
      [destruct reply as [st|msg]; [destruct (bool_decide (st = 200%Z))|]|];
      simpl; (split; [split; intros [? H]; first [done | by eexists]|]);
      (split; [intros alert [= <-]; done || (split; reflexivity)|]);
      (split; [done|]); intros Hn; destruct Hn; by left.
Qed.

End snippets.

(** ** A camera thread from start to end *)
Section camera_thread.

Lemma div30_succ (a : nat) :
  (S a / 30 = a / 30 + (if decide (S a `mod` 30 = 0) then 1 else 0))%nat.
Proof.
  pose proof (Nat.div_mod_eq (S a) 30) as H1.
  pose proof (Nat.div_mod_eq a 30) as H2.
  pose proof (Nat.mod_upper_bound (S a) 30) as H3.
  pose proof (Nat.mod_upper_bound a 30) as H4.
  unfold Nat.modulo in *. 
  destruct (decide _); lia.
Qed.

(** What one iteration does to the statistics entry, the locals and the
    queue. *)
Lemma worker_iter_stats (cam_id : string) (cfg : Multi.camera_config)
  (c : Multi.capture) (w w' : Multi.worker) (sh sh' : Multi.shared) :
  Multi.worker_iter cam_id cfg c (w, sh) = Some (w', sh') ->
  exists st st' new,
    Multi.camera_stats sh !! cam_id = Some st /\
    Multi.camera_stats sh' = <[ cam_id := st' ]> (Multi.camera_stats sh) /\
    Multi.frames_processed st' = S (Multi.frame_count w) /\
    Multi.status_of st' = Multi.status_of st /\
    Multi.alerts_sent st' = (Multi.alerts_sent st + length new)%nat /\
    Multi.frame_count w' = S (Multi.frame_count w) /\
    Multi.sender_log sh' = Multi.sender_log sh /\
    Multi.alert_queue sh' = Multi.alert_queue sh ++ new /\
    (length new <= if decide (S (Multi.frame_count w) `mod` 30 = 0) then 1 else 0)%nat.
Proof.
  intros H. apply worker_iter_cases in H as (st & Hst & Hfc & Hlog & Hcases).
  cbv zeta in Hcases. exists st.
  destruct (decide (S (Multi.frame_count w) `mod` 30 = 0)%nat) as [Hm|Hm].
  - destruct Hcases as (Hlast & Hq & Hstats).
    match type of Hlast with
    | _ = (Multi.process_frame _ _ _ _ ?st1).1.1 =>
        destruct (process_frame_cases cam_id cfg c (Multi.last_alert_time w) st1)
          as [Hyes Hno];
        set (r := Multi.process_frame cam_id cfg c (Multi.last_alert_time w) st1)
          in *
    end.
    exists r.1.2, (option_list r.2).
    match type of Hyes with
    | ?P -> _ => destruct (decide P) as [Hp|Hp]
    end.
    + rewrite (Hyes Hp) in *. simpl. repeat split; try done; lia.
    + rewrite (Hno Hp) in *. simpl. repeat split; try done; lia.
  - destruct Hcases as (Hlast & Hq & Hstats).
    match type of Hstats with
    | _ = <[ _ := ?st1 ]> _ => exists st1, []
    end.
    rewrite app_nil_r. simpl. repeat split; try done; lia.
Qed.

Lemma worker_loop_spec (cam_id : string) (cfg : Multi.camera_config)
  (reads : list (option Multi.capture)) (w w' : Multi.worker)
  (sh sh' : Multi.shared) (st : Multi.stats) :
  Multi.camera_stats sh !! cam_id = Some st ->
  MultiWorker.worker_loop cam_id cfg reads (w, sh) = Some (w', sh') ->
  let n := frames_read reads in
  exists st' new,
    Multi.camera_stats sh' = <[ cam_id := st' ]> (Multi.camera_stats sh) /\
    Multi.frames_processed st' =
      (if decide (n = 0%nat) then Multi.frames_processed st
       else (Multi.frame_count w + n)%nat) /\
    Multi.status_of st' = Multi.status_of st /\
    Multi.alerts_sent st' = (Multi.alerts_sent st + length new)%nat /\
    Multi.frame_count w' = (Multi.frame_count w + n)%nat /\
    Multi.sender_log sh' = Multi.sender_log sh /\
    Multi.alert_queue sh' = Multi.alert_queue sh ++ new /\
    (length new + Multi.frame_count w / 30 <= (Multi.frame_count w + n) / 30)%nat.
Proof.
  revert w sh st.
  induction reads as [|[c|] reads IH]; intros w sh st Hst Hloop;
    cbn [frames_read MultiWorker.worker_loop] in *; cbv zeta.
  - injection Hloop as <- <-. exists st, []. rewrite app_nil_r, !Nat.add_0_r.
    rewrite insert_id by done. rewrite decide_True by done.
    cbn [length]. repeat split; lia.
  - destruct (Multi.worker_iter cam_id cfg c (w, sh)) as [[w1 sh1]|] eqn:Hiter;
      [|done].
    apply worker_iter_stats in Hiter
      as (st0 & st1 & new1 & Hst0 & Hs1 & Hfp1 & Hstat1 & Hal1 & Hfc1 & Hlog1
          & Hq1 & Hlen1).
    rewrite Hst in Hst0. injection Hst0 as <-.
    assert (Hst1 : Multi.camera_stats sh1 !! cam_id = Some st1).
    { rewrite Hs1. apply lookup_insert_eq. }
    destruct (IH w1 sh1 st1 Hst1 Hloop)
      as (st' & new & Hs' & Hfp' & Hstat' & Hal' & Hfc' & Hlog' & Hq' & Hlen').
    exists st', (new1 ++ new).
    rewrite Hs', Hs1, insert_insert_eq.
    rewrite Hq', Hq1, (assoc_L (++)), length_app.
    rewrite Hfc', Hfc1, Hlog', Hlog1, Hal', Hal1, Hstat', Hstat1.
    rewrite decide_False by done.
    repeat split; try done; try lia.
    + rewrite Hfp'. destruct (decide (frames_read reads = 0%nat)) as [Hz|Hz].
      * rewrite Hfp1, Hz. lia.
      * rewrite Hfc1. lia.
    + rewrite Hfc1 in Hlen'. pose proof (div30_succ (Multi.frame_count w)) as Hd.
      replace (Multi.frame_count w + S (frames_read reads))%nat
        with (S (Multi.frame_count w) + frames_read reads)%nat by lia.
      destruct (decide (S (Multi.frame_count w) `mod` 30 = 0)%nat); lia.
  - injection Hloop as <- <-. exists st, []. rewrite app_nil_r, !Nat.add_0_r.
    rewrite insert_id by done. rewrite decide_True by done.
    cbn [length]. repeat split; lia.
Qed.

Lemma worker_iter_total (cam_id : string) (cfg : Multi.camera_config)
  (c : Multi.capture) (w : Multi.worker) (sh : Multi.shared) :
  is_Some (Multi.camera_stats sh !! cam_id) ->
  is_Some (Multi.worker_iter cam_id cfg c (w, sh)).
Proof.
  intros [st Hst]. unfold Multi.worker_iter. rewrite Hst.
  destruct (bool_decide _); [|by eexists].
  destruct (Multi.process_frame _ _ _ _ _) as [[? ?] ?]. by eexists.
Qed.

Lemma worker_loop_total (cam_id : string) (cfg : Multi.camera_config)
  (reads : list (option Multi.capture)) (w : Multi.worker) (sh : Multi.shared) :
  is_Some (Multi.camera_stats sh !! cam_id) ->
  is_Some (MultiWorker.worker_loop cam_id cfg reads (w, sh)).
Proof.
  revert w sh. induction reads as [|[c|] reads IH]; intros w sh Hk;
    cbn [MultiWorker.worker_loop]; try by eexists.
  destruct (worker_iter_total cam_id cfg c w sh Hk) as [[w1 sh1] Hi].
  rewrite Hi. apply IH. apply worker_iter_stats in Hi
    as (? & st1 & ? & _ & Hs1 & _). rewrite Hs1, lookup_insert_eq. by eexists.
Qed.

(** X12: a camera thread run from start to end. Without a statistics entry
    for the camera it ends in a [KeyError]. With one, a source that cannot
    be opened only sets the status to error; otherwise the thread ends with
    status stopped, [frames_processed] is the number of frames read (and
    keeps its old value when no frame was read), the queue has only grown
    at its end, [alerts_sent] has grown by the number of alerts added, and
    that number is at most one per thirty frames read. Entries of other
    cameras and the sender's log stay as they are. *)
Theorem camera_worker_run (cam_id : string) (cfg : Multi.camera_config)
  (opened : bool) (reads : list (option Multi.capture)) (sh : Multi.shared) :
  let n := frames_read reads in
  (Multi.camera_stats sh !! cam_id = None ->
     MultiWorker.camera_worker cam_id cfg opened reads sh = None) /\
  (forall st, Multi.camera_stats sh !! cam_id = Some st ->
     exists sh' st' new,
       MultiWorker.camera_worker cam_id cfg opened reads sh = Some sh' /\
       Multi.camera_stats sh' = <[ cam_id := st' ]> (Multi.camera_stats sh) /\
       Multi.alert_queue sh' = Multi.alert_queue sh ++ new /\
       Multi.sender_log sh' = Multi.sender_log sh /\
       Multi.alerts_sent st' = (Multi.alerts_sent st + length new)%nat /\
       (opened = false ->
          new = [] /\ Multi.status_of st' = Multi.error /\
          Multi.frames_processed st' = Multi.frames_processed st) /\
       (opened = true ->
          Multi.status_of st' = Multi.stopped /\
          Multi.frames_processed st' =
            (if decide (n = 0%nat) then Multi.frames_processed st else n) /\
          (length new <= n / 30)%nat)).
Proof.
  intros n. unfold MultiWorker.camera_worker, MultiWorker.set_status. split.
  - intros Hnone. rewrite Hnone. by destruct opened.
  - intros st Hst. rewrite Hst. destruct opened; simpl.
    + match goal with
      | |- context [MultiWorker.worker_loop cam_id cfg reads (?w0, ?sh1)] =>
          destruct (MultiWorker.worker_loop cam_id cfg reads (w0, sh1))
            as [[w' sh2]|] eqn:Hloop;
          [apply (worker_loop_spec cam_id cfg reads w0 w' sh1 sh2 _
                    (lookup_insert_eq _ _ _)) in Hloop
             as (st' & new & Hs' & Hfp' & Hstat' & Hal' & Hfc' & Hlog' & Hq' & Hlen')|]
      end.
      * simpl in *. rewrite Hs', lookup_insert_eq, !insert_insert_eq.
        eexists _, _, new. split; [reflexivity|]. simpl.
        repeat split; try done.
        subst n. lia.
      * destruct (worker_loop_total cam_id cfg reads Multi.initial_worker
                    (Multi.Shared (Multi.alert_queue sh)
                       (<[ cam_id := Multi.Stats (Multi.frames_processed st)
                                       (Multi.alerts_sent st)
                                       (Multi.last_alert st) Multi.running ]>
                          (Multi.camera_stats sh))
                       (Multi.sender_log sh))) as [? Hsome].
        { simpl. rewrite lookup_insert_eq. by eexists. }
        rewrite Hsome in Hloop. done.
    + eexists _, _, []. split; [reflexivity|]. simpl. rewrite app_nil_r.
      repeat split; try done; lia.
Qed.

Lemma camera_worker_run_witness :
  exists sh' st' new,
    MultiWorker.camera_worker "cam1"
      (Multi.CameraConfig (inl 0%Z) "Park Street - North Gate" 11.1085 77.3411 true)
      true [Some (dark_capture 100); Some (dark_capture 101); None]
      (Multi.Shared [] (Multi.initial_camera_stats Multi.cameras) [])
      = Some sh' /\
    Multi.status_of st' = Multi.stopped /\
    Multi.frames_processed st' = 2%nat /\
    Multi.camera_stats sh' =
      <[ "cam1"%string := st' ]> (Multi.initial_camera_stats Multi.cameras) /\
    Multi.alert_queue sh' = new /\ (length new <= 0)%nat.
Proof.
  destruct (camera_worker_run "cam1"
              (Multi.CameraConfig (inl 0%Z) "Park Street - North Gate"
                                  11.1085 77.3411 true)
              true [Some (dark_capture 100); Some (dark_capture 101); None]
              (Multi.Shared [] (Multi.initial_camera_stats Multi.cameras) []))
    as [_ Hrun].
  destruct (Hrun Multi.initial_stats eq_refl)
    as (sh' & st' & new & Hw & Hs & Hq & _ & _ & _ & Hopen).
  destruct (Hopen eq_refl) as (Hstat & Hfp & Hlen).
  exists sh', st', new. repeat split; done.
Defined.

End camera_thread.

(** ** The sender thread and the queue *)
Section sender_thread.

Lemma sender_iter_idle (reply : post_result) (sh : Multi.shared) :
  Multi.alert_queue sh = [] ->
  Multi.sender_iter reply sh =
    Multi.Shared [] (Multi.camera_stats sh)
      (Multi.sender_log sh ++ ["❌ Error in alert sender: "]).
Proof.
  intros Hq. unfold Multi.sender_iter. rewrite Hq.
  unfold Multi.sender_except. rewrite Hq. reflexivity.
Qed.

Lemma sender_iter_delivers (alert : Multi.alert_data)
  (rest : list Multi.alert_data) (sh : Multi.shared) :
  Multi.alert_queue sh = alert :: rest ->
  Multi.sender_iter (Response 200) sh =
    Multi.Shared rest (Multi.camera_stats sh)
      (Multi.sender_log sh ++ [delivery_line alert]).
Proof.
  intros Hq. unfold Multi.sender_iter. rewrite Hq. reflexivity.
Qed.

(** X13: the sender thread takes alerts from the front of the queue, one
    per iteration whatever the POST returns, and never touches the camera
    statistics. While the queue holds alerts and every POST is answered
    with 200 its log grows by one delivery line per alert, in queue order. On an empty queue every poll
    adds an error line with an empty message, since the text of
    [queue.Empty] does not contain the word the handler looks for. *)
Theorem sender_takes_in_order (replies : list post_result) (sh : Multi.shared) :
  let sh' := MultiWorker.sender_run replies sh in
  let n := length replies in
  Multi.alert_queue sh' = drop n (Multi.alert_queue sh) /\
  Multi.camera_stats sh' = Multi.camera_stats sh /\
  (Forall (fun r => r = Response 200) replies ->
   (n <= length (Multi.alert_queue sh))%nat ->
   Multi.sender_log sh' =
     Multi.sender_log sh ++ map delivery_line (take n (Multi.alert_queue sh))) /\
  (Multi.alert_queue sh = [] ->
   Multi.sender_log sh' =
     Multi.sender_log sh ++ replicate n "❌ Error in alert sender: ").
Proof.
  unfold MultiWorker.sender_run. revert sh.
  induction replies as [|reply replies IH]; intros sh; cbn [fold_left length].
  - rewrite drop_0, take_0. cbn [map replicate]. rewrite app_nil_r. done.
  - destruct (IH (Multi.sender_iter reply sh)) as (Hq & Hs & Hok & Hidle).
    destruct (sender_iter_queue reply sh) as [Hq1 Hs1].
    rewrite Hq, Hs, Hq1, Hs1. repeat split.
    + destruct (Multi.alert_queue sh); cbn [tail]; [by rewrite !drop_nil|done].
    + intros Hall Hlen. apply Forall_cons in Hall as [-> Hall].
      destruct (Multi.alert_queue sh) as [|alert rest] eqn:Hsh;
        cbn [length] in Hlen; [lia|].
      rewrite Hok; [|done|rewrite Hq1; cbn [tail]; lia].
      rewrite (sender_iter_delivers alert rest sh Hsh). cbn [Multi.sender_log
        Multi.alert_queue take map]. by rewrite <- (assoc_L (++)).
    + intros Hempty. rewrite Hidle by (by rewrite Hq1, Hempty).
      rewrite (sender_iter_idle reply sh Hempty). cbn [Multi.sender_log replicate].
      by rewrite <- (assoc_L (++)).
Qed.

Lemma camera_step_queue (cams : gmap string Multi.camera_config)
  (s s' : Multi.system) (cam_id : string) (c : Multi.capture) :
  Multi.system_step cams s (Multi.CameraIter cam_id c) = Some s' ->
  Multi.alert_queue (Multi.sys_shared s') =
    Multi.alert_queue (Multi.sys_shared s) ++
    map snd (emitted cams s (Multi.CameraIter cam_id c)).
Proof.
  intros Hstep. unfold emitted. rewrite Hstep.
  unfold Multi.system_step in Hstep.
  destruct (cams !! cam_id) as [cfg|]; [|done].
  match type of Hstep with
  | context [Multi.worker_iter ?a ?b ?c ?d] =>
      destruct (Multi.worker_iter a b c d) as [[w' sh']|] eqn:Hiter; [|done]
  end.
  injection Hstep as <-.
  apply worker_iter_emits in Hiter as (st & st' & _ & _ & Hcases).
  cbn [Multi.sys_shared].
  destruct Hcases as [(Hq & _)|(a & Hq & _)]; rewrite Hq.
  - by rewrite drop_all, app_nil_r.
  - by rewrite drop_app_length.
Qed.

(** X14: nothing is lost or reordered between the camera threads and the
    sender. After any interleaving of iterations, the queue is what was
    queued at the start followed by the alerts the camera threads added, in
    the order they were added, less the first [k] of them, where [k] is at
    most the number of sender iterations. *)
Theorem queue_holds_undispatched (cams : gmap string Multi.camera_config)
  (es : list Multi.event) (s s' : Multi.system) :
  Multi.system_run cams s es = Some s' ->
  exists k,
    (k <= sender_iterations es)%nat /\
    Multi.alert_queue (Multi.sys_shared s') =
      drop k (Multi.alert_queue (Multi.sys_shared s) ++
              map snd (system_trace cams s es)).
Proof.
  revert s. induction es as [|e es IH]; intros s Hrun;
    cbn [Multi.system_run system_trace sender_iterations] in *.
  - injection Hrun as <-. exists 0%nat. cbn [map]. by rewrite app_nil_r, drop_0.
  - destruct (Multi.system_step cams s e) as [s1|] eqn:Hstep; [|done].
    destruct (IH s1 Hrun) as (k & Hk & Hq). rewrite Hq.
    destruct e as [cam_id c|reply].
    + exists k. split; [done|].
      rewrite (camera_step_queue _ _ _ _ _ Hstep), map_app.
      by rewrite (assoc_L (++)).
    + injection Hstep as <-. cbn [emitted app Multi.sys_shared].
      destruct (sender_iter_queue reply (Multi.sys_shared s)) as [-> _].
      destruct (Multi.alert_queue (Multi.sys_shared s)) as [|a q].
      * exists k. split; [lia|done].
      * exists (S k). split; [lia|done].
Qed.

Lemma analysed_frame_emits (cams : gmap string Multi.camera_config)
  (s : Multi.system) (cam_id : string) (cfg : Multi.camera_config)
  (c : Multi.capture) (st : Multi.stats) :
  cams !! cam_id = Some cfg ->
  Multi.camera_stats (Multi.sys_shared s) !! cam_id = Some st ->
  let w := default Multi.initial_worker (Multi.sys_workers s !! cam_id) in
  (S (Multi.frame_count w) `mod` 30 = 0)%nat ->
  severity_le MEDIUM
    (Multi.severity_of
       (Multi.analyze_frame (Multi.cap_frame c) (Multi.cap_detections c) cam_id)) ->
  Multi.cap_time c - Multi.last_alert_time w > Multi.alert_cooldown ->
  emitted cams s (Multi.CameraIter cam_id c) =
    [(cam_id, Multi.cap_time c,
      Multi.build_alert cam_id cfg
        (Multi.analyze_frame (Multi.cap_frame c) (Multi.cap_detections c) cam_id)
        (Multi.cap_iso c))].
Proof.
  intros Hcfg Hst w Hmod Hsev Hgt.
  unfold emitted, Multi.system_step, Multi.worker_iter. rewrite Hcfg, Hst. fold w.
  rewrite (bool_decide_eq_true_2 _ Hmod).
  match goal with
  | |- context [Multi.process_frame cam_id cfg c (Multi.last_alert_time w) ?st1] =>
      destruct (process_frame_cases cam_id cfg c (Multi.last_alert_time w) st1)
        as [Hyes _]
  end.
  rewrite Hyes by done. cbn [Multi.sys_shared Multi.alert_queue option_list].
  by rewrite drop_app_length.
Qed.

Lemma queue_holds_undispatched_witness :
  exists s' k alert,
    Multi.system_run Multi.cameras
      (Multi.System one_waiting (<[ "cam1"%string := Multi.Worker 29 0 ]> ∅))
      [Multi.CameraIter "cam1" (dark_capture 100);
       Multi.SenderIter (Response 200)] = Some s' /\
    system_trace Multi.cameras
      (Multi.System one_waiting (<[ "cam1"%string := Multi.Worker 29 0 ]> ∅))
      [Multi.CameraIter "cam1" (dark_capture 100);
       Multi.SenderIter (Response 200)] = [("cam1"%string, 100, alert)] /\
    (k <= 1)%nat /\
    Multi.alert_queue (Multi.sys_shared s') =
      drop k (Multi.alert_queue one_waiting ++ [alert]) /\
    Multi.alert_queue (Multi.sys_shared s') = [alert].
Proof.
  set (s0 := Multi.System one_waiting (<[ "cam1"%string := Multi.Worker 29 0 ]> ∅)).
  set (cfg := Multi.CameraConfig (inl 0%Z) "Park Street - North Gate"
                                 11.1085 77.3411 true).
  set (alert := Multi.build_alert "cam1" cfg
                  (Multi.analyze_frame (Multi.cap_frame (dark_capture 100))
                     (Multi.cap_detections (dark_capture 100)) "cam1")
                  (Multi.cap_iso (dark_capture 100))).
  assert (Hw : Multi.sys_workers s0 !! "cam1"%string = Some (Multi.Worker 29 0))
    by reflexivity.
  assert (Hcfg : Multi.cameras !! "cam1"%string = Some cfg) by reflexivity.
  assert (Hst : Multi.camera_stats (Multi.sys_shared s0) !! "cam1"%string =
                Some Multi.initial_stats) by reflexivity.
  assert (Hsev : severity_le MEDIUM
            (Multi.severity_of
               (Multi.analyze_frame (Multi.cap_frame (dark_capture 100))
                  (Multi.cap_detections (dark_capture 100)) "cam1"))).
  { rewrite dark_capture_critical. unfold severity_le. simpl. lia. }
  assert (Hgt : Multi.cap_time (dark_capture 100) -
                Multi.last_alert_time
                  (default Multi.initial_worker
                     (Multi.sys_workers s0 !! "cam1"%string)) >
                Multi.alert_cooldown).
  { rewrite Hw. unfold Multi.alert_cooldown. simpl. lra. }
  assert (Hmod : (S (Multi.frame_count
                       (default Multi.initial_worker
                          (Multi.sys_workers s0 !! "cam1"%string)))
                  `mod` 30 = 0)%nat) by (by rewrite Hw).
  destruct (analysed_frame_counts Multi.cameras s0 "cam1" cfg
              (dark_capture 100) Multi.initial_stats Hcfg Hst Hmod Hsev Hgt)
    as (s1 & Hstep & _).
  pose proof (analysed_frame_emits Multi.cameras s0 "cam1" cfg
                (dark_capture 100) Multi.initial_stats Hcfg Hst Hmod Hsev Hgt)
    as Hem.
  fold alert in Hem.
  set (s2 := Multi.System (Multi.sender_iter (Response 200) (Multi.sys_shared s1))
                          (Multi.sys_workers s1)).
  assert (Hrun : Multi.system_run Multi.cameras s0
                   [Multi.CameraIter "cam1" (dark_capture 100);
                    Multi.SenderIter (Response 200)] = Some s2).
  { cbn [Multi.system_run]. rewrite Hstep. reflexivity. }
  assert (Htrace : system_trace Multi.cameras s0
                     [Multi.CameraIter "cam1" (dark_capture 100);
                      Multi.SenderIter (Response 200)]
                   = [("cam1"%string, 100, alert)]).
  { cbn [system_trace]. rewrite Hstep, Hem. reflexivity. }
  destruct (queue_holds_undispatched Multi.cameras _ s0 s2 Hrun)
    as (k & Hk & Hq).
  rewrite Htrace in Hq. cbn [map snd] in Hq.
  exists s2, k, alert.
  split; [exact Hrun|]. split; [exact Htrace|]. split; [exact Hk|].
  split; [exact Hq|].
  subst s2. cbn [Multi.sys_shared].
  rewrite (proj1 (sender_iter_queue _ _)).
  rewrite (camera_step_queue _ _ _ _ _ Hstep), Hem. reflexivity.
Defined.

End sender_thread.

(** ** The forced alert of the enhanced monitor *)
Section forced_alert.

(** X15: the key that forces an alert analyses the frame once more, keeps
    the tracker that analysis leaves, and sets the cooldown entry of the
    source to 0 before it sends. With a clock reading of at least 30 the alert is
    therefore POSTed whenever the severity is CRITICAL, HIGH or MEDIUM,
    whatever was recorded before; a LOW scene is still not sent. Afterwards
    the entry of the source is the time of the call if the alert was
    delivered and 0 if not, so that the next alert of this source is not
    held back; entries of other sources are untouched. *)
Theorem forced_alert_resets_cooldown (m m' : EnhancedMonitor.monitor)
  (source : camera_id) (fr : frame) (detections : list (list box))
  (now_analysis now_send : R) (iso : string) (reply : post_result)
  (s : Enhanced.sent) :
  30 <= now_send ->
  EnhancedMonitor.force_alert m source fr detections now_analysis now_send
                              iso reply = Some (s, m') ->
  exists a,
    Enhanced.analyze_scene_advanced (EnhancedMonitor.person_tracks m) fr
      detections source now_analysis = Some (a, EnhancedMonitor.person_tracks m') /\
    (is_Some (Enhanced.posted s) <->
       Enhanced.severity_of a ∈ [CRITICAL; HIGH; MEDIUM]) /\
    (Enhanced.returned s = true <->
       Enhanced.severity_of a ∈ [CRITICAL; HIGH; MEDIUM] /\
       reply = Response 200) /\
    EnhancedMonitor.last_alert_time m' !! source =
      Some (if Enhanced.returned s then now_send else 0) /\
    (Enhanced.returned s = false ->
       forall t, 30 <= t ->
         not_blocked (EnhancedMonitor.last_alert_time m') source t
                     Enhanced.alert_cooldown) /\
    (forall other, other <> source ->
       EnhancedMonitor.last_alert_time m' !! other =
       EnhancedMonitor.last_alert_time m !! other).
Proof.
  intros Hnow. unfold EnhancedMonitor.force_alert.
  destruct (Enhanced.analyze_scene_advanced _ _ _ _ _) as [[a pt]|]; [|done].
  cbv zeta. intros [= <- <-]. exists a. cbn [EnhancedMonitor.person_tracks
    EnhancedMonitor.last_alert_time]. split; [done|].
  set (last := <[ source := 0 ]> (EnhancedMonitor.last_alert_time m)).
  assert (Hopen : not_blocked last source now_send Enhanced.alert_cooldown).
  { right. exists 0. split; [apply lookup_insert_eq|].
    unfold Enhanced.alert_cooldown. lra. }
  pose proof (enhanced_posted last source a now_send iso reply) as Hposted.
  destruct (enhanced_recorded last source a now_send iso reply) as [Hyes Hno].
  cbv zeta in Hyes, Hno.
  set (s := Enhanced.send_alert last source a now_send iso reply) in *.
  assert (Hp : is_Some (Enhanced.posted s) <->
               Enhanced.severity_of a ∈ [CRITICAL; HIGH; MEDIUM]) by tauto.
  split; [exact Hp|].
  destruct (decide (delivered (Enhanced.posted s) reply)) as [Hd|Hd].
  - destruct (Hyes Hd) as [-> ->]. destruct Hd as [Hsome ->].
    repeat split; try tauto; try done.
    + subst last. by rewrite lookup_insert_eq.
    + intros other Hne. subst last. by rewrite !lookup_insert_ne.
  - destruct (Hno Hd) as [-> ->]. unfold delivered in Hd.
    repeat split; try done; try tauto.
    + subst last. by rewrite lookup_insert_eq.
    + intros t Ht. right. exists 0. split; [subst last; apply lookup_insert_eq|].
      unfold Enhanced.alert_cooldown. lra.
    + intros other Hne. subst last. by rewrite !lookup_insert_ne.
Qed.

Lemma forced_alert_resets_cooldown_witness :
  exists s m',
    EnhancedMonitor.force_alert
      (EnhancedMonitor.Monitor ∅ (<[ inl 0%Z := 1000 ]> ∅)) (inl 0%Z)
      (Frame 100 100 120) one_person 1001 1001 "2025-01-01T00:00:00"
      (Response 500) = Some (s, m') /\
    EnhancedMonitor.last_alert_time m' !! inl 0%Z =
      Some (if Enhanced.returned s then 1001 else 0).
Proof.
  destruct (EnhancedMonitor.force_alert
              (EnhancedMonitor.Monitor ∅ (<[ inl 0%Z := 1000 ]> ∅)) (inl 0%Z)
              (Frame 100 100 120) one_person 1001 1001 "2025-01-01T00:00:00"
              (Response 500)) as [[s m']|] eqn:Hforce.
  - exists s, m'. split; [done|].
    assert (Hnow : 30 <= 1001) by lra.
    destruct (forced_alert_resets_cooldown _ _ _ _ _ _ _ _ _ _ Hnow Hforce)
      as (a & _ & _ & _ & Hlast & _).
    exact Hlast.
  - exfalso. unfold EnhancedMonitor.force_alert in Hforce.
    destruct (analyze_scene_advanced_total ∅ (Frame 100 100 120) one_person
                (inl 0%Z) 0 1001) as (a & pt' & Ha & _).
    + lra.
    + intros i. unfold Enhanced.get_track. rewrite lookup_empty.
      apply new_track_ok.
    + cbn [EnhancedMonitor.person_tracks] in Hforce. rewrite Ha in Hforce. done.
Defined.

End forced_alert.

(** ** A forced alert followed by a periodic pass *)
Section forced_then_periodic.

(** X16: a forced alert that is not delivered - the scene is LOW, or the
    POST fails - leaves the entry of the source at 0. The next periodic
    pass of the same source then POSTs whenever its own severity is
    CRITICAL, HIGH or MEDIUM, however recently an alert of that source was
    delivered before the key was pressed. *)
Theorem undelivered_forced_alert_opens_gate (m m1 m2 : EnhancedMonitor.monitor)
  (source : camera_id) (fr1 fr2 : frame) (d1 d2 : list (list box))
  (ta1 ts1 ta2 ts2 : R) (iso1 iso2 : string) (reply1 reply2 : post_result)
  (s1 s2 : Enhanced.sent) :
  EnhancedMonitor.force_alert m source fr1 d1 ta1 ts1 iso1 reply1 = Some (s1, m1) ->
  Enhanced.returned s1 = false ->
  30 <= ts2 ->
  EnhancedMonitor.periodic m1 source fr2 d2 ta2 ts2 iso2 reply2 = Some (s2, m2) ->
  exists a2,
    Enhanced.analyze_scene_advanced (EnhancedMonitor.person_tracks m1) fr2 d2
      source ta2 = Some (a2, EnhancedMonitor.person_tracks m2) /\
    (is_Some (Enhanced.posted s2) <->
       Enhanced.severity_of a2 ∈ [CRITICAL; HIGH; MEDIUM]) /\
    (Enhanced.returned s2 = true <->
       Enhanced.severity_of a2 ∈ [CRITICAL; HIGH; MEDIUM] /\
       reply2 = Response 200).
Proof.
  unfold EnhancedMonitor.force_alert, EnhancedMonitor.periodic.
  destruct (Enhanced.analyze_scene_advanced _ fr1 _ _ _) as [[a1 pt1]|]; [|done].
  cbv zeta. intros [= <- <-] Hret Hts2.
  cbn [EnhancedMonitor.person_tracks EnhancedMonitor.last_alert_time].
  destruct (Enhanced.analyze_scene_advanced _ fr2 _ _ _) as [[a2 pt2]|]; [|done].
  intros [= <- <-]. exists a2.
  cbn [EnhancedMonitor.person_tracks]. split; [done|].
  set (last0 := <[ source := 0 ]> (EnhancedMonitor.last_alert_time m)) in *.
  destruct (enhanced_recorded last0 source a1 ts1 iso1 reply1) as [Hyes1 Hno1].
  cbv zeta in Hyes1, Hno1.
  set (s1 := Enhanced.send_alert last0 source a1 ts1 iso1 reply1) in *.
  assert (Hlast1 : Enhanced.last_alert_time s1 = last0).
  { destruct (decide (delivered (Enhanced.posted s1) reply1)) as [Hd|Hd].
    - destruct (Hyes1 Hd) as [Htrue _]. congruence.
    - by destruct (Hno1 Hd). }
  rewrite Hlast1.
  assert (Hopen : not_blocked last0 source ts2 Enhanced.alert_cooldown).
  { right. exists 0. split; [apply lookup_insert_eq|].
    unfold Enhanced.alert_cooldown. lra. }
  pose proof (enhanced_posted last0 source a2 ts2 iso2 reply2) as Hposted.
  destruct (enhanced_recorded last0 source a2 ts2 iso2 reply2) as [Hyes2 Hno2].
  cbv zeta in Hyes2, Hno2.
  set (s2 := Enhanced.send_alert last0 source a2 ts2 iso2 reply2) in *.
  split; [tauto|].
  destruct (decide (delivered (Enhanced.posted s2) reply2)) as [Hd|Hd].
  - destruct (Hyes2 Hd) as [-> _]. destruct Hd as [Hsome ->]. tauto.
  - destruct (Hno2 Hd) as [-> _]. unfold delivered in Hd.
    split; [done|]. tauto.
Qed.

Lemma undelivered_forced_alert_opens_gate_witness :
  exists s1 m1 s2 m2 a2,
    EnhancedMonitor.force_alert
      (EnhancedMonitor.Monitor ∅ (<[ inl 0%Z := 1000 ]> ∅)) (inl 0%Z)
      (Frame 100 100 120) one_person 1001 1001 "2025-01-01T00:00:00"
      (Response 500) = Some (s1, m1) /\
    EnhancedMonitor.periodic m1 (inl 0%Z) (Frame 100 100 120) one_person
      1002 1002 "2025-01-01T00:00:01" (Response 200) = Some (s2, m2) /\
    (is_Some (Enhanced.posted s2) <->
       Enhanced.severity_of a2 ∈ [CRITICAL; HIGH; MEDIUM]).
Proof.
  destruct (analyze_scene_advanced_total ∅ (Frame 100 100 120) one_person
              (inl 0%Z) 0 1001) as (a1 & pt1 & Ha1 & Hok1).
  { lra. }
  { intros i. unfold Enhanced.get_track. rewrite lookup_empty.
    apply new_track_ok. }
  destruct (analyze_scene_advanced_total pt1 (Frame 100 100 120) one_person
              (inl 0%Z) 1001 1002) as (a2 & pt2 & Ha2 & _).
  { lra. }
  { exact Hok1. }
  set (last0 := <[ inl 0%Z := 0 ]> (<[ inl 0%Z := 1000 ]> ∅) : gmap camera_id R).
  set (s1 := Enhanced.send_alert last0 (inl 0%Z) a1 1001 "2025-01-01T00:00:00"
               (Response 500)).
  set (m1 := EnhancedMonitor.Monitor pt1 (Enhanced.last_alert_time s1)).
  set (s2 := Enhanced.send_alert (Enhanced.last_alert_time s1) (inl 0%Z) a2 1002
               "2025-01-01T00:00:01" (Response 200)).
  set (m2 := EnhancedMonitor.Monitor pt2 (Enhanced.last_alert_time s2)).
  assert (Hforce : EnhancedMonitor.force_alert
                     (EnhancedMonitor.Monitor ∅ (<[ inl 0%Z := 1000 ]> ∅))
                     (inl 0%Z) (Frame 100 100 120) one_person 1001 1001
                     "2025-01-01T00:00:00" (Response 500) = Some (s1, m1)).
  { unfold EnhancedMonitor.force_alert.
    cbn [EnhancedMonitor.person_tracks EnhancedMonitor.last_alert_time].
    by rewrite Ha1. }
  assert (Hper : EnhancedMonitor.periodic m1 (inl 0%Z) (Frame 100 100 120)
                   one_person 1002 1002 "2025-01-01T00:00:01" (Response 200)
                 = Some (s2, m2)).
  { unfold EnhancedMonitor.periodic. subst m1.
    cbn [EnhancedMonitor.person_tracks EnhancedMonitor.last_alert_time].
    by rewrite Ha2. }
  assert (Hret : Enhanced.returned s1 = false).
  { destruct (enhanced_recorded last0 (inl 0%Z) a1 1001 "2025-01-01T00:00:00"
                (Response 500)) as [_ Hno].
    apply Hno. intros [_ Hd]. discriminate Hd. }
  assert (Hts : 30 <= 1002) by lra.
  destruct (undelivered_forced_alert_opens_gate _ _ _ _ _ _ _ _ _ _ _ _ _ _ _ _
              _ _ Hforce Hret Hts Hper) as (a2' & _ & Hposted & _).
  exists s1, m1, s2, m2, a2'. done.
Defined.

End forced_then_periodic.

(** ** What the queue can hold *)
Section queued_payload.

Lemma emitted_payload (cams : gmap string Multi.camera_config)
  (s : Multi.system) (e : Multi.event) (x : string * R * Multi.alert_data) :
  x ∈ emitted cams s e ->
  exists cfg c,
    e = Multi.CameraIter x.1.1 c /\ cams !! x.1.1 = Some cfg /\
    x.1.2 = Multi.cap_time c /\
    let a := Multi.analyze_frame (Multi.cap_frame c) (Multi.cap_detections c)
                                 x.1.1 in
    x.2 = Multi.build_alert x.1.1 cfg a (Multi.cap_iso c) /\
    Multi.severity_of a ∈ [CRITICAL; HIGH; MEDIUM].
Proof.
  destruct e as [cam_id c|reply]; [|by intros ?%elem_of_nil].
  unfold emitted.
  destruct (Multi.system_step cams s _) as [s'|] eqn:Hstep;
    [|by intros ?%elem_of_nil].
  unfold Multi.system_step in Hstep.
  destruct (cams !! cam_id) as [cfg|] eqn:Hcfg; [|done].
  match type of Hstep with
  | context [Multi.worker_iter ?a ?b ?c ?d] =>
      destruct (Multi.worker_iter a b c d) as [[w' sh']|] eqn:Hiter; [|done]
  end.
  injection Hstep as <-. cbn [Multi.sys_shared].
  apply worker_iter_cases in Hiter as (st & _ & _ & _ & Hcases).
  cbv zeta in Hcases.
  destruct (decide _) as [Hm|Hm]; destruct Hcases as (_ & Hq & _); rewrite Hq.
  - match type of Hq with
    | context [Multi.process_frame ?a ?b ?c ?l ?st1] =>
        destruct (process_frame_cases a b c l st1) as [Hyes Hno]
    end.
    cbv zeta in Hyes, Hno.
    match type of Hyes with
    | ?P -> _ => destruct (decide P) as [Hp|Hp]
    end.
    + rewrite (Hyes Hp), drop_app_length. cbn [snd option_list map].
      intros ->%list_elem_of_singleton. exists cfg, c. cbn [fst snd].
      repeat split; try done.
      apply crit_high_medium; [apply analyze_frame_severity|apply Hp].
    + rewrite (Hno Hp). cbn [snd option_list]. rewrite app_nil_r, drop_all.
      by intros ?%elem_of_nil.
  - rewrite drop_all. by intros ?%elem_of_nil.
Qed.

Lemma system_trace_forall (cams : gmap string Multi.camera_config)
  (P : string * R * Multi.alert_data -> Prop) :
  (forall s e x, x ∈ emitted cams s e -> P x) ->
  forall es s x, x ∈ system_trace cams s es -> P x.
Proof.
  intros Hstep. induction es as [|e es IH]; intros s x;
    cbn [system_trace].
  - by intros ?%elem_of_nil.
  - intros [Hx|Hx]%elem_of_app; [by eapply Hstep|].
    destruct (Multi.system_step cams s e) as [s'|]; [by eapply IH|].
    by apply elem_of_nil in Hx.
Qed.

(** X17: what the camera threads put on the queue, over any interleaving
    of iterations. Every alert carries the name and the coordinates of the
    configuration of its camera and the camera's identifier in upper case;
    its severity is CRITICAL, HIGH or MEDIUM; it reports one or two
    persons, two only with severity HIGH; and its lighting is [Dark]
    unless its severity is MEDIUM, in which case it is [Well-lit]. *)
Theorem queued_alerts_payload (cams : gmap string Multi.camera_config)
  (es : list Multi.event) (s : Multi.system) (cam_id : string) (t : R)
  (alert : Multi.alert_data) :
  (cam_id, t, alert) ∈ system_trace cams s es ->
  (exists cfg,
     cams !! cam_id = Some cfg /\ Multi.place alert = Multi.name cfg /\
     Multi.a_lat alert = Multi.lat cfg /\ Multi.a_lng alert = Multi.lng cfg) /\
  Multi.cameraId alert = upper cam_id /\
  Multi.severity_ alert ∈ [CRITICAL; HIGH; MEDIUM] /\
  (Multi.personCount alert = 1%nat \/
   Multi.personCount alert = 2%nat /\ Multi.severity_ alert = HIGH) /\
  Multi.lighting alert =
    (if decide (Multi.severity_ alert = MEDIUM) then "Well-lit" else "Dark").
Proof.
  set (Q := fun x : string * R * Multi.alert_data =>
    (exists cfg,
       cams !! x.1.1 = Some cfg /\ Multi.place x.2 = Multi.name cfg /\
       Multi.a_lat x.2 = Multi.lat cfg /\ Multi.a_lng x.2 = Multi.lng cfg) /\
    Multi.cameraId x.2 = upper x.1.1 /\
    Multi.severity_ x.2 ∈ [CRITICAL; HIGH; MEDIUM] /\
    (Multi.personCount x.2 = 1%nat \/
     Multi.personCount x.2 = 2%nat /\ Multi.severity_ x.2 = HIGH) /\
    Multi.lighting x.2 =
      (if decide (Multi.severity_ x.2 = MEDIUM) then "Well-lit" else "Dark")).
  intros Hin. change (Q (cam_id, t, alert)).
  apply (system_trace_forall cams Q) with (es := es) (s := s); [|exact Hin].
  clear. intros s e [[cam_id t] alert] Hx. subst Q.
  apply emitted_payload in Hx as (cfg & c & _ & Hcfg & _ & Ha).
  cbn [fst snd] in *. cbv zeta in Ha. destruct Ha as [-> Hsev].
  cbn [Multi.build_alert Multi.place Multi.a_lat Multi.a_lng Multi.cameraId
       Multi.severity_ Multi.personCount Multi.lighting].
  split; [by exists cfg|]. split; [done|]. split; [done|].
  revert Hsev. unfold Multi.analyze_frame.
  generalize (length (Multi.scan_detections (Multi.cap_detections c))).
  intros n.
  repeat case_bool_decide; cbn -[elem_of]; intros Hsev;
    try (by apply (bool_decide_pack _) in Hsev);
    (split; [first [left; lia | right; split; [lia|done]]|]);
    first [ by repeat case_decide | exfalso; lra | exfalso; lia ].
Qed.

Lemma queued_alerts_payload_witness :
  exists alert,
    ("cam1"%string, 100, alert) ∈
      system_trace Multi.cameras
        (Multi.System (Multi.Shared [] (Multi.initial_camera_stats Multi.cameras) [])
                      (<[ "cam1"%string := Multi.Worker 29 0 ]> ∅))
        [Multi.CameraIter "cam1" (dark_capture 100)] /\
    Multi.cameraId alert = upper "cam1".
Proof.
  set (s := Multi.System
              (Multi.Shared [] (Multi.initial_camera_stats Multi.cameras) [])
              (<[ "cam1"%string := Multi.Worker 29 0 ]> ∅)).
  set (cfg := Multi.CameraConfig (inl 0%Z) "Park Street - North Gate"
                                 11.1085 77.3411 true).
  set (alert := Multi.build_alert "cam1" cfg
                  (Multi.analyze_frame (Multi.cap_frame (dark_capture 100))
                     (Multi.cap_detections (dark_capture 100)) "cam1")
                  (Multi.cap_iso (dark_capture 100))).
  assert (Hin : ("cam1"%string, 100, alert) ∈
                system_trace Multi.cameras s
                  [Multi.CameraIter "cam1" (dark_capture 100)]).
  { assert (Hw : Multi.sys_workers s !! "cam1"%string =
                 Some (Multi.Worker 29 0)) by reflexivity.
    cbn [system_trace]. apply elem_of_app. left.
    rewrite (analysed_frame_emits Multi.cameras s "cam1" cfg (dark_capture 100)
               Multi.initial_stats).
    - apply list_elem_of_singleton. reflexivity.
    - reflexivity.
    - reflexivity.
    - by rewrite Hw.
    - rewrite dark_capture_critical. unfold severity_le. simpl. lia.
    - rewrite Hw. unfold Multi.alert_cooldown. simpl. lra. }
  exists alert. split; [exact Hin|].
  destruct (queued_alerts_payload _ _ _ _ _ _ Hin) as (_ & Hid & _).
  exact Hid.
Defined.

End queued_payload.

(** ** What the enhanced monitor POSTs *)
Section posted_payload.

Lemma enhanced_posted_record (last : gmap camera_id R) (camera : camera_id)
  (a : Enhanced.analysis) (now : R) (iso : string) (reply : post_result)
  (alert : Enhanced.alert_data) :
  Enhanced.posted (Enhanced.send_alert last camera a now iso reply) = Some alert ->
  alert = Enhanced.build_alert camera a iso /\
  Enhanced.severity_of a ∈ [CRITICAL; HIGH; MEDIUM].
Proof.
  unfold Enhanced.send_alert.
  destruct (match last !! camera with Some _ => _ | None => _ end); [done|].
  case_bool_decide as Hsev; [|done].
  destruct reply as [st|msg]; [destruct (bool_decide (st = 200%Z))|];
    by intros [= <-].
Qed.

Lemma analysis_light (pt pt' : gmap nat Enhanced.track) (fr : frame)
  (detections : list (list box)) (camera : camera_id) (now : R)
  (a : Enhanced.analysis) :
  Enhanced.analyze_scene_advanced pt fr detections camera now = Some (a, pt') ->
  Enhanced.brightness a = mean_gray fr /\
  Enhanced.is_dark a = bool_decide (mean_gray fr < 80).
Proof.
  unfold Enhanced.analyze_scene_advanced.
  destruct (Enhanced.extract_persons now detections pt) as [ps pt1].
  destruct (Enhanced.analyze_crowd_density ps fr) as [lvl d].
  repeat match goal with
         | |- context [if ?c then _ else _] => destruct c
         | |- context [match ?c with Some _ => _ | None => _ end] =>
             destruct c
         end; by intros [= <- <-].
Qed.

Lemma analysis_risk_factors (pt pt' : gmap nat Enhanced.track) (fr : frame)
  (detections : list (list box)) (camera : camera_id) (now : R)
  (a : Enhanced.analysis) :
  Enhanced.analyze_scene_advanced pt fr detections camera now = Some (a, pt') ->
  Enhanced.severity_of a <> LOW ->
  (1 <= Enhanced.person_count a)%nat /\
  (match Enhanced.risk_factors a with
   | [] => "None"
   | _ => join ", " (Enhanced.risk_factors a)
   end = "None" <->
   Enhanced.severity_of a = MEDIUM /\ (Enhanced.person_count a <= 2)%nat).
Proof.
  unfold Enhanced.analyze_scene_advanced.
  destruct (Enhanced.extract_persons now detections pt) as [ps pt1].
  pose proof (crowd_level_empty ps fr) as Hempty.
  destruct (Enhanced.analyze_crowd_density ps fr) as [lvl d].
  cbn [fst] in Hempty.
  assert (Hn0 : length ps = 0%nat -> lvl <> Enhanced.very_crowded).
  { intros Hlen. destruct ps; [|done]. by rewrite (proj2 Hempty eq_refl). }
  clear Hempty. revert Hn0.
  generalize (existsb (fun p => Enhanced.is_in_risk_zone (Enhanced.p_bbox p) camera) ps).
  generalize (Enhanced.detect_loitering (Enhanced.get_track pt1 0) now).
  generalize (Enhanced.calculate_speed
                (Enhanced.positions (Enhanced.get_track pt1 0))
                (Enhanced.timestamps (Enhanced.get_track pt1 0))).
  generalize (length ps). clear. intros n speed loit zn Hn0.
  destruct (decide (n = 1%nat)) as [->|Hn1];
    [|destruct (decide (n = 2%nat)) as [->|Hn2]].
  - destruct (decide (mean_gray fr < 50)); destruct (decide (mean_gray fr < 80));
      destruct loit, speed as [v|]; try destruct (Enhanced.detect_running v);
      settle; intros [= <- <-] Hlow; cbn; (split; [lia|]);
      split; first [ done | by intros [? ?] | intros; split; [done|lia] ].
  - destruct (decide (mean_gray fr < 50)); destruct (decide (mean_gray fr < 80));
      destruct zn; settle; intros [= <- <-] Hlow; cbn; (split; [lia|]);
      split; first [ done | by intros [? ?] | intros; split; [done|lia] ].
  - rewrite !(bool_decide_eq_false_2 (n = 1%nat)) by done.
    rewrite !(bool_decide_eq_false_2 (n = 2%nat)) by done. cbn [andb].
    assert (Hn : lvl = Enhanced.very_crowded -> (3 <= n)%nat).
    { intros Hl. destruct (decide (n = 0%nat)) as [Hz|Hz]; [|lia].
      by destruct (Hn0 Hz). }
    case_bool_decide as Hl.
    + specialize (Hn Hl). intros [= <- <-] Hlow; cbn.
      split; [lia|]. split; [done|]. intros [_ ?]. lia.
    + case_bool_decide; intros [= <- <-] Hlow; by destruct Hlow.
Qed.

(** X18: the record a periodic pass of the enhanced monitor POSTs. Its
    severity is CRITICAL, HIGH or MEDIUM and it reports at least one
    person; the lighting field is [Very Dark] below brightness 50, [Dark]
    from 50 to below 80 and [Well-lit] from 80 on; the risk factors are
    [None] exactly for a MEDIUM alert about one or two persons; and for
    every source other than camera 1 and "video" - a video file, a stream
    address, another camera number - the place and the coordinates are
    those of camera 0. *)
Theorem periodic_alert_payload (m m' : EnhancedMonitor.monitor)
  (source : camera_id) (fr : frame) (detections : list (list box))
  (now_analysis now_send : R) (iso : string) (reply : post_result)
  (s : Enhanced.sent) (alert : Enhanced.alert_data) :
  EnhancedMonitor.periodic m source fr detections now_analysis now_send iso
                           reply = Some (s, m') ->
  Enhanced.posted s = Some alert ->
  let b := mean_gray fr in
  Enhanced.severity_ alert ∈ [CRITICAL; HIGH; MEDIUM] /\
  (1 <= Enhanced.personCount alert)%nat /\
  Enhanced.lighting alert =
    (if decide (b < 50) then "Very Dark"
     else if decide (b < 80) then "Dark" else "Well-lit") /\
  (Enhanced.riskFactors alert = "None" <->
     Enhanced.severity_ alert = MEDIUM /\ (Enhanced.personCount alert <= 2)%nat) /\
  Enhanced.brightnessLevel alert = py_int b /\
  Enhanced.time_ alert = iso /\
  (source <> inl 1%Z -> source <> inr "video"%string ->
     Enhanced.place alert = "Park Street - North Gate" /\
     Enhanced.a_lat alert = 11.1085 /\ Enhanced.a_lng alert = 77.3411).
Proof.
  unfold EnhancedMonitor.periodic.
  destruct (Enhanced.analyze_scene_advanced _ _ _ _ _) as [[a pt]|] eqn:Ha;
    [|done].
  cbv zeta. intros [= <- <-] Hposted.
  apply enhanced_posted_record in Hposted as [-> Hsev].
  cbn [Enhanced.build_alert Enhanced.severity_ Enhanced.personCount
       Enhanced.lighting Enhanced.riskFactors Enhanced.brightnessLevel
       Enhanced.time_ Enhanced.place Enhanced.a_lat Enhanced.a_lng].
  destruct (analysis_light _ _ _ _ _ _ _ Ha) as [-> ->].
  destruct (analysis_risk_factors _ _ _ _ _ _ _ Ha) as [Hn Hrf].
  { intros Hlow. rewrite Hlow in Hsev. by apply (bool_decide_pack _) in Hsev. }
  split; [done|]. split; [done|]. split.
  { repeat first [case_decide | case_bool_decide]; first [done | exfalso; lra]. }
  split; [done|]. split; [done|]. split; [done|].
  intros H1 Hv.
  assert (Hloc : Enhanced.location_of source =
            Enhanced.Location "Park Street - North Gate" 11.1085 77.3411
                              [BBox 100 100 300 300]).
  { unfold Enhanced.location_of, Enhanced.camera_locations.
    destruct (decide (source = inl 0%Z)) as [->|H0]; [reflexivity|].
    rewrite !lookup_insert_ne by done. by rewrite lookup_empty. }
  by rewrite Hloc.
Qed.

Lemma periodic_alert_payload_witness :
  exists s m' alert,
    EnhancedMonitor.periodic (EnhancedMonitor.Monitor ∅ ∅) (inr "clip.mp4"%string)
      (Frame 100 100 30) one_person 1000 1000 "2025-01-01T00:00:00"
      (Response 200) = Some (s, m') /\
    Enhanced.posted s = Some alert /\
    Enhanced.place alert = "Park Street - North Gate"%string /\
    Enhanced.lighting alert = "Very Dark"%string.
Proof.
  assert (Ha : exists a pt',
            Enhanced.analyze_scene_advanced ∅ (Frame 100 100 30) one_person
              (inr "clip.mp4"%string) 1000 = Some (a, pt') /\
            Enhanced.severity_of a = CRITICAL).
  { unfold Enhanced.analyze_scene_advanced, Enhanced.extract_persons,
      Enhanced.scan_detection, Enhanced.scan_box. settle.
    destruct (Enhanced.analyze_crowd_density _ _) as [lvl d].
    eexists _, _. split; reflexivity. }
  destruct Ha as (a & pt' & Ha & Hcrit).
  set (s := Enhanced.send_alert ∅ (inr "clip.mp4"%string) a 1000
              "2025-01-01T00:00:00" (Response 200)).
  set (alert := Enhanced.build_alert (inr "clip.mp4"%string) a
                  "2025-01-01T00:00:00").
  assert (Hper : EnhancedMonitor.periodic (EnhancedMonitor.Monitor ∅ ∅)
                   (inr "clip.mp4"%string) (Frame 100 100 30) one_person 1000
                   1000 "2025-01-01T00:00:00" (Response 200)
                 = Some (s, EnhancedMonitor.Monitor pt'
                              (Enhanced.last_alert_time s))).
  { unfold EnhancedMonitor.periodic.
    cbn [EnhancedMonitor.person_tracks EnhancedMonitor.last_alert_time].
    by rewrite Ha. }
  assert (Hposted : Enhanced.posted s = Some alert).
  { subst s alert. unfold Enhanced.send_alert. rewrite lookup_empty, Hcrit.
    reflexivity. }
  exists s, (EnhancedMonitor.Monitor pt' (Enhanced.last_alert_time s)), alert.
  split; [exact Hper|]. split; [exact Hposted|].
  destruct (periodic_alert_payload _ _ _ _ _ _ _ _ _ _ _ Hper Hposted)
    as (_ & _ & Hlight & _ & _ & _ & Hplace).
  split.
  - by apply Hplace.
  - rewrite Hlight. rewrite decide_True; [done|]. simpl. lra.
Defined.

End posted_payload.
